(** * Stage pipeline of the greenwashing detective: recovery planner and orchestrator

    Shallow embedding of [src/recovery_utils.py] (artifact checker and
    resume planner) and of the analysis block of [query_company] in
    [app.py] (active-job registry, stage execution, finalization),
    followed by the properties stated about them. *)

From Stdlib Require Import ZArith Ascii String.
From stdpp Require Import base option list gmap strings pretty.

Local Open Scope string_scope.
Local Open Scope Z_scope.
Set Warnings "-register-all".

(** ** Python values the code inspects *)

(** What [json.load] can return. Numbers carry no arithmetic here, an
    integer stands for any JSON number. *)
Inductive json : Type :=
  | JNull
  | JBool (b : bool)
  | JNum (n : Z)
  | JStr (s : string)
  | JList (items : list json)
  | JDict (fields : gmap string json).

(** An exception: its class name and its text, [str(e)]. Only subclasses
    of [Exception] are modelled: these are the ones the handlers of the
    source catch. *)
Record exn : Type := Exn { exn_class : string; exn_text : string }.

Inductive result (A : Type) : Type :=
  | Ok (a : A)
  | Raise (e : exn).
Arguments Ok {A} a.
Arguments Raise {A} e.

Definition rbind {A B} (r : result A) (k : A → result B) : result B :=
  match r with
  | Ok a => k a
  | Raise e => Raise e
  end.

#[export] Instance result_bind : MBind result := λ A B k r, rbind r k.

(** [try: body  except Exception as e: handler(e)] *)
Definition try_except {A} (body : result A) (handler : exn → result A) : result A :=
  match body with
  | Ok a => Ok a
  | Raise e => handler e
  end.

(** ** File system *)

(** What opening a path and running [json.load] on it gives. *)
Inductive node : Type :=
  | Unreadable (e : exn)        (* open() or read() raises: directory, permission, encoding *)
  | Malformed (err : string)    (* json.load raises JSONDecodeError, e.g. on a zero-byte file *)
  | Json (v : json).            (* json.load returns v *)

Definition FileNotFoundError (p : string) : exn :=
  Exn "FileNotFoundError" ("[Errno 2] No such file or directory: '" +:+ p +:+ "'").

(** The state of the disk as the code observes it: the paths that exist
    with what reading them yields, the answer of [glob.glob] for each
    pattern, and the paths [os.remove] refuses with its error. *)
Record filesystem : Type := {
  files : gmap string node;
  glob_matches : string → list string;
  remove_denied : gmap string exn
}.

Definition os_path_exists (fs : filesystem) (p : string) : bool :=
  bool_decide (is_Some (files fs !! p)).

(** [with open(p) as f: json.load(f)] *)
Definition json_load (fs : filesystem) (p : string) : result json :=
  match files fs !! p with
  | None => Raise (FileNotFoundError p)
  | Some (Unreadable e) => Raise e
  | Some (Malformed err) => Raise (Exn "JSONDecodeError" err)
  | Some (Json v) => Ok v
  end.

(** [os.remove(p)]: the path disappears, also from later [glob] answers. *)
Definition os_remove (fs : filesystem) (p : string) : result unit * filesystem :=
  match remove_denied fs !! p with
  | Some e => (Raise e, fs)
  | None =>
      match files fs !! p with
      | None => (Raise (FileNotFoundError p), fs)
      | Some _ =>
          (Ok (),
           {| files := delete p (files fs);
              glob_matches := λ pat, filter (λ q, q ≠ p) (glob_matches fs pat);
              remove_denied := remove_denied fs |})
      end
  end.

(** POSIX [os.path.join(a, b)]. *)
Fixpoint ends_with_sep (a : string) : bool :=
  match a with
  | EmptyString => false
  | String c EmptyString => bool_decide (c = "/"%char)
  | String _ rest => ends_with_sep rest
  end.

Definition starts_with_sep (b : string) : bool :=
  match b with
  | String c _ => bool_decide (c = "/"%char)
  | EmptyString => false
  end.

Definition os_path_join (a b : string) : string :=
  if starts_with_sep b then b
  else if bool_decide (a = "") || ends_with_sep a then a +:+ b
  else a +:+ "/" +:+ b.

(** [f"{year}_{company_code}"], the prefix of every artifact name. *)
Definition job_prefix (year : Z) (company_code : string) : string :=
  pretty year +:+ "_" +:+ company_code.

(** ** Configuration *)

(** [config.py] as imported by the pipeline ([PATHS], [get_file_path]) is
    taken as a parameter: the directory of each key, and the artifact
    path of a key for a job. *)
Record config : Type := {
  PATHS : string → string;
  get_file_path : string → Z → string → string
}.

(** ** recovery_utils.py *)

Record stage_detail : Type := {
  completed : bool;
  path : string;
  msg : string
}.

Record resume_info : Type := {
  resume_from : string;
  completed_stages : list string;
  stage_details : gmap string stage_detail
}.

Definition stages : list string :=
  ["stage1"; "stage2"; "stage3"; "stage4"; "stage5"; "stage6"].

Section Recovery.
Variable cfg : config.
Variable fs : filesystem.

Definition pdf_pattern (year : Z) (company_code : string) : string :=
  os_path_join (PATHS cfg "ESG_REPORTS") (job_prefix year company_code +:+ "_*.pdf").

Definition check_pdf_exists (year : Z) (company_code : string) : bool * string :=
  let pattern := pdf_pattern year company_code in
  match glob_matches fs pattern with
  | first_match :: _ => (true, first_match)
  | [] => (false, "PDF 不存在: " +:+ pattern)
  end.

Definition check_json_valid (file_path : string) : result (bool * string) :=
  if negb (os_path_exists fs file_path) then
    Ok (false, "檔案不存在: " +:+ file_path)
  else
    try_except
      (data ← json_load fs file_path;
         match data with
         | JList items =>
             if bool_decide (0 < length items)%nat
             then Ok (true, "有效 JSON (" +:+ pretty (length items) +:+ " 筆資料)")
             else Ok (false, "JSON 內容為空")
         | JDict fields =>
             if bool_decide (0 < size fields)%nat
             then Ok (true, "有效 JSON (物件)")
             else Ok (false, "JSON 內容為空")
         | _ => Ok (false, "JSON 內容為空")
         end)
      (λ e,
         if bool_decide (exn_class e = "JSONDecodeError")
         then Ok (false, "JSON 解析失敗: " +:+ exn_text e)
         else Ok (false, "讀取失敗: " +:+ exn_text e)).

(** The four JSON branches of [check_stage_completion] share this shape. *)
Definition json_stage (key : string) (year : Z) (company_code : string)
    : result (bool * string * string) :=
  let p := get_file_path cfg key year company_code in
  checked ← check_json_valid p;
  let '(valid, m) := checked : bool * string in
  Ok (valid, if valid then p else "", m).

Definition check_stage_completion (year : Z) (company_code stage : string)
    : result (bool * string * string) :=
  if bool_decide (stage = "stage1") then
    let '(exists_, path_or_msg) := check_pdf_exists year company_code in
    Ok (exists_, if exists_ then path_or_msg else "", path_or_msg)
  else if bool_decide (stage = "stage2") then json_stage "P1_JSON" year company_code
  else if bool_decide (stage = "stage3") then json_stage "NEWS_JSON" year company_code
  else if bool_decide (stage = "stage4") then json_stage "P2_JSON" year company_code
  else if bool_decide (stage = "stage5") then json_stage "P3_JSON" year company_code
  else if bool_decide (stage = "stage6") then
    Ok (false, "", "Stage 6 需在資料庫層檢查")
  else Ok (false, "", "未知階段: " +:+ stage).

(** First loop of [determine_resume_point]: one check per stage, in
    order, filling [stage_details] and appending to [completed_stages]. *)
Fixpoint check_each (year : Z) (company_code : string) (todo : list string)
    (acc : resume_info) : result resume_info :=
  match todo with
  | [] => Ok acc
  | stage :: rest =>
      checked ← check_stage_completion year company_code stage;
      let '(c, p, m) := checked : bool * string * string in
      check_each year company_code rest
        {| resume_from := resume_from acc;
           completed_stages :=
             if c then completed_stages acc ++ [stage] else completed_stages acc;
           stage_details :=
             <[stage := {| completed := c; path := p; msg := m |}]> (stage_details acc) |}
  end.

(** Second loop: [for stage in stages: if stage not in done: ... break];
    [None] when the loop reaches its [else]. *)
Fixpoint first_not_in (todo done : list string) : option string :=
  match todo with
  | [] => None
  | stage :: rest =>
      if bool_decide (stage ∈ done) then first_not_in rest done else Some stage
  end.

Definition determine_resume_point (year : Z) (company_code current_status : string)
    : result resume_info :=
  r ← check_each year company_code stages
        {| resume_from := "stage1"; completed_stages := []; stage_details := ∅ |};
  Ok {| resume_from :=
          match first_not_in stages (completed_stages r) with
          | Some stage => stage
          | None => "stage6"
          end;
        completed_stages := completed_stages r;
        stage_details := stage_details r |}.

End Recovery.

(** ** app.py: the state the analysis block works on *)

Inductive collaborator : Type :=
  | DownloadReport      (* crawler_esgReport.download_esg_report *)
  | WordCloud           (* word_cloud.generate_wordcloud *)
  | AIAnalysis          (* gemini_api.analyze_esg_report *)
  | NewsSearch          (* crawler_news.search_news_for_report *)
  | AIVerification      (* run_prompt2_gemini.verify_esg_with_news *)
  | SourceCheck         (* pplx_api.verify_evidence_sources *)
  | InsertResults       (* db_service.insert_analysis_results *)
  | QueryCompany.       (* db_service.query_company_data *)

(** What a run leaves behind, in order: status writes, collaborator
    calls, and the console lines that report a skip, a failure or a file
    removal, and the statistics of stages 3 to 5, whose lines can raise
    while they are built (banners and the success lines that cannot
    raise are not recorded). *)
Inductive event : Type :=
  | StatusWritten (esg_id status : string)
  | Called (c : collaborator)
  | Printed (line : string).

Record world : Type := {
  disk : filesystem;
  ACTIVE_PROCESSING : gmap string Z;      (* esg_id -> start timestamp *)
  analysis_status : gmap string string;   (* company.analysis_status by ESG_id *)
  journal : list event;
  clock : Z                               (* what time.time() answers *)
}.

Definition with_disk (w : world) (d : filesystem) : world :=
  {| disk := d; ACTIVE_PROCESSING := ACTIVE_PROCESSING w;
     analysis_status := analysis_status w; journal := journal w; clock := clock w |}.

Definition with_active (w : world) (a : gmap string Z) : world :=
  {| disk := disk w; ACTIVE_PROCESSING := a;
     analysis_status := analysis_status w; journal := journal w; clock := clock w |}.

Definition with_status (w : world) (s : gmap string string) : world :=
  {| disk := disk w; ACTIVE_PROCESSING := ACTIVE_PROCESSING w;
     analysis_status := s; journal := journal w; clock := clock w |}.

Definition logged (w : world) (ev : event) : world :=
  {| disk := disk w; ACTIVE_PROCESSING := ACTIVE_PROCESSING w;
     analysis_status := analysis_status w; journal := journal w ++ [ev]; clock := clock w |}.

(** The JSON answer of the endpoint with its HTTP code. *)
Record response : Type := {
  r_status : string;
  r_message : string;
  r_esg_id : string;
  r_data : option json;
  r_code : Z
}.

(** How a statement ends: it falls through with a value, the function
    returns a response, or an exception is in flight. *)
Inductive flow (A : Type) : Type :=
  | Next (a : A)
  | Returned (r : response)
  | Raised (e : exn).
Arguments Next {A} a.
Arguments Returned {A} r.
Arguments Raised {A} e.

Definition M (A : Type) : Type := world → flow A * world.

Definition ret {A} (a : A) : M A := λ w, (Next a, w).

Definition bind {A B} (m : M A) (k : A → M B) : M B := λ w,
  match m w with
  | (Next a, w') => k a w'
  | (Returned r, w') => (Returned r, w')
  | (Raised e, w') => (Raised e, w')
  end.

#[export] Instance M_ret : MRet M := @ret.
#[export] Instance M_bind : MBind M := λ A B k m, bind m k.

Definition respond {A} (r : response) : M A := λ w, (Returned r, w).
Definition raise {A} (e : exn) : M A := λ w, (Raised e, w).

Definition of_result {A} (r : result A) : M A :=
  match r with
  | Ok a => ret a
  | Raise e => raise e
  end.

(** [try: body  except Exception as e: handler(e)]: a [return] inside
    the body leaves the function, only an exception enters the handler. *)
Definition try_catch {A} (body : M A) (handler : exn → M A) : M A := λ w,
  match body w with
  | (Raised e, w') => handler e w'
  | other => other
  end.

Definition print (line : string) : M unit := λ w, (Next (), logged w (Printed line)).

(** An operation on the disk: its effect stays, whether it raises or not. *)
Definition on_disk {A} (f : filesystem → result A * filesystem) : M A := λ w,
  let '(r, d) := f (disk w) in of_result r (with_disk w d).

Definition read_disk {A} (f : filesystem → A) : M A := λ w, (Next (f (disk w)), w).

(** A collaborator that works on the disk. *)
Definition call {A} (c : collaborator) (f : filesystem → result A * filesystem) : M A := λ w,
  on_disk f (logged w (Called c)).

(** A collaborator that works on the database only. *)
Definition call_db {A} (c : collaborator) (r : result A) : M A := λ w,
  of_result r (logged w (Called c)).

(** Modelled from the spec: [db_service.update_analysis_status] is not
    under src/; per the persistence contract [setStatus(job_id, status)]
    it records the status of the job. *)
Definition update_analysis_status (esg_id status : string) : M unit := λ w,
  (Next (), logged (with_status w (<[esg_id := status]> (analysis_status w)))
                   (StatusWritten esg_id status)).

(** *** Active-job registry *)

Definition mark_processing_start (esg_id : string) : M unit := λ w,
  (Next (), with_active w (<[esg_id := clock w]> (ACTIVE_PROCESSING w))).

Definition mark_processing_end (esg_id : string) : M unit := λ w,
  if bool_decide (is_Some (ACTIVE_PROCESSING w !! esg_id))
  then (Next (), with_active w (delete esg_id (ACTIVE_PROCESSING w)))
  else (Next (), w).

Definition is_actively_processing (w : world) (esg_id : string) : bool :=
  bool_decide (is_Some (ACTIVE_PROCESSING w !! esg_id)).

(** *** Collaborators *)

(** What [generate_wordcloud] reports. *)
Record wordcloud_report : Type := {
  wc_success : bool;
  wc_skipped : bool;
  wc_error : option string
}.

(** What the news search, the AI verification and the source check
    return: the truth of ['success'] and of [.get('skipped')], the text
    of [.get('error')], and the dictionary itself, from which the
    statistics are read when a success is reported. *)
Record step_report : Type := {
  success : bool;
  skipped : bool;
  error : option string;
  details : gmap string json
}.

(** What [query_company_data] answers. *)
Record query_record : Type := {
  q_status : string;
  q_data : json;
  q_details : json
}.

(** The collaborators of the analysis block and what else the block
    takes from its surroundings. Those that produce files take the disk
    and give it back; [generate_wordcloud] answers [None] when its
    thread is still running after the 120 s the caller waits, and its
    output directory is not part of the modelled disk; [company_view]
    stands for [calculate_esg_scores] and the assembly of the company
    object from the record read back. [thread_schedule] is the order in
    which the two threads of stage 2 get to act for a job: [true] lets
    the word cloud thread take its next step, [false] the analysis
    thread. [py_str] and [py_format] are [str(v)] and [format(v, spec)]
    as the f-strings of the block apply them to the statistics. *)
Record services : Type := {
  download_esg_report : Z → string → filesystem → result (bool * string) * filesystem;
  generate_wordcloud : Z → string → string → bool → option (result wordcloud_report);
  thread_schedule : Z → string → list bool;
  py_str : json → string;
  py_format : string → json → result string;
  analyze_esg_report :
    string → Z → string → string → string → filesystem →
    result (gmap string string) * filesystem;
  search_news_for_report : Z → string → bool → filesystem → result step_report * filesystem;
  verify_esg_with_news : Z → string → bool → filesystem → result step_report * filesystem;
  verify_evidence_sources : Z → string → bool → filesystem → result step_report * filesystem;
  insert_analysis_results : string → string → string → string → json → result (bool * string);
  query_company_data : Z → string → gmap string string → result query_record;
  company_view : query_record → result json
}.

(** [os.path.basename] *)
Fixpoint contains_sep (p : string) : bool :=
  match p with
  | EmptyString => false
  | String c rest => bool_decide (c = "/"%char) || contains_sep rest
  end.

Fixpoint os_path_basename (p : string) : string :=
  match p with
  | EmptyString => EmptyString
  | String c rest =>
      if contains_sep rest then os_path_basename rest
      else if bool_decide (c = "/"%char) then rest
      else p
  end.

(** [len(v)] as evaluated for a log line: defined on strings, lists and
    objects. *)
Definition py_len_defined (v : json) : result unit :=
  match v with
  | JStr _ | JList _ | JDict _ => Ok ()
  | JNull => Raise (Exn "TypeError" "object of type 'NoneType' has no len()")
  | JBool _ => Raise (Exn "TypeError" "object of type 'bool' has no len()")
  | JNum _ => Raise (Exn "TypeError" "object of type 'int' has no len()")
  end.

(** [d.get(key, fallback)] on a dictionary of strings. *)
Definition dict_get (d : gmap string string) (key fallback : string) : string :=
  default fallback (d !! key).

Definition shown (o : option string) : string := default "None" o.

Definition type_name (v : json) : string :=
  match v with
  | JNull => "NoneType"
  | JBool _ => "bool"
  | JNum _ => "int"
  | JStr _ => "str"
  | JList _ => "list"
  | JDict _ => "dict"
  end.

(** [d[key]] on a dictionary. *)
Definition py_getitem (d : gmap string json) (key : string) : result json :=
  match d !! key with
  | Some v => Ok v
  | None => Raise (Exn "KeyError" ("'" +:+ key +:+ "'"))
  end.

(** [v[key]] with a string key. *)
Definition subscript (v : json) (key : string) : result json :=
  match v with
  | JDict fields => py_getitem fields key
  | JStr _ => Raise (Exn "TypeError" "string indices must be integers, not 'str'")
  | JList _ => Raise (Exn "TypeError" "list indices must be integers or slices, not str")
  | other => Raise (Exn "TypeError" ("'" +:+ type_name other +:+ "' object is not subscriptable"))
  end.

(** A run of [print(f"...")] statements: each line is printed once its
    text is built; the first text that raises ends the run. *)
Fixpoint print_each (lines : list (result string)) : M unit :=
  match lines with
  | [] => ret ()
  | Ok line :: rest => print line;; print_each rest
  | Raise e :: _ => raise e
  end.

(** The events of two threads in the order a schedule lets them act:
    [true] takes the next event of the first thread, [false] of the
    second; when the schedule ends the first thread goes on, then the
    second. *)
Fixpoint interleave (schedule : list bool) (first second : list event) : list event :=
  match schedule with
  | [] => first ++ second
  | turn :: later =>
      match first, second with
      | [], _ => second
      | _, [] => first
      | ev1 :: first', ev2 :: second' =>
          if turn then ev1 :: interleave later first' second
          else ev2 :: interleave later first second'
      end
  end.

Definition logged_each (w : world) (evs : list event) : world :=
  {| disk := disk w; ACTIVE_PROCESSING := ACTIVE_PROCESSING w;
     analysis_status := analysis_status w; journal := journal w ++ evs; clock := clock w |}.

(** *** cleanup_temp_files *)

Section Cleanup.
Variable cfg : config.

Definition file_targets (year : Z) (company_code company_name : string) : list string :=
  [ os_path_join (PATHS cfg "ESG_REPORTS")
      (job_prefix year company_code +:+ "_" +:+ company_name +:+ "_永續報告書.pdf");
    os_path_join (PATHS cfg "P1_JSON") (job_prefix year company_code +:+ "_p1.json");
    os_path_join (PATHS cfg "NEWS_OUTPUT") (job_prefix year company_code +:+ "_news.json");
    os_path_join (PATHS cfg "P2_JSON") (job_prefix year company_code +:+ "_p2.json");
    os_path_join (PATHS cfg "P3_JSON") (job_prefix year company_code +:+ "_p3.json") ].

(** Body of the loop: [try: if exists: remove; print  except: print]. *)
Definition remove_target (file_path : string) : M unit :=
  try_catch
    (present ← read_disk (λ d, os_path_exists d file_path);
     if present : bool then
       on_disk (λ d, os_remove d file_path);;
       print ("  ✅ 已刪除: " +:+ os_path_basename file_path)
     else ret ())
    (λ e, print ("  ⚠️ 無法刪除 " +:+ file_path +:+ ": " +:+ exn_text e)).

Fixpoint remove_each (targets : list string) : M unit :=
  match targets with
  | [] => ret ()
  | file_path :: rest => remove_target file_path;; remove_each rest
  end.

Definition cleanup_temp_files (year : Z) (company_code company_name : string) : M unit :=
  remove_each (file_targets year company_code company_name).

End Cleanup.

(** *** The analysis block of query_company

    Lines 413-687 of [app.py]: the block entered with [run_analysis] set,
    for the job [(year, company_code)] known to the database as [esg_id],
    with the [report_info] of [validate_report_exists] and the
    [resume_from] computed before it (the planner's answer on a resume,
    ["stage1"] on a first run). *)

Section Pipeline.
Variable cfg : config.
Variable svc : services.
Variables (year : Z) (company_code esg_id : string).
Variable report_info : gmap string string.
Variable resume_from : string.

Definition failed_response (message : string) : response :=
  {| r_status := "failed"; r_message := message; r_esg_id := esg_id;
     r_data := None; r_code := 500 |}.

(** Stage 1: download the report, or reuse the one on disk. *)
Definition stage1_download : M string :=
  if bool_decide (resume_from ∈ ["stage1"]) then
    update_analysis_status esg_id "stage1";;
    downloaded ← call DownloadReport (download_esg_report svc year company_code);
    let '(download_success, pdf_path_or_error) := downloaded : bool * string in
    if negb download_success then
      update_analysis_status esg_id "failed";;
      mark_processing_end esg_id;;
      respond (failed_response ("下載失敗: " +:+ pdf_path_or_error))
    else ret pdf_path_or_error
  else
    found ← read_disk (λ d, check_pdf_exists cfg d year company_code);
    print ("⏭️ Stage 1 已完成，跳過（PDF: " +:+ found.2 +:+ "）");;
    ret found.2.

(** Target of [WordCloudThread]: any exception becomes a failure
    report. What the thread leaves in [wordcloud_result] ([None] is the
    variable left unset by a thread that is still running) and its
    events in the journal. *)
Definition run_wordcloud (pdf_path : string) : option wordcloud_report * list event :=
  match generate_wordcloud svc year company_code pdf_path false with
  | None => (None, [Called WordCloud])
  | Some (Ok report) => (Some report, [Called WordCloud])
  | Some (Raise e) =>
      (Some {| wc_success := false; wc_skipped := false; wc_error := Some (exn_text e) |},
       [Called WordCloud; Printed ("⚠️ Word Cloud 生成錯誤: " +:+ exn_text e)])
  end.

(** Target of [AIAnalysisThread]. Its handler re-raises, but inside the
    thread: [threading.Thread] hands an exception that leaves the
    target to [threading.excepthook], which prints it, and the thread
    ends; [join()] returns normally and [analysis_result] keeps its
    initial [None]. What the thread leaves in [analysis_result], its
    events, and the disk. *)
Definition run_ai_analysis (pdf_path : string) (d : filesystem)
    : option (gmap string string) * list event * filesystem :=
  let '(r, d') :=
    analyze_esg_report svc pdf_path year company_code
      (dict_get report_info "company_name" "") (dict_get report_info "sector" "") d in
  match r with
  | Ok analysis => (Some analysis, [Called AIAnalysis], d')
  | Raise e =>
      (None,
       [Called AIAnalysis;
        Printed ("Exception in thread AIAnalysisThread: " +:+ exn_text e)],
       d')
  end.

(** From [wordcloud_thread.start()] to the return of [ai_thread.join()]:
    both targets run side by side; the journal takes their events in
    the order of [thread_schedule]. *)
Definition run_threads (pdf_path : string)
    : M (option wordcloud_report * option (gmap string string)) := λ w,
  let '(wordcloud_result, wordcloud_events) := run_wordcloud pdf_path in
  let '(analysis_result, analysis_events, d) := run_ai_analysis pdf_path (disk w) in
  (Next (wordcloud_result, analysis_result),
   with_disk
     (logged_each w
        (interleave (thread_schedule svc year company_code)
           wordcloud_events analysis_events))
     d).

(** Stage 2: word cloud and AI analysis side by side. *)
Definition stage2_analysis (pdf_path : string) : M (option (gmap string string)) :=
  if bool_decide (resume_from ∈ ["stage1"; "stage2"]) then
    update_analysis_status esg_id "stage2";;
    results ← run_threads pdf_path;
    let '(wordcloud_result, analysis_result) :=
      results : option wordcloud_report * option (gmap string string) in
    match wordcloud_result with
    | Some report =>
        if wc_success report then
          if wc_skipped report then print "ℹ️ Word Cloud 已存在，跳過生成" else ret ()
        else
          print ("⚠️ Word Cloud 生成失敗: " +:+ shown (wc_error report) +:+ "（不影響主流程）")
    | None => print "⚠️ Word Cloud 生成失敗: timeout（不影響主流程）"
    end;;
    ret analysis_result
  else
    print "⏭️ Stage 2 已完成，跳過 AI 分析";;
    ret (Some {[ "url" := "" ]}).

(** Stages 3, 4 and 5 share one shape: persist the stage, run the
    collaborator inside [try ... except Exception], print what it said;
    [said_done] are the lines for a report that succeeded and did not
    skip, each built from the dictionary right before it is printed. *)
Definition soft_stage (stage : string) (gate : list string) (c : collaborator)
    (run : filesystem → result step_report * filesystem)
    (said_done : gmap string json → list (result string))
    (said_skipped said_failed said_error stage_skipped : string) : M unit :=
  if bool_decide (resume_from ∈ gate) then
    update_analysis_status esg_id stage;;
    try_catch
      (report ← call c run;
       if success report then
         if skipped report then print said_skipped
         else print_each (said_done (details report))
       else print (said_failed +:+ shown (error report) +:+ "（不影響主流程）"))
      (λ e, print (said_error +:+ exn_text e +:+ "（不影響主流程）"))
  else print stage_skipped.

(** [f"{label}{d[key]}"] *)
Definition entry_line (label : string) (d : gmap string json) (key : string)
    : result string :=
  value ← py_getitem d key;
  Ok (label +:+ py_str svc value).

(** [f"{label}{stats[key]}"] *)
Definition stats_line (label : string) (stats : json) (key : string) : result string :=
  value ← subscript stats key;
  Ok (label +:+ py_str svc value).

(** [f"{stats[key]:spec}"] *)
Definition formatted (stats : json) (key spec : string) : result string :=
  value ← subscript stats key;
  py_format svc spec value.

Definition news_done (news_result : gmap string json) : list (result string) :=
  [ (news_count ← py_getitem news_result "news_count";
     Ok ("✅ 新聞爬蟲完成：" +:+ py_str svc news_count +:+ " 則新聞"));
    entry_line "   處理項目: " news_result "processed_items";
    entry_line "   失敗項目: " news_result "failed_items" ].

Definition stage3_news : M unit :=
  soft_stage "stage3" ["stage1"; "stage2"; "stage3"] NewsSearch
    (search_news_for_report svc year company_code true) news_done
    "ℹ️ 新聞資料已存在，跳過生成" "⚠️ 新聞爬蟲失敗：" "⚠️ 新聞爬蟲發生錯誤: "
    "⏭️ Stage 3 已完成，跳過新聞爬蟲".

(** [stats = verify_result['statistics']] comes before the first line. *)
Definition verify_done (verify_result : gmap string json) : list (result string) :=
  match py_getitem verify_result "statistics" with
  | Raise e => [Raise e]
  | Ok stats =>
      [ Ok "✅ AI 驗證完成";
        entry_line "   輸出檔案: " verify_result "output_path";
        stats_line "   處理項目: " stats "processed_items";
        (total ← formatted stats "total_tokens" ",";
         input ← formatted stats "input_tokens" ",";
         output ← formatted stats "output_tokens" ",";
         Ok ("   Token 使用: " +:+ total +:+ " (輸入: " +:+ input +:+ ", 輸出: "
             +:+ output +:+ ")"));
        (seconds ← formatted stats "api_time" ".2f";
         Ok ("   執行時間: " +:+ seconds +:+ " 秒")) ]
  end.

Definition stage4_verify : M unit :=
  soft_stage "stage4" ["stage1"; "stage2"; "stage3"; "stage4"] AIVerification
    (verify_esg_with_news svc year company_code true) verify_done
    "ℹ️ AI 驗證結果已存在，跳過生成" "⚠️ AI 驗證失敗：" "⚠️ AI 驗證發生錯誤: "
    "⏭️ Stage 4 已完成，跳過 AI 驗證".

Definition sources_done (pplx_result : gmap string json) : list (result string) :=
  match py_getitem pplx_result "statistics" with
  | Raise e => [Raise e]
  | Ok stats =>
      [ Ok "✅ 來源驗證完成";
        entry_line "   輸出檔案: " pplx_result "output_path";
        stats_line "   輸入項目: " stats "total_input";
        stats_line "   輸出項目: " stats "total_output";
        stats_line "   有效 URL: " stats "verified_count";
        stats_line "   更新 URL: " stats "updated_count";
        stats_line "   失敗項目: " stats "failed_count";
        (seconds ← formatted stats "execution_time" ".2f";
         Ok ("   執行時間: " +:+ seconds +:+ " 秒")) ]
  end.

Definition stage5_sources : M unit :=
  soft_stage "stage5" ["stage1"; "stage2"; "stage3"; "stage4"; "stage5"] SourceCheck
    (verify_evidence_sources svc year company_code true) sources_done
    "ℹ️ 來源驗證結果已存在，跳過生成" "⚠️ 來源驗證失敗：" "⚠️ 來源驗證發生錯誤: "
    "⏭️ Stage 5 已完成，跳過來源驗證".

Definition p3_path : string :=
  os_path_join (PATHS cfg "P3_JSON") (job_prefix year company_code +:+ "_p3.json").

(** Stage 6: load the P3 JSON and insert it, up to the [completed]
    status write. *)
Definition stage6_persist (analysis_result : option (gmap string string)) : M unit :=
  update_analysis_status esg_id "stage6";;
  present ← read_disk (λ d, os_path_exists d p3_path);
  final_analysis_items ←
    (if present : bool then
       items ← on_disk (λ d, (json_load d p3_path, d));
       of_result (py_len_defined items);;
       ret items
     else
       print ("❌ P3 JSON 不存在: " +:+ p3_path);;
       update_analysis_status esg_id "failed";;
       respond (failed_response
         ("分析流程未完成：找不到 P3 JSON 檔案 (" +:+ p3_path +:+
          ")。請確認 Step 5 (AI 驗證與評分調整) 和 Step 6 (來源可靠度驗證) 已成功執行。")));
  let company_name := dict_get report_info "company_name" "" in
  let industry := dict_get report_info "sector" "" in
  report_url ←
    match analysis_result with
    | Some analysis =>
        ret (dict_get analysis "url"
               ("https://mops.twse.com.tw/mops/web/t100sb07_" +:+ pretty year))
    | None => raise (Exn "AttributeError" "'NoneType' object has no attribute 'get'")
    end;
  inserted ← call_db InsertResults
    (insert_analysis_results svc esg_id company_name industry report_url final_analysis_items);
  let '(insert_success, insert_msg) := inserted : bool * string in
  if negb insert_success then
    update_analysis_status esg_id "failed";;
    respond (failed_response ("插入分析結果失敗: " +:+ insert_msg))
  else update_analysis_status esg_id "completed".

(** Steps 9 and after: read the record back, clean up, release. *)
Definition finalize : M unit :=
  final_result ← (λ w, call_db QueryCompany
                         (query_company_data svc year company_code (analysis_status w)) w);
  if bool_decide (q_status final_result = "completed") then
    company_obj ← of_result (company_view svc final_result);
    cleanup_temp_files cfg year company_code (dict_get report_info "company_name" "");;
    mark_processing_end esg_id;;
    respond {| r_status := "completed"; r_message := "自動抓取與分析完成";
               r_esg_id := esg_id; r_data := Some company_obj; r_code := 200 |}
  else
    respond {| r_status := "error"; r_message := "分析完成但資料查詢失敗";
               r_esg_id := esg_id; r_data := None; r_code := 500 |}.

(** The body of the [try], through the [completed] status write. *)
Definition stages_1_to_6 : M unit :=
  pdf_path ← stage1_download;
  analysis_result ← stage2_analysis pdf_path;
  stage3_news;;
  stage4_verify;;
  stage5_sources;;
  stage6_persist analysis_result.

(** [except Exception as e] of the analysis block. *)
Definition on_exception (e : exn) : M unit :=
  update_analysis_status esg_id "failed";;
  mark_processing_end esg_id;;
  respond (failed_response ("處理過程發生錯誤: " +:+ exn_text e)).

Definition run_analysis : M unit :=
  mark_processing_start esg_id;;
  try_catch (stages_1_to_6;; finalize) on_exception.

End Pipeline.


(** *** query_company: what comes before the analysis block

    Lines 256-411 and 688-700 of [app.py]: the request is read, the
    database is asked, and the four situations (completed, being
    processed, failed or unknown) are told apart; only with the consent
    [auto_fetch] does the analysis block run. *)

(** What [query_company_data] answers, as the dispatch reads it: the
    record the analysis block reads back as well, and the [ESG_id] of
    the row when the answer has one (the test
    [result['exists'] and result['data'] and 'ESG_id' in result['data']]). *)
Record company_lookup : Type := {
  known_esg_id : option string;
  lookup_record : query_record
}.

(** The collaborators of the whole endpoint: those of the analysis block
    ([back_office], whose [query_company_data] gives way to
    [lookup_company], the same function seen with its [ESG_id]), the
    report catalogue and the insertion of the company row; the last two
    leave no entry in the journal. *)
Record front_desk : Type := {
  back_office : services;
  lookup_company : Z → string → gmap string string → result company_lookup;
  validate_report_exists : Z → string → result (bool * gmap string string);
  insert_company_basic : Z → string → string → string → string → result (bool * string)
}.

Definition services_of (fd : front_desk) : services :=
  {| download_esg_report := download_esg_report (back_office fd);
     generate_wordcloud := generate_wordcloud (back_office fd);
     thread_schedule := thread_schedule (back_office fd);
     py_str := py_str (back_office fd);
     py_format := py_format (back_office fd);
     analyze_esg_report := analyze_esg_report (back_office fd);
     search_news_for_report := search_news_for_report (back_office fd);
     verify_esg_with_news := verify_esg_with_news (back_office fd);
     verify_evidence_sources := verify_evidence_sources (back_office fd);
     insert_analysis_results := insert_analysis_results (back_office fd);
     query_company_data := λ year company_code statuses,
       match lookup_company fd year company_code statuses with
       | Ok found => Ok (lookup_record found)
       | Raise e => Raise e
       end;
     company_view := company_view (back_office fd) |}.

(** The JSON answer with the keys only some answers carry. *)
Record reply : Type := {
  answer : response;
  with_esg_id : bool;                           (* the key esg_id is there *)
  current_stage : option string;                (* key current_stage *)
  report_info_sent : option (gmap string string) (* key report_info *)
}.

Definition plain (r : response) : reply :=
  {| answer := r; with_esg_id := true; current_stage := None; report_info_sent := None |}.

Definition error_reply (message : string) (code : Z) : reply :=
  {| answer := {| r_status := "error"; r_message := message; r_esg_id := "";
                  r_data := None; r_code := code |};
     with_esg_id := false; current_stage := None; report_info_sent := None |}.

(** The outermost [except Exception as e]. *)
Definition system_error (e : exn) : reply :=
  error_reply ("系統錯誤: " +:+ exn_text e) 500.

Definition simple_reply (status message esg_id : string) (code : Z) : response :=
  {| r_status := status; r_message := message; r_esg_id := esg_id;
     r_data := None; r_code := code |}.

(** [needle in text] on strings. *)
Fixpoint starts_with (needle text : string) : bool :=
  match needle, text with
  | EmptyString, _ => true
  | String a needle', String b text' => bool_decide (a = b) && starts_with needle' text'
  | String _ _, EmptyString => false
  end.

Fixpoint contains (needle text : string) : bool :=
  starts_with needle text
  || match text with
     | EmptyString => false
     | String _ text' => contains needle text'
     end.

Definition PROCESSING_STATES : list string :=
  ["processing"; "stage1"; "stage2"; "stage3"; "stage4"; "stage5"; "stage6"].

Definition PROCESSING_STATES_FOR_RESUME : list string :=
  ["failed"; "stage1"; "stage2"; "stage3"; "stage4"; "stage5"; "stage6"].

(** The view function ends without [return]: Flask answers with an
    internal server error of its own. *)
Definition no_response : reply := error_reply "" 500.

(** How the analysis block hands over to the endpoint: its response, or
    the outermost handler for an exception. *)
Definition reply_of (outcome : flow () * world) : reply * world :=
  match outcome.1 with
  | Returned r => (plain r, outcome.2)
  | Raised e => (system_error e, outcome.2)
  | Next _ => (no_response, outcome.2)
  end.

Definition print_all (lines : list string) (w : world) : world :=
  foldl (λ w line, logged w (Printed line)) w lines.

Definition rule : string := "==================================================".

Definition newline : string := String "010" EmptyString.

Definition stage_names : gmap string string :=
  list_to_map [("stage1", "下載 PDF"); ("stage2", "AI 分析"); ("stage3", "新聞爬蟲");
               ("stage4", "AI 驗證"); ("stage5", "來源驗證"); ("stage6", "存入資料庫")].

(** What [print_recovery_status] prints for the planner's answer; the
    dict [stage_details] lists its keys in the order they were set, the
    order of [stages]. *)
Definition recovery_report (year : Z) (company_code current_status : string)
    (result : resume_info) : list string :=
  [ newline +:+ rule;
    "📊 斷點續傳狀態報告: " +:+ job_prefix year company_code;
    "   資料庫狀態: " +:+ current_status;
    "   應從 " +:+ resume_from result +:+ " 繼續";
    rule ]
  ++ omap (λ stage,
             info ← stage_details result !! stage;
             Some ("   " +:+ (if completed info then "✅" else "❌") +:+ " " +:+ stage
                   +:+ " (" +:+ dict_get stage_names stage stage +:+ "): " +:+ msg info))
          stages
  ++ [ rule +:+ newline ].

Section Endpoint.
Variable cfg : config.
Variable fd : front_desk.

(** [print_recovery_status]: the planner's answer, printed and returned. *)
Definition print_recovery_status (year : Z) (company_code current_status : string)
    (w : world) : result resume_info * world :=
  match determine_resume_point cfg (disk w) year company_code current_status with
  | Raise e => (Raise e, w)
  | Ok result =>
      (Ok result, print_all (recovery_report year company_code current_status result) w)
  end.

(** Modelled from the spec: [db_service.insert_company_basic] is not
    under src/; a job is created on the first request for a key without
    record, so a successful insertion leaves the row of the job with the
    status passed to it, [processing]. *)
Definition row_inserted (esg_id : string) (w : world) : world :=
  with_status w (<[esg_id := "processing"]> (analysis_status w)).

(** From [should_execute] on: resume at the planner's point, or insert
    the company and start at stage 1; then the analysis block. *)
Definition start_analysis (year : Z) (company_code esg_id status : string)
    (report_info : gmap string string) (w : world) : reply * world :=
  if bool_decide (status ∈ PROCESSING_STATES_FOR_RESUME) then
    match print_recovery_status year company_code status w with
    | (Raise e, w') => (system_error e, w')
    | (Ok recovery_info, w') =>
        let resume_from := resume_from recovery_info in
        reply_of (run_analysis cfg (services_of fd) year company_code esg_id report_info
                    resume_from
                    (print_all ["📌 斷點續傳模式：從 " +:+ resume_from +:+ " 繼續";
                                "🔍 DEBUG: 進入 run_analysis 區塊，resume_from="
                                +:+ resume_from] w'))
    end
  else
    match insert_company_basic fd year company_code
            (dict_get report_info "company_name" "") (dict_get report_info "sector" "")
            "processing" with
    | Raise e => (system_error e, w)
    | Ok (success, insert_msg) =>
        if negb success && negb (contains "已存在" insert_msg) then
          (error_reply ("插入基本資料失敗: " +:+ insert_msg) 500, w)
        else
          reply_of (run_analysis cfg (services_of fd) year company_code esg_id report_info
                      "stage1"
                      (print_all ["🔍 DEBUG: 進入 run_analysis 區塊，resume_from=stage1"]
                         (if success then row_inserted esg_id w else w)))
    end.

(** The report catalogue is asked, then consent is checked where the
    source checks it. *)
Definition after_validation (year : Z) (company_code esg_id status : string)
    (w : world) (next : gmap string string → reply * world) : reply * world :=
  match validate_report_exists fd year company_code with
  | Raise e => (system_error e, w)
  | Ok (report_exists, report_info) =>
      if negb report_exists then
        (plain (simple_reply "not_found"
                  ("查無 " +:+ pretty year +:+ " 年度的永續報告（公司代碼: "
                   +:+ company_code +:+ "）") esg_id 404), w)
      else next report_info
  end.

(** [request]: the year, the company code and the consent as read from
    the body with [int()], [str().strip()] and truth value, or the
    exception raised on the way. *)
Definition query_company (request : result (Z * string * bool)) (w : world)
    : reply * world :=
  match request with
  | Raise e => (system_error e, w)
  | Ok (year, company_code, auto_fetch) =>
      if bool_decide (year = 0) || bool_decide (company_code = "") then
        (error_reply "參數錯誤：year 和 company_code 為必填" 400, w)
      else
        let w1 := logged w (Called QueryCompany) in
        match lookup_company fd year company_code (analysis_status w) with
        | Raise e => (system_error e, w1)
        | Ok result =>
            let esg_id := default (pretty year +:+ company_code) (known_esg_id result) in
            let status := q_status (lookup_record result) in
            if bool_decide (status = "completed") then
              match company_view (back_office fd) (lookup_record result) with
              | Raise e => (system_error e, w1)
              | Ok company_obj =>
                  (plain {| r_status := "completed"; r_message := "資料已存在";
                            r_esg_id := esg_id; r_data := Some company_obj;
                            r_code := 200 |}, w1)
              end
            else if bool_decide (status ∈ PROCESSING_STATES) then
              if is_actively_processing w1 esg_id then
                (plain (simple_reply "processing" "分析進行中，請稍候" esg_id 200), w1)
              else if negb auto_fetch then
                ({| answer := simple_reply "resume_needed"
                                ("偵測到上次分析中斷於 " +:+ status +:+ "，是否要從斷點繼續？")
                                esg_id 200;
                    with_esg_id := true; current_stage := Some status;
                    report_info_sent := None |}, w1)
              else
                after_validation year company_code esg_id status w1
                  (λ report_info,
                     start_analysis year company_code esg_id status report_info w1)
            else
              after_validation year company_code esg_id status w1
                (λ report_info,
                   if negb auto_fetch then
                     ({| answer := simple_reply "validation_needed"
                                     "查無資料，是否啟動自動抓取與分析？" esg_id 200;
                         with_esg_id := true; current_stage := None;
                         report_info_sent := Some report_info |}, w1)
                   else start_analysis year company_code esg_id status report_info w1)
        end
  end.

End Endpoint.

(** *** check_progress

    The progress endpoint reads the status of the job's row. *)

Record progress : Type := {
  p_stage : option string;   (* key stage *)
  p_status : string;         (* key status *)
  p_error : option string;   (* key error *)
  p_code : Z
}.

(** [fetched]: what [cursor.fetchone()] gives, the [analysis_status] of
    the row if there is one, or the exception raised on the way; an
    empty status reads as [processing]. The cache headers of the answer
    are left out. *)
Definition check_progress (fetched : result (option string)) : progress :=
  match fetched with
  | Raise e =>
      {| p_stage := None; p_status := "error"; p_error := Some (exn_text e); p_code := 500 |}
  | Ok None =>
      {| p_stage := Some "unknown"; p_status := "not_found"; p_error := None;
         p_code := 404 |}
  | Ok (Some analysis_status) =>
      let current_status :=
        if bool_decide (analysis_status = "") then "processing" else analysis_status in
      {| p_stage := Some current_status;
         p_status := if bool_decide (current_status = "completed")
                     then "completed" else "processing";
         p_error := None; p_code := 200 |}
  end.

(** The row of the job in the database of [w]. *)
Definition fetch_status (w : world) (esg_id : string) : result (option string) :=
  Ok (analysis_status w !! esg_id).

(** ** gemini_api.py: the analysis the orchestrator calls in stage 2 *)

(** How [with open(p, "w", encoding="utf-8") as f: json.dump(v, f,
    ensure_ascii=False, indent=2)] ends: the value is written;
    [open] raises and nothing changes; or [json.dump] raises (a string
    with an unpaired surrogate cannot be encoded) after [open] has
    emptied the file, which is left with the text written so far, never
    a JSON document. *)
Inductive write_end : Type :=
  | Written
  | NotOpened (e : exn)
  | Broken (e : exn) (left_behind : string).

(** The disk with [node] under [p], all else as before. *)
Definition holding (fs : filesystem) (p : string) (node : node) : filesystem :=
  {| files := <[p := node]> (files fs);
     glob_matches := glob_matches fs;
     remove_denied := remove_denied fs |}.

(** The [with open ... json.dump] statement; [writing] says how the
    write of a value under a path ends. *)
Definition json_dump (writing : string → json → write_end) (fs : filesystem)
    (p : string) (v : json) : result unit * filesystem :=
  match writing p v with
  | Written => (Ok (), holding fs p (Json v))
  | NotOpened e => (Raise e, fs)
  | Broken e left_behind => (Raise e, holding fs p (Malformed left_behind))
  end.

(** [len(s)] counts characters: the bytes of the UTF-8 text that do not
    continue a character. *)
Fixpoint code_points (s : string) : nat :=
  match s with
  | EmptyString => 0
  | String c rest =>
      (if bool_decide (128 ≤ nat_of_ascii c < 192)%nat then 0 else 1)%nat + code_points rest
  end.

(** [len(v)] *)
Definition py_len (v : json) : result nat :=
  match v with
  | JStr s => Ok (code_points s)
  | JList items => Ok (length items)
  | JDict fields => Ok (size fields)
  | JNull => Raise (Exn "TypeError" "object of type 'NoneType' has no len()")
  | JBool _ => Raise (Exn "TypeError" "object of type 'bool' has no len()")
  | JNum _ => Raise (Exn "TypeError" "object of type 'int' has no len()")
  end.

(** The truth value of [v], as [if not v] reads it. *)
Definition py_truthy (v : json) : bool :=
  match v with
  | JNull => false
  | JBool b => b
  | JNum n => negb (bool_decide (n = 0))
  | JStr s => negb (bool_decide (s = ""))
  | JList items => negb (bool_decide (items = []))
  | JDict fields => negb (bool_decide (fields = ∅))
  end.

(** What a value is as member of a [set]: [True] and [False] are the
    integers 1 and 0, lists and objects cannot be hashed. *)
Inductive hashable : Type :=
  | HNone
  | HInt (n : Z)
  | HStr (s : string).

#[export] Instance hashable_eq_dec : EqDecision hashable.
Proof. solve_decision. Defined.

Definition py_hash_key (v : json) : result hashable :=
  match v with
  | JNull => Ok HNone
  | JBool b => Ok (HInt (if b then 1 else 0))
  | JNum n => Ok (HInt n)
  | JStr s => Ok (HStr s)
  | JList _ => Raise (Exn "TypeError" "unhashable type: 'list'")
  | JDict _ => Raise (Exn "TypeError" "unhashable type: 'dict'")
  end.

Definition no_get (type_name : string) : exn :=
  Exn "AttributeError" ("'" +:+ type_name +:+ "' object has no attribute 'get'").

Module gemini_api.

(** [item.get('sasb_topic', '')] as member of the set of topics. *)
Definition sasb_topic (item : json) : result hashable :=
  match item with
  | JDict fields => py_hash_key (default (JStr "") (fields !! "sasb_topic"))
  | JStr _ => Raise (no_get "str")
  | JList _ => Raise (no_get "list")
  | JNum _ => Raise (no_get "int")
  | JBool _ => Raise (no_get "bool")
  | JNull => Raise (no_get "NoneType")
  end.

(** The generator handed to [set(...)], item by item. *)
Fixpoint topics (items : list json) : result (list hashable) :=
  match items with
  | [] => Ok []
  | item :: rest =>
      topic ← sasb_topic item;
      others ← topics rest;
      Ok (topic :: others)
  end.

Definition ABNORMAL_THRESHOLD : nat := 2.

(** [_is_abnormal_output]: (abnormal, items, distinct topics). Iterating
    an object or a string yields strings, which have no [get]. *)
Definition _is_abnormal_output (parsed_data : json) : result (bool * nat * nat) :=
  if negb (py_truthy parsed_data) then Ok (false, 0, 0)%nat
  else
    match parsed_data with
    | JList items =>
        found ← topics items;
        let total_items := length items in
        let unique_count := length (remove_dups found) in
        Ok (bool_decide (unique_count * ABNORMAL_THRESHOLD < total_items)%nat,
            total_items, unique_count)
    | JDict _ | JStr _ => Raise (no_get "str")
    | JNum _ => Raise (Exn "TypeError" "'int' object is not iterable")
    | JBool _ => Raise (Exn "TypeError" "'bool' object is not iterable")
    | JNull => Raise (Exn "TypeError" "'NoneType' object is not iterable")
    end.

Record attempt_config : Type := {
  model : string;
  temperature : string;   (* the decimal as written *)
  desc : string
}.

Definition DEFAULT_MODEL : string := "models/gemini-2.5-flash".
Definition FALLBACK_MODEL : string := "models/gemini-3-flash-preview".

Definition retry_configs : list attempt_config :=
  [ {| model := DEFAULT_MODEL; temperature := "0.1"; desc := "gemini-2.5-flash (temp=0.1)" |};
    {| model := DEFAULT_MODEL; temperature := "0.2"; desc := "gemini-2.5-flash (temp=0.2)" |};
    {| model := FALLBACK_MODEL; temperature := "0.1";
       desc := "gemini-3-flash-preview (temp=0.1)" |} ].

(** How one pass through the loop body ends. *)
Inductive attempt_end : Type :=
  | Saved (fs : filesystem)                    (* return *)
  | Retry (best_result : option json)          (* continue *)
  | Crashed (e : exn) (fs : filesystem).       (* except Exception as e *)

Section Analyzer.
(** [upload_file_to_gemini] and [_build_prompt]; the answer of attempt
    [n] made with a configuration, through [_call_gemini_api] and
    [_parse_json_with_recovery]; how a write ends. *)
Variable prepare : result unit.
Variable ask : nat → attempt_config → result json.
Variable writing : string → json → write_end.
Variable output_path : string.

(** From [with open] on, still inside the [try]: the file is written
    before the item count is printed. *)
Definition save (parsed_data : json) (fs : filesystem) : attempt_end :=
  match json_dump writing fs output_path parsed_data with
  | (Raise e, fs') => Crashed e fs'
  | (Ok _, fs') =>
      match py_len parsed_data with
      | Ok _ => Saved fs'
      | Raise e => Crashed e fs'
      end
  end.

Definition one_attempt (attempt : nat) (config : attempt_config)
    (best_result : option json) (fs : filesystem) : attempt_end :=
  match ask attempt config with
  | Raise e => Crashed e fs
  | Ok parsed_data =>
      match _is_abnormal_output parsed_data with
      | Raise e => Crashed e fs
      | Ok (is_abnormal, total_items, unique_count) =>
          if is_abnormal then
            let kept :=
              match best_result with
              | None => Ok (Some parsed_data)
              | Some best =>
                  best_len ← py_len best;
                  Ok (if bool_decide (total_items < best_len)%nat
                      then Some parsed_data else Some best)
              end in
            match kept with
            | Raise e => Crashed e fs
            | Ok best_result' =>
                if bool_decide (attempt < length retry_configs)%nat then Retry best_result'
                else
                  match best_result' with
                  | Some best => save best fs
                  | None => save JNull fs
                  end
            end
          else save parsed_data fs
      end
  end.

(** The loop over [retry_configs]; a crash of the last attempt raises,
    a crash of an earlier one goes on with the next. *)
Fixpoint attempts (configs : list attempt_config) (attempt : nat)
    (best_result : option json) (fs : filesystem) : result unit * filesystem :=
  match configs with
  | [] => (Ok (), fs)
  | config :: rest =>
      match one_attempt attempt config best_result fs with
      | Saved fs' => (Ok (), fs')
      | Retry best_result' => attempts rest (S attempt) best_result' fs
      | Crashed e fs' =>
          if bool_decide (length retry_configs ≤ attempt)%nat
          then (Raise (Exn "RuntimeError" ("所有重試配置都失敗: " +:+ exn_text e)), fs')
          else attempts rest (S attempt) best_result fs'
      end
  end.

(** [ESGReportAnalyzer.run] *)
Definition run (fs : filesystem) : result unit * filesystem :=
  match prepare with
  | Raise e => (Raise e, fs)
  | Ok _ => attempts retry_configs 1 None fs
  end.

End Analyzer.

Definition mops_url (year : Z) : string :=
  "https://mops.twse.com.tw/mops/web/t100sb07_" +:+ pretty year.

Section Interface.
Variable cfg : config.
(** [str.strip]; the constructor of [ESGReportAnalyzer] (API key, output
    directory, report PDF, SASB map); and the oracles of [run] for the
    analyzer of a year and a company. *)
Variable strip : string → string.
Variable construct : Z → string → string → string → filesystem → result unit.
Variable prepare : Z → string → result unit.
Variable ask : Z → string → nat → attempt_config → result json.
Variable writing : string → json → write_end.

Definition output_json_name (year : Z) (company_code : string) : string :=
  pretty year +:+ "_" +:+ strip company_code +:+ "_p1.json".

(** The body of the [try] of [analyze_esg_report]; of the dictionary
    returned, the entries that are strings. *)
Definition analyze_body (year : Z) (company_code company_name industry : string)
    (fs : filesystem) : result (gmap string string) * filesystem :=
  match construct year company_code company_name industry fs with
  | Raise e => (Raise e, fs)
  | Ok _ =>
      let output_path :=
        os_path_join (PATHS cfg "P1_JSON") (output_json_name year company_code) in
      match run (prepare year company_code) (ask year company_code) writing output_path fs
      with
      | (Raise e, fs') => (Raise e, fs')
      | (Ok _, fs') =>
          if negb (os_path_exists fs' output_path) then
            (Raise (Exn "RuntimeError" ("AI 分析完成但找不到輸出檔案: " +:+ output_path)), fs')
          else
            (analysis_items ← json_load fs' output_path;
             py_len analysis_items;;
             Ok (<[ "company_name" :=
                      if bool_decide (company_name = "")
                      then "公司" +:+ company_code else company_name ]>
                 (<[ "industry" := if bool_decide (industry = "") then "其他" else industry ]>
                 (<[ "url" := mops_url year ]>
                 {[ "output_path" := output_path ]}))),
             fs')
      end
  end.

(** [analyze_esg_report]: what leaves it is a [FileNotFoundError] or a
    [RuntimeError]. *)
Definition analyze_esg_report (pdf_path : string) (year : Z)
    (company_code company_name industry : string) (fs : filesystem)
    : result (gmap string string) * filesystem :=
  match analyze_body year company_code company_name industry fs with
  | (Raise e, fs') =>
      if bool_decide (exn_class e = "FileNotFoundError")
      then (Raise (Exn "FileNotFoundError" ("找不到必要檔案: " +:+ exn_text e)), fs')
      else (Raise (Exn "RuntimeError" ("AI 分析失敗: " +:+ exn_text e)), fs')
  | done => done
  end.

End Interface.

End gemini_api.

(** ** pplx_api.py: the source check the orchestrator calls in stage 5 *)

Definition no_attribute (v : json) (attribute : string) : exn :=
  Exn "AttributeError"
    ("'" +:+ type_name v +:+ "' object has no attribute '" +:+ attribute +:+ "'").

Module pplx_api.

(** The counters of the loop. *)
Record tally : Type := {
  verified_count : nat;
  updated_count : nat;
  failed_count : nat;
  perplexity_calls : nat
}.

Section Sources.
Variable cfg : config.
(** [str.strip]; [verify_single_url(url)["is_valid"]]; the URL that
    [find_alternative_url] finds for company, year, evidence and
    original URL, or its exception; how a write ends; the seconds the
    call took. *)
Variable strip : string → string.
Variable verify_single_url : string → bool.
Variable find_alternative_url : json → json → json → string → result (option string).
Variable writing : string → json → write_end.
Variable elapsed : Z.

(** [item.get(key, "")] *)
Definition get_or_empty (fields : gmap string json) (key : string) : json :=
  default (JStr "") (fields !! key).

(** The body of the loop over the items, with what it has appended and
    counted so far. *)
Fixpoint check_items (items processed_data : list json) (counts : tally)
    : result (list json * tally) :=
  match items with
  | [] => Ok (processed_data, counts)
  | item :: rest =>
      match item with
      | JDict fields =>
          match get_or_empty fields "external_evidence_url" with
          | JStr text =>
              let url := strip text in
              if bool_decide (url = "") then check_items rest processed_data counts
              else if verify_single_url url then
                check_items rest
                  (processed_data ++ [JDict (<["is_verified" := JStr "True"]> fields)])
                  {| verified_count := S (verified_count counts);
                     updated_count := updated_count counts;
                     failed_count := failed_count counts;
                     perplexity_calls := perplexity_calls counts |}
              else
                new_url ← find_alternative_url (get_or_empty fields "company")
                            (get_or_empty fields "year")
                            (get_or_empty fields "external_evidence") url;
                if bool_decide (default "" new_url = "") then
                  check_items rest processed_data
                    {| verified_count := verified_count counts;
                       updated_count := updated_count counts;
                       failed_count := S (failed_count counts);
                       perplexity_calls := S (perplexity_calls counts) |}
                else
                  check_items rest
                    (processed_data
                     ++ [JDict (<["is_verified" := JStr "True"]>
                                (<["external_evidence_url" := JStr (default "" new_url)]>
                                 fields))])
                    {| verified_count := verified_count counts;
                       updated_count := S (updated_count counts);
                       failed_count := failed_count counts;
                       perplexity_calls := S (perplexity_calls counts) |}
          | other => Raise (no_attribute other "strip")
          end
      | other => Raise (no_attribute other "get")
      end
  end.

(** What [for ... in enumerate(data, 1)] goes through. An object or a
    string yields strings, so the first pass of the body raises. *)
Definition iterate (data : json) : result (list json) :=
  match data with
  | JList items => Ok items
  | JDict fields =>
      if bool_decide (fields = ∅) then Ok [] else Raise (no_attribute (JStr "") "get")
  | JStr text =>
      if bool_decide (text = "") then Ok [] else Raise (no_attribute (JStr "") "get")
  | other => Raise (Exn "TypeError" ("'" +:+ type_name other +:+ "' object is not iterable"))
  end.

Definition input_file (year : Z) (company_code : string) : string :=
  os_path_join (PATHS cfg "P2_JSON") (job_prefix year company_code +:+ "_p2.json").

Definition output_file (year : Z) (company_code : string) : string :=
  os_path_join (PATHS cfg "P3_JSON") (job_prefix year company_code +:+ "_p3.json").

(** The answer of the handler of [verify_evidence_sources]. *)
Definition failure_answer (e : exn) : gmap string json :=
  <["success" := JBool false]>
  (<["message" := JStr ("驗證失敗: " +:+ exn_text e)]>
  {[ "error" := JStr (exn_text e) ]}).

(** [verify_evidence_sources]: the dictionary it returns; every
    exception ends in its own handler, also one of the write of the
    output file. [os.makedirs] is taken to succeed. *)
Definition verify_evidence_sources (year : Z) (company_code : string)
    (force_regenerate : bool) (fs : filesystem) : gmap string json * filesystem :=
  if negb (os_path_exists fs (input_file year company_code)) then
    (<["success" := JBool false]>
     (<["message" := JStr ("輸入檔案不存在: " +:+ input_file year company_code)]>
     {[ "error" := JStr "Input file not found" ]}), fs)
  else if os_path_exists fs (output_file year company_code) && negb force_regenerate then
    (<["success" := JBool true]>
     (<["message" := JStr "來源驗證結果已存在"]>
     (<["output_path" := JStr (output_file year company_code)]>
     (<["skipped" := JBool true]>
     {[ "statistics" := JDict {[ "execution_time" := JNum elapsed ]} ]}))), fs)
  else
    match (data ← json_load fs (input_file year company_code);
           items ← iterate data;
           check_items items []
             {| verified_count := 0; updated_count := 0; failed_count := 0;
                perplexity_calls := 0 |}) with
    | Ok (processed_data, counts) =>
        match json_dump writing fs (output_file year company_code)
                (JList processed_data) with
        | (Ok _, fs') =>
            (<["success" := JBool true]>
             (<["message" := JStr "來源驗證完成"]>
             (<["output_path" := JStr (output_file year company_code)]>
             {[ "statistics" :=
                  JDict (<["processed_items" := JNum (Z.of_nat (length processed_data))]>
                        (<["verified_count" := JNum (Z.of_nat (verified_count counts))]>
                        (<["updated_count" := JNum (Z.of_nat (updated_count counts))]>
                        (<["failed_count" := JNum (Z.of_nat (failed_count counts))]>
                        {[ "execution_time" := JNum elapsed ]})))) ]})),
             fs')
        | (Raise e, fs') => (failure_answer e, fs')
        end
    | Raise e => (failure_answer e, fs)
    end.

End Sources.

End pplx_api.

(** *** Stage 5 of app.py: what is printed for the answer of the source check *)

(** The lines printed one after the other until one of them raises. *)
Fixpoint print_until_raise (lines : list (result string)) : list string * option exn :=
  match lines with
  | [] => ([], None)
  | Ok line :: rest =>
      let '(printed, raised) := print_until_raise rest in (line :: printed, raised)
  | Raise e :: _ => ([], Some e)
  end.

Section SourceReport.
(** [str(v)] and [format(v, ".2f")] as f-strings use them. *)
Variable str_of : json → string.
Variable format_2f : json → result string.

Definition stat_line (label : string) (stats : json) (key : string) : result string :=
  value ← subscript stats key;
  Ok (label +:+ str_of value).

(** The body of the [try] of stage 5 after the call. *)
Definition report_source_check (pplx_result : gmap string json) : list string * option exn :=
  match py_getitem pplx_result "success" with
  | Raise e => ([], Some e)
  | Ok succeeded =>
      if py_truthy succeeded then
        if py_truthy (default JNull (pplx_result !! "skipped")) then
          (["ℹ️ 來源驗證結果已存在，跳過生成"], None)
        else
          match py_getitem pplx_result "statistics" with
          | Raise e => ([], Some e)
          | Ok stats =>
              print_until_raise
                [ Ok "✅ 來源驗證完成";
                  (output_path ← py_getitem pplx_result "output_path";
                   Ok ("   輸出檔案: " +:+ str_of output_path));
                  stat_line "   輸入項目: " stats "total_input";
                  stat_line "   輸出項目: " stats "total_output";
                  stat_line "   有效 URL: " stats "verified_count";
                  stat_line "   更新 URL: " stats "updated_count";
                  stat_line "   失敗項目: " stats "failed_count";
                  (seconds ← subscript stats "execution_time";
                   shown_seconds ← format_2f seconds;
                   Ok ("   執行時間: " +:+ shown_seconds +:+ " 秒")) ]
          end
      else
        (["⚠️ 來源驗證失敗：" +:+ str_of (default JNull (pplx_result !! "error"))
          +:+ "（不影響主流程）"], None)
  end.

(** With the handler of the [try]: everything stage 5 prints for the
    answer. *)
Definition source_check_lines (pplx_result : gmap string json) : list string :=
  match report_source_check pplx_result with
  | (printed, None) => printed
  | (printed, Some e) =>
      printed ++ ["⚠️ 來源驗證發生錯誤: " +:+ exn_text e +:+ "（不影響主流程）"]
  end.

End SourceReport.
(** ** What the properties speak about *)

Definition nonempty_container (v : json) : bool :=
  match v with
  | JList items => bool_decide (0 < length items)%nat
  | JDict fields => bool_decide (0 < size fields)%nat
  | _ => false
  end.

(** The file is there, parses, and holds a non-empty list or object. *)
Definition valid_artifact (fs : filesystem) (p : string) : bool :=
  match files fs !! p with
  | Some (Json v) => nonempty_container v
  | _ => false
  end.

(** The [get_file_path] key of the stages whose artifact is a JSON file. *)
Definition stage_key (stage : string) : option string :=
  if bool_decide (stage = "stage2") then Some "P1_JSON"
  else if bool_decide (stage = "stage3") then Some "NEWS_JSON"
  else if bool_decide (stage = "stage4") then Some "P2_JSON"
  else if bool_decide (stage = "stage5") then Some "P3_JSON"
  else None.

(** Some file stands where the stage's artifact is looked for. *)
Definition artifact_present (cfg : config) (fs : filesystem) (year : Z)
    (company_code stage : string) : bool :=
  if bool_decide (stage = "stage1") then
    bool_decide (glob_matches fs (pdf_pattern cfg year company_code) ≠ [])
  else
    match stage_key stage with
    | Some key => os_path_exists fs (get_file_path cfg key year company_code)
    | None => false
    end.

(** The first component of the checker's answer. *)
Definition reported_complete (cfg : config) (fs : filesystem) (year : Z)
    (company_code stage : string) : bool :=
  match check_stage_completion cfg fs year company_code stage with
  | Ok (c, _, _) => c
  | Raise _ => false
  end.

(** The states of a path in which no usable artifact is read from it. *)
Inductive unusable (fs : filesystem) (p : string) : Prop :=
  | Absent : files fs !! p = None → unusable fs p
  | ReadError e : files fs !! p = Some (Unreadable e) → unusable fs p
  | Unparseable err : files fs !! p = Some (Malformed err) → unusable fs p
  | Empty v : files fs !! p = Some (Json v) → nonempty_container v = false → unusable fs p.

Definition detail_of (cfg : config) (fs : filesystem) (year : Z)
    (company_code stage : string) : option stage_detail :=
  match check_stage_completion cfg fs year company_code stage with
  | Ok (c, p, m) => Some {| completed := c; path := p; msg := m |}
  | Raise _ => None
  end.

(** ** A concrete installation *)

(** Modelled from the spec: the [config.py] that defines [PATHS] and
    [get_file_path] is not under src/; this instance follows the
    stage-to-file table in the header of [recovery_utils.py] and the
    directory keys used by [cleanup_temp_files]. It serves the concrete
    scenarios only. *)
Definition repo_PATHS (key : string) : string :=
  if bool_decide (key = "ESG_REPORTS") then "temp_data/esgReport"
  else if bool_decide (key = "P1_JSON") then "temp_data/prompt1_json"
  else if bool_decide (key = "NEWS_OUTPUT") then "temp_data/news_output"
  else if bool_decide (key = "P2_JSON") then "temp_data/prompt2_json"
  else if bool_decide (key = "P3_JSON") then "temp_data/prompt3_json"
  else "temp_data".

Definition repo_get_file_path (key : string) (year : Z) (company_code : string) : string :=
  if bool_decide (key = "P1_JSON") then
    os_path_join (repo_PATHS "P1_JSON") (job_prefix year company_code +:+ "_p1.json")
  else if bool_decide (key = "NEWS_JSON") then
    os_path_join (repo_PATHS "NEWS_OUTPUT") (job_prefix year company_code +:+ "_news.json")
  else if bool_decide (key = "P2_JSON") then
    os_path_join (repo_PATHS "P2_JSON") (job_prefix year company_code +:+ "_p2.json")
  else if bool_decide (key = "P3_JSON") then
    os_path_join (repo_PATHS "P3_JSON") (job_prefix year company_code +:+ "_p3.json")
  else os_path_join (repo_PATHS key) (job_prefix year company_code).

Definition repo_config : config :=
  {| PATHS := repo_PATHS; get_file_path := repo_get_file_path |}.

Definition one_item : json := JList [JDict {[ "risk_score" := JNum 3 ]}].

Definition pdf_2330 : string := "temp_data/esgReport/2024_2330_台積電_永續報告書.pdf".

(** Job (2024, "2330") with the report and the four JSON artifacts on disk. *)
Definition fs_full : filesystem :=
  {| files :=
       <[ pdf_2330 := Unreadable (Exn "UnicodeDecodeError" "invalid start byte") ]>
       (<[ "temp_data/prompt1_json/2024_2330_p1.json" := Json one_item ]>
       (<[ "temp_data/news_output/2024_2330_news.json" := Json one_item ]>
       (<[ "temp_data/prompt2_json/2024_2330_p2.json" := Json one_item ]>
       (<[ "temp_data/prompt3_json/2024_2330_p3.json" := Json one_item ]> ∅))));
     glob_matches := λ pat,
       if bool_decide (pat = "temp_data/esgReport/2024_2330_*.pdf") then [pdf_2330] else [];
     remove_denied := ∅ |}.




(** The planner's answer right after [os.remove(p)]. *)
Definition plan_after_removal (cfg : config) (fs : filesystem) (p : string)
    (year : Z) (company_code current_status : string) : result resume_info :=
  determine_resume_point cfg (os_remove fs p).2 year company_code current_status.

(** The report and the four JSON artifacts of the job are on disk and valid. *)
Definition all_artifacts_valid (cfg : config) (fs : filesystem) (year : Z)
    (company_code : string) : Prop :=
  glob_matches fs (pdf_pattern cfg year company_code) ≠ []
  ∧ ∀ key, key ∈ ["P1_JSON"; "NEWS_JSON"; "P2_JSON"; "P3_JSON"] →
           valid_artifact fs (get_file_path cfg key year company_code) = true.

(** Job (2024, "2330") with neither report nor P1 JSON, but a news JSON
    left over from an earlier run. *)
Definition fs_gap : filesystem :=
  {| files := {[ "temp_data/news_output/2024_2330_news.json" := Json one_item ]};
     glob_matches := λ _, [];
     remove_denied := ∅ |}.

(** The reading of "a missing earlier artifact decides the resume point"
    that quantifies over every pair of stages. *)
Definition resumes_at_any_missing (cfg : config) (fs : filesystem) (year : Z)
    (company_code : string) : Prop :=
  ∀ status r (i j : nat) si sj,
    determine_resume_point cfg fs year company_code status = Ok r →
    (i < j)%nat → stages !! i = Some si → stages !! j = Some sj →
    reported_complete cfg fs year company_code sj = true →
    artifact_present cfg fs year company_code si = false →
    resume_from r = si.

(** The scenario with [completed_stages] cut at the removed artifact. *)
Definition scenario_cut_at_stage3 (cfg : config) (fs : filesystem) (year : Z)
    (company_code : string) : Prop :=
  ∀ status r r',
    determine_resume_point cfg fs year company_code status = Ok r →
    plan_after_removal cfg fs (get_file_path cfg "NEWS_JSON" year company_code)
      year company_code status = Ok r' →
    resume_from r = "stage6"
    ∧ resume_from r' = "stage3"
    ∧ (list_to_set (completed_stages r') : gset string) = {[ "stage1"; "stage2" ]}.

(** ** Concrete collaborators for job (2024, "2330") *)

Definition survey (journal : list event) : list collaborator :=
  omap (λ ev, match ev with Called c => Some c | _ => None end) journal.

Definition status_writes (journal : list event) : list string :=
  omap (λ ev, match ev with StatusWritten _ status => Some status | _ => None end) journal.

Definition printed (journal : list event) : list string :=
  omap (λ ev, match ev with Printed line => Some line | _ => None end) journal.

Definition write_file (p : string) (n : node) (fs : filesystem) : filesystem :=
  {| files := <[p := n]> (files fs);
     glob_matches := glob_matches fs;
     remove_denied := remove_denied fs |}.

(** A PDF saved under [p], found by [glob] under [pattern] from then on. *)
Definition save_pdf (pattern p : string) (fs : filesystem) : filesystem :=
  {| files := <[p := Unreadable (Exn "UnicodeDecodeError" "invalid start byte")]> (files fs);
     glob_matches := λ pat,
       if bool_decide (pat = pattern) then p :: glob_matches fs pat else glob_matches fs pat;
     remove_denied := remove_denied fs |}.

Definition empty_disk : filesystem :=
  {| files := ∅; glob_matches := λ _, []; remove_denied := ∅ |}.

Definition report_info_2330 : gmap string string :=
  {[ "company_name" := "台積電"; "sector" := "半導體業" ]}.

(** The dictionaries the three collaborators return on success: the
    news search with its counts, the AI verification with its token
    statistics, the source check with the statistics of
    [pplx_api.verify_evidence_sources]. *)
Definition details_for (key : string) (year : Z) (company_code : string)
    : gmap string json :=
  if bool_decide (key = "NEWS_JSON") then
    <["success" := JBool true]>
    (<["news_count" := JNum 5]>
    (<["processed_items" := JNum 1]>
    {[ "failed_items" := JNum 0 ]}))
  else if bool_decide (key = "P2_JSON") then
    <["success" := JBool true]>
    (<["output_path" := JStr (repo_get_file_path key year company_code)]>
    {[ "statistics" :=
         JDict (<["processed_items" := JNum 1]>
               (<["total_tokens" := JNum 18250]>
               (<["input_tokens" := JNum 17400]>
               (<["output_tokens" := JNum 850]>
               {[ "api_time" := JNum 12 ]})))) ]})
  else
    <["success" := JBool true]>
    (<["message" := JStr "來源驗證完成"]>
    (<["output_path" := JStr (repo_get_file_path key year company_code)]>
    {[ "statistics" :=
         JDict (<["processed_items" := JNum 1]>
               (<["verified_count" := JNum 1]>
               (<["updated_count" := JNum 0]>
               (<["failed_count" := JNum 0]>
               {[ "execution_time" := JNum 3 ]})))) ]})).

Definition done_report (key : string) (year : Z) (company_code : string) : step_report :=
  {| success := true; skipped := false; error := None;
     details := details_for key year company_code |}.

Definition failed_report (why : string) : step_report :=
  {| success := false; skipped := false; error := Some why;
     details := <["success" := JBool false]> {[ "error" := JStr why ]} |}.

(** [str(v)] for the values the scenarios print: strings, integers,
    booleans and [None]. *)
Definition scenario_str (v : json) : string :=
  match v with
  | JStr s => s
  | JNum n => pretty n
  | JBool b => if b then "True" else "False"
  | JNull => "None"
  | JList _ => "[...]"
  | JDict _ => "{...}"
  end.

(** Three digits of a group after the first. *)
Definition three_digits (n : Z) : string :=
  (if bool_decide (n < 10) then "00" else if bool_decide (n < 100) then "0" else "")
  +:+ pretty n.

(** The digits of a natural number in groups of three. *)
Fixpoint grouped (fuel : nat) (n : Z) : string :=
  match fuel with
  | O => pretty n
  | S fuel' =>
      if bool_decide (n < 1000) then pretty n
      else grouped fuel' (n `div` 1000) +:+ "," +:+ three_digits (n `mod` 1000)
  end.

(** [format(v, spec)] for the two specifications the block uses, on
    integers. *)
Definition scenario_format (spec : string) (v : json) : result string :=
  match v with
  | JNum n =>
      if bool_decide (spec = ".2f") then Ok (pretty n +:+ ".00")
      else if bool_decide (spec = ",") then
        Ok ((if bool_decide (n < 0) then "-" else "")
            +:+ grouped (Z.to_nat (Z.log2_up (Z.abs n))) (Z.abs n))
      else Raise (Exn "ValueError" "Invalid format specifier")
  | other =>
      Raise (Exn "TypeError"
               ("unsupported format string passed to " +:+ type_name other
                +:+ ".__format__"))
  end.

Definition download_saves (year : Z) (company_code : string) (fs : filesystem)
    : result (bool * string) * filesystem :=
  (Ok (true, pdf_2330), save_pdf (pdf_pattern repo_config year company_code) pdf_2330 fs).

Definition download_refused (year : Z) (company_code : string) (fs : filesystem)
    : result (bool * string) * filesystem :=
  (Ok (false, "HTTP 404"), fs).

Definition analysis_writes (pdf_path : string) (year : Z)
    (company_code company_name industry : string) (fs : filesystem)
    : result (gmap string string) * filesystem :=
  (Ok {[ "url" := "https://mops.twse.com.tw/mops/web/t100sb07_2024" ]},
   write_file (repo_get_file_path "P1_JSON" year company_code) (Json one_item) fs).

Definition analysis_raises (pdf_path : string) (year : Z)
    (company_code company_name industry : string) (fs : filesystem)
    : result (gmap string string) * filesystem :=
  (Raise (Exn "RuntimeError" "AI 分析失敗: 429 quota exceeded"), fs).

Definition step_writes (key : string) (year : Z) (company_code : string) (force : bool)
    (fs : filesystem) : result step_report * filesystem :=
  (Ok (done_report key year company_code),
   write_file (repo_get_file_path key year company_code) (Json one_item) fs).

Definition step_fails (why : string) (year : Z) (company_code : string) (force : bool)
    (fs : filesystem) : result step_report * filesystem :=
  (Ok (failed_report why), fs).

Definition step_raises (why : string) (year : Z) (company_code : string) (force : bool)
    (fs : filesystem) : result step_report * filesystem :=
  (Raise (Exn "ConnectionError" why), fs).

(** The database answers with the status last written for the job. *)
Definition query_by_status (year : Z) (company_code : string)
    (statuses : gmap string string) : result query_record :=
  Ok {| q_status := default "not_found" (statuses !! (pretty year +:+ company_code));
        q_data := JDict {[ "ESG_id" := JStr (pretty year +:+ company_code) ]};
        q_details := one_item |}.

(** Collaborators that work but for those given; the word cloud thread,
    started first, acts first. *)
Definition working_services
    (download : Z → string → filesystem → result (bool * string) * filesystem)
    (analysis : string → Z → string → string → string → filesystem →
                result (gmap string string) * filesystem)
    (news sources : Z → string → bool → filesystem → result step_report * filesystem)
    : services :=
  {| download_esg_report := download;
     generate_wordcloud := λ _ _ _ _,
       Some (Ok {| wc_success := true; wc_skipped := false; wc_error := None |});
     thread_schedule := λ _ _, [];
     py_str := scenario_str;
     py_format := scenario_format;
     analyze_esg_report := analysis;
     search_news_for_report := news;
     verify_esg_with_news := step_writes "P2_JSON";
     verify_evidence_sources := sources;
     insert_analysis_results := λ _ _ _ _ _, Ok (true, "OK");
     query_company_data := query_by_status;
     company_view := λ record, Ok (q_data record) |}.

(** The same collaborators with the threads of stage 2 scheduled
    otherwise. *)
Definition scheduled (schedule : list bool) (svc : services) : services :=
  {| download_esg_report := download_esg_report svc;
     generate_wordcloud := generate_wordcloud svc;
     thread_schedule := λ _ _, schedule;
     py_str := py_str svc;
     py_format := py_format svc;
     analyze_esg_report := analyze_esg_report svc;
     search_news_for_report := search_news_for_report svc;
     verify_esg_with_news := verify_esg_with_news svc;
     verify_evidence_sources := verify_evidence_sources svc;
     insert_analysis_results := insert_analysis_results svc;
     query_company_data := query_company_data svc;
     company_view := company_view svc |}.

Definition all_up : services :=
  working_services download_saves analysis_writes (step_writes "NEWS_JSON") (step_writes "P3_JSON").

Definition download_down : services :=
  working_services download_refused analysis_writes (step_writes "NEWS_JSON") (step_writes "P3_JSON").

Definition analysis_down : services :=
  working_services download_saves analysis_raises (step_writes "NEWS_JSON") (step_writes "P3_JSON").

Definition news_down : services :=
  working_services download_saves analysis_writes (step_raises "news API unreachable")
    (step_writes "P3_JSON").

Definition sources_down : services :=
  working_services download_saves analysis_writes (step_writes "NEWS_JSON")
    (step_fails "找不到 P2 JSON").

(** A first run: nothing on disk, no active job, status [processing]
    just inserted. *)
Definition fresh_world : world :=
  {| disk := empty_disk;
     ACTIVE_PROCESSING := ∅;
     analysis_status := {[ "20242330" := "processing" ]};
     journal := [];
     clock := 1762185600 |}.

Definition run_2330 (svc : services) (resume_from : string) : M unit :=
  run_analysis repo_config svc 2024 "2330" "20242330" report_info_2330 resume_from.

(** The status of the response a statement returned, if it returned. *)
Definition outcome_status {A} (f : flow A) : option string :=
  match f with
  | Returned r => Some (r_status r)
  | _ => None
  end.

(** The download collaborator answers [(False, error)] or raises. *)
Definition download_fails (svc : services) (year : Z) (company_code : string)
    (fs : filesystem) : Prop :=
  match (download_esg_report svc year company_code fs).1 with
  | Ok (true, _) => False
  | _ => True
  end.

(** The news search answers with [success] false or raises. *)
Definition news_fails (svc : services) (year : Z) (company_code : string)
    (fs : filesystem) : Prop :=
  match (search_news_for_report svc year company_code true fs).1 with
  | Ok report => success report = false
  | Raise _ => True
  end.

(** The analysis block cut around stage 3: what runs before it, from the
    registry entry to the end of stage 2, and what runs after it, inside
    the same [try]. *)
Definition enter_and_reach_stage3 (cfg : config) (svc : services) (year : Z)
    (company_code esg_id : string) (report_info : gmap string string)
    (resume_from : string) : M (option (gmap string string)) :=
  mark_processing_start esg_id;;
  pdf_path ← stage1_download cfg svc year company_code esg_id resume_from;
  stage2_analysis svc year company_code esg_id report_info resume_from pdf_path.

Definition from_stage4 (cfg : config) (svc : services) (year : Z)
    (company_code esg_id : string) (report_info : gmap string string)
    (resume_from : string) (analysis_result : option (gmap string string)) : M unit :=
  try_catch
    (stage4_verify svc year company_code esg_id resume_from;;
     stage5_sources svc year company_code esg_id resume_from;;
     stage6_persist cfg svc year company_code esg_id report_info analysis_result;;
     finalize cfg svc year company_code esg_id report_info)
    (on_exception esg_id).

(** The AI analysis raises. *)
Definition analysis_fails (svc : services) (pdf_path : string) (year : Z)
    (company_code : string) (report_info : gmap string string) (fs : filesystem) : Prop :=
  ∃ e, (analyze_esg_report svc pdf_path year company_code
          (dict_get report_info "company_name" "") (dict_get report_info "sector" "") fs).1
       = Raise e.

(** The record read back says [completed] and the company object is
    built from it. *)
Definition read_back_succeeds (svc : services) (year : Z) (company_code : string)
    (w : world) (company_obj : json) : Prop :=
  ∃ record,
    query_company_data svc year company_code (analysis_status w) = Ok record
    ∧ q_status record = "completed"
    ∧ company_view svc record = Ok company_obj.

Definition completed_response (esg_id : string) (company_obj : json) : response :=
  {| r_status := "completed"; r_message := "自動抓取與分析完成"; r_esg_id := esg_id;
     r_data := Some company_obj; r_code := 200 |}.

(** The line [cleanup_temp_files] prints when a removal raises. *)
Definition removal_warning (file_path : string) (e : exn) : string :=
  "  ⚠️ 無法刪除 " +:+ file_path +:+ ": " +:+ exn_text e.

(** The analysis block through the [completed] status write. *)
Definition enter_and_persist (cfg : config) (svc : services) (year : Z)
    (company_code esg_id : string) (report_info : gmap string string)
    (resume_from : string) : M unit :=
  mark_processing_start esg_id;;
  stages_1_to_6 cfg svc year company_code esg_id report_info resume_from.

(** A report stored under another name than the one the clean-up
    builds, found by [glob] under the pattern of the job. *)
Definition pdf_found : string := "temp_data/esgReport/2024_2330_report.pdf".

(** Job (2024, "2330") with that report and the four JSON artifacts on
    disk. *)
Definition fs_found : filesystem :=
  {| files :=
       <[ pdf_found := Unreadable (Exn "UnicodeDecodeError" "invalid start byte") ]>
       (<[ "temp_data/prompt1_json/2024_2330_p1.json" := Json one_item ]>
       (<[ "temp_data/news_output/2024_2330_news.json" := Json one_item ]>
       (<[ "temp_data/prompt2_json/2024_2330_p2.json" := Json one_item ]>
       (<[ "temp_data/prompt3_json/2024_2330_p3.json" := Json one_item ]> ∅))));
     glob_matches := λ pat,
       if bool_decide (pat = "temp_data/esgReport/2024_2330_*.pdf") then [pdf_found] else [];
     remove_denied := ∅ |}.

(** The job was interrupted after stage 5. *)
Definition resumed_world : world :=
  {| disk := fs_found;
     ACTIVE_PROCESSING := ∅;
     analysis_status := {[ "20242330" := "stage5" ]};
     journal := [];
     clock := 1762185600 |}.

(** The first match of a pattern stays the first match as long as it is
    none of [targets]. *)
Definition first_match_kept (targets : list string) (w w' : world) : Prop :=
  ∀ pat q rest, q ∉ targets →
    glob_matches (disk w) pat = q :: rest →
    ∃ rest', glob_matches (disk w') pat = q :: rest'.

(** A disk on which the P3 JSON of the job cannot be removed. *)
Definition locked_disk : filesystem :=
  {| files := ∅; glob_matches := λ _, [];
     remove_denied :=
       {[ "temp_data/prompt3_json/2024_2330_p3.json"
          := Exn "PermissionError" "[Errno 13] Permission denied" ]} |}.

Definition locked_world : world :=
  {| disk := locked_disk;
     ACTIVE_PROCESSING := ∅;
     analysis_status := {[ "20242330" := "processing" ]};
     journal := [];
     clock := 1762185600 |}.

(** What a sweep over [targets] may change between two worlds: only the
    disk and the journal; only targets go, each unless its removal is
    refused, and a refused removal of an existing target is printed. *)
Definition swept (targets : list string) (w w' : world) : Prop :=
  ACTIVE_PROCESSING w' = ACTIVE_PROCESSING w
  ∧ analysis_status w' = analysis_status w
  ∧ remove_denied (disk w') = remove_denied (disk w)
  ∧ (∃ evs, journal w' = (journal w ++ evs)%list)
  ∧ (∀ q, q ∉ targets → files (disk w') !! q = files (disk w) !! q)
  ∧ (∀ q, is_Some (remove_denied (disk w) !! q) →
          files (disk w') !! q = files (disk w) !! q)
  ∧ (∀ q, files (disk w) !! q = None → files (disk w') !! q = None)
  ∧ (∀ p, p ∈ targets → remove_denied (disk w) !! p = None →
          files (disk w') !! p = None)
  ∧ (∀ p e, p ∈ targets → remove_denied (disk w) !! p = Some e →
            is_Some (files (disk w) !! p) →
            Printed (removal_warning p e) ∈ journal w').

(** The world of a first run on [locked_world], once stage 6 has written
    [completed]. *)
Definition persisted_locked : world :=
  (enter_and_persist repo_config all_up 2024 "2330" "20242330" report_info_2330
     "stage1" locked_world).2.

(** The world of a run resumed at stage 6 on [resumed_world], once
    stage 6 has written [completed]. *)
Definition persisted_resumed : world :=
  (enter_and_persist repo_config all_up 2024 "2330" "20242330" report_info_2330
     "stage6" resumed_world).2.

Definition company_2330 : json := JDict {[ "ESG_id" := JStr "20242330" ]}.

(** ** The course of a run *)

(** The journal without its console lines: status writes and calls. *)
Fixpoint deeds (evs : list event) : list event :=
  match evs with
  | [] => []
  | Printed _ :: rest => deeds rest
  | ev :: rest => ev :: deeds rest
  end.

(** The status writes and calls of a stage that is entered when
    [resume_from] is in [gate]. *)
Definition when_entered (resume_from : string) (gate : list string)
    (course : list event) : list event :=
  if bool_decide (resume_from ∈ gate) then course else [].

(** Whether [AIAnalysisThread] is the first of the two threads of
    stage 2 to act: [thread_schedule] gives its turn to it first. *)
Definition analysis_first (svc : services) (year : Z) (company_code : string) : bool :=
  match thread_schedule svc year company_code with
  | false :: _ => true
  | _ => false
  end.

(** The two calls of stage 2, in the order their threads make them. *)
Definition stage2_calls (analysis_first : bool) : list event :=
  if analysis_first then [Called AIAnalysis; Called WordCloud]
  else [Called WordCloud; Called AIAnalysis].

(** Everything a run may write or call, in order, up to the last
    [failed]: the stages from the resume point on, the insertion, the
    [completed] write and the read-back. The two calls of stage 2 come
    in the order of their threads. *)
Definition course_through_read_back (analysis_first : bool)
    (esg_id resume_from : string) : list event :=
  (when_entered resume_from ["stage1"]
     [StatusWritten esg_id "stage1"; Called DownloadReport]
   ++ when_entered resume_from ["stage1"; "stage2"]
        (StatusWritten esg_id "stage2" :: stage2_calls analysis_first)
   ++ when_entered resume_from ["stage1"; "stage2"; "stage3"]
        [StatusWritten esg_id "stage3"; Called NewsSearch]
   ++ when_entered resume_from ["stage1"; "stage2"; "stage3"; "stage4"]
        [StatusWritten esg_id "stage4"; Called AIVerification]
   ++ when_entered resume_from ["stage1"; "stage2"; "stage3"; "stage4"; "stage5"]
        [StatusWritten esg_id "stage5"; Called SourceCheck]
   ++ [StatusWritten esg_id "stage6"; Called InsertResults;
       StatusWritten esg_id "completed"; Called QueryCompany])%list.

Definition course (analysis_first : bool) (esg_id resume_from : string) : list event :=
  (course_through_read_back analysis_first esg_id resume_from
   ++ [StatusWritten esg_id "failed"])%list.

(** The other jobs keep their status and their registry entry. *)
Definition spares (esg_id : string) (w w' : world) : Prop :=
  ∀ other, other ≠ esg_id →
    analysis_status w' !! other = analysis_status w !! other
    ∧ ACTIVE_PROCESSING w' !! other = ACTIVE_PROCESSING w !! other.

(** A statement of the block stays within [allowed]: it only appends to
    the journal, what it writes and calls is a sublist of [allowed],
    followed by one [failed] at most when it returns, and it spares the
    other jobs. *)
Definition within {A} (esg_id : string) (m : M A) (allowed : list event) : Prop :=
  ∀ w, ∃ evs,
    journal (m w).2 = (journal w ++ evs)%list
    ∧ spares esg_id w (m w).2
    ∧ match (m w).1 with
      | Returned _ => deeds evs `sublist_of` (allowed ++ [StatusWritten esg_id "failed"])%list
      | _ => deeds evs `sublist_of` allowed
      end.

(** The response of the read-back that does not find [completed]. *)
Definition read_back_error (esg_id : string) : response :=
  {| r_status := "error"; r_message := "分析完成但資料查詢失敗"; r_esg_id := esg_id;
     r_data := None; r_code := 500 |}.

(** A statement of the block returns only to give the job up, with the
    failed response and status [failed] written; otherwise it leaves the
    registry as it was. *)
Definition carries {A} (esg_id : string) (m : M A) : Prop :=
  ∀ w, match (m w).1 with
       | Returned r =>
           r = failed_response esg_id (r_message r)
           ∧ analysis_status (m w).2 !! esg_id = Some "failed"
       | _ => ACTIVE_PROCESSING (m w).2 = ACTIVE_PROCESSING w
       end.

(** When the statement falls through, the job has status [status]. *)
Definition lands {A} (esg_id status : string) (m : M A) : Prop :=
  ∀ w, match (m w).1 with
       | Next _ => analysis_status (m w).2 !! esg_id = Some status
       | _ => True
       end.

(** ** The checker and the clean-up together *)

(** [get_file_path] puts the four JSON artifacts where
    [cleanup_temp_files] and stage 6 build their paths. *)
Definition layout_agrees (cfg : config) (year : Z) (company_code : string) : Prop :=
  get_file_path cfg "P1_JSON" year company_code
    = os_path_join (PATHS cfg "P1_JSON") (job_prefix year company_code +:+ "_p1.json")
  ∧ get_file_path cfg "NEWS_JSON" year company_code
    = os_path_join (PATHS cfg "NEWS_OUTPUT") (job_prefix year company_code +:+ "_news.json")
  ∧ get_file_path cfg "P2_JSON" year company_code
    = os_path_join (PATHS cfg "P2_JSON") (job_prefix year company_code +:+ "_p2.json")
  ∧ get_file_path cfg "P3_JSON" year company_code
    = os_path_join (PATHS cfg "P3_JSON") (job_prefix year company_code +:+ "_p3.json").

(** A world with the finished job (2024, "2330") still on disk. *)
Definition full_world : world :=
  {| disk := fs_full;
     ACTIVE_PROCESSING := {[ "20242330" := 1762185600 ]};
     analysis_status := {[ "20242330" := "completed" ]};
     journal := [];
     clock := 1762185700 |}.

(** A registry with another job in it. *)
Definition busy_world : world :=
  {| disk := empty_disk;
     ACTIVE_PROCESSING := {[ "20231101" := 1762185000 ]};
     analysis_status := {[ "20231101" := "stage3" ]};
     journal := [];
     clock := 1762185600 |}.

(** ** What the word cloud cannot change *)

(** Two worlds that differ in the journal at most. *)
Definition same_state (w w' : world) : Prop :=
  disk w = disk w'
  ∧ ACTIVE_PROCESSING w = ACTIVE_PROCESSING w'
  ∧ analysis_status w = analysis_status w'
  ∧ clock w = clock w'.

(** Two statements that end the same way and leave the same state when
    started in the same state. *)
Definition alike {A} (m1 m2 : M A) : Prop :=
  ∀ w w', same_state w w' →
    (m1 w).1 = (m2 w').1 ∧ same_state (m1 w).2 (m2 w').2.

(** The same collaborators with another word cloud generator. *)
Definition with_wordcloud (svc : services)
    (wordcloud : Z → string → string → bool → option (result wordcloud_report))
    : services :=
  {| download_esg_report := download_esg_report svc;
     generate_wordcloud := wordcloud;
     thread_schedule := thread_schedule svc;
     py_str := py_str svc;
     py_format := py_format svc;
     analyze_esg_report := analyze_esg_report svc;
     search_news_for_report := search_news_for_report svc;
     verify_esg_with_news := verify_esg_with_news svc;
     verify_evidence_sources := verify_evidence_sources svc;
     insert_analysis_results := insert_analysis_results svc;
     query_company_data := query_company_data svc;
     company_view := company_view svc |}.

(** ** The URL stored by a resumed run *)

(** The same collaborators, with the insertion always handed [url]. *)
Definition with_url (svc : services) (url : string) : services :=
  {| download_esg_report := download_esg_report svc;
     generate_wordcloud := generate_wordcloud svc;
     thread_schedule := thread_schedule svc;
     py_str := py_str svc;
     py_format := py_format svc;
     analyze_esg_report := analyze_esg_report svc;
     search_news_for_report := search_news_for_report svc;
     verify_esg_with_news := verify_esg_with_news svc;
     verify_evidence_sources := verify_evidence_sources svc;
     insert_analysis_results := λ esg_id company_name industry _ analysis_items,
       insert_analysis_results svc esg_id company_name industry url analysis_items;
     query_company_data := query_company_data svc;
     company_view := company_view svc |}.

(** A world in which stages 1 to 5 of (2024, "2330") left their
    artifacts and the job stopped at stage 5. *)
Definition stopped_world : world :=
  {| disk := fs_full;
     ACTIVE_PROCESSING := ∅;
     analysis_status := {[ "20242330" := "stage5" ]};
     journal := [];
     clock := 1762185600 |}.

(** ** The endpoint *)

(** The identifier the endpoint works under: the one of the row found,
    or year and company code side by side. *)
Definition job_id (year : Z) (company_code : string) (found : company_lookup) : string :=
  default (pretty year +:+ company_code) (known_esg_id found).

(** A desk over [svc] whose database knows the status registered under
    year and code, whose catalogue has every report and whose insertion
    succeeds. *)
Definition desk_over (svc : services) : front_desk :=
  {| back_office := svc;
     lookup_company := λ year company_code statuses,
       Ok {| known_esg_id := None;
             lookup_record :=
               {| q_status := default "not_found" (statuses !! (pretty year +:+ company_code));
                  q_data := JNull;
                  q_details := one_item |} |};
     validate_report_exists := λ _ _, Ok (true, report_info_2330);
     insert_company_basic := λ _ _ _ _ _, Ok (true, "新增成功") |}.

(** The answers that only ask or tell, with the HTTP code of each, and
    those of a run. *)
Definition answer_codes : list (string * Z) :=
  [("completed", 200); ("processing", 200); ("resume_needed", 200);
   ("validation_needed", 200); ("not_found", 404); ("failed", 500);
   ("error", 500); ("error", 400)].

(** A statement only appends to the journal. *)
Definition grows {A} (m : M A) : Prop :=
  ∀ w, ∃ evs, journal (m w).2 = (journal w ++ evs)%list.

(** What a statement appends starts with [first]. *)
Definition opens {A} (m : M A) (first : list event) : Prop :=
  ∀ w, ∃ rest, journal (m w).2 = (journal w ++ first ++ rest)%list.

(** The answers of a run with their HTTP codes. *)
Definition run_answers : list (string * Z) :=
  [("completed", 200); ("failed", 500); ("error", 500)].

(** What the checker reports for a stage on the disk of [w]. *)
Definition done_on_disk (cfg : config) (w : world) (year : Z)
    (company_code stage : string) : Prop :=
  reported_complete cfg (disk w) year company_code stage = true.

(** ** The analyzer's retry loop *)

(** How often a topic occurs among the topics of the items. *)
Definition occurrences (topic : hashable) (found : list hashable) : nat :=
  length (filter (λ other, other = topic) found).

(** An answer the loop saves and returns on: not abnormal, and with a
    length to print. *)
Definition usable (v : json) : bool :=
  match gemini_api._is_abnormal_output v, py_len v with
  | Ok (false, _, _), Ok _ => true
  | _, _ => false
  end.

(** An answer the detector flags. *)
Definition abnormal (v : json) : bool :=
  match gemini_api._is_abnormal_output v with
  | Ok (true, _, _) => true
  | _ => false
  end.

(** An answer that is neither saved nor kept as best: the call, the
    parser or the detector raised. *)
Definition broken (answer : result json) : option exn :=
  match answer with
  | Raise e => Some e
  | Ok v =>
      match gemini_api._is_abnormal_output v with
      | Raise e => Some e
      | Ok _ => None
      end
  end.

(** The number of items of an answer that is a list. *)
Definition items_of (v : json) : nat :=
  match v with
  | JList items => length items
  | _ => 0%nat
  end.

(** The disk with [v] under [p], all else as before. *)
Definition holds (fs' fs : filesystem) (p : string) (v : json) : Prop :=
  files fs' = <[p := Json v]> (files fs)
  ∧ glob_matches fs' = glob_matches fs
  ∧ remove_denied fs' = remove_denied fs.

(** An answer the detector lets pass. *)
Definition normal (v : json) : bool :=
  match gemini_api._is_abnormal_output v with
  | Ok (false, _, _) => true
  | _ => false
  end.

(** The disk with what a broken write left under [p], all else as
    before. *)
Definition spoiled (fs' fs : filesystem) (p : string) (left_behind : string) : Prop :=
  files fs' = <[p := Malformed left_behind]> (files fs)
  ∧ glob_matches fs' = glob_matches fs
  ∧ remove_denied fs' = remove_denied fs.

(** What attempts that were given up may leave on the disk: nothing, or
    a file under [p], whole or broken. *)
Definition scratched (fs' fs : filesystem) (p : string) : Prop :=
  (files fs' = files fs ∨ ∃ node, files fs' = <[p := node]> (files fs))
  ∧ glob_matches fs' = glob_matches fs
  ∧ remove_denied fs' = remove_denied fs.

(** An answer the loop can save and return on: usable, and its write
    succeeds. *)
Definition savable (writing : string → json → write_end) (p : string) (v : json) : bool :=
  usable v && match writing p v with Written => true | _ => false end.

(** Every write succeeds. *)
Definition all_written (p : string) (v : json) : write_end := Written.

(** How the loop ends when it falls back to the flagged answer [kept]:
    by the write of [kept]. It returns with the file holding [kept]; or
    it raises [RuntimeError] with the text of the exception of the
    write, the file as earlier attempts left it when it could not be
    opened, broken when the dump raised. *)
Definition fallback_outcome (writing : string → json → write_end) (p : string)
    (kept : json) (outcome : result unit * filesystem) (fs : filesystem) : Prop :=
  match writing p kept with
  | Written => outcome.1 = Ok () ∧ holds outcome.2 fs p kept
  | NotOpened e =>
      outcome.1 = Raise (Exn "RuntimeError" ("所有重試配置都失敗: " +:+ exn_text e))
      ∧ scratched outcome.2 fs p
  | Broken e left_behind =>
      outcome.1 = Raise (Exn "RuntimeError" ("所有重試配置都失敗: " +:+ exn_text e))
      ∧ spoiled outcome.2 fs p left_behind
  end.

(** Answers for concrete runs of the analyzer. *)
Definition item_on (topic : string) : json := JDict {[ "sasb_topic" := JStr topic ]}.

Definition clean_answer : json := JList [item_on "水資源管理"; item_on "溫室氣體排放"].

Definition repeated_answer (n : nat) : json := JList (replicate n (item_on "水資源管理")).

Definition unavailable : exn := Exn "ServerError" "503 UNAVAILABLE".

(** The service is down at the first attempt and answers well at the second. *)
Definition second_try (attempt : nat) (config : gemini_api.attempt_config) : result json :=
  if bool_decide (attempt = 2%nat) then Ok clean_answer else Raise unavailable.

(** Every attempt gives a repetitive answer: five, four and six items. *)
Definition always_repeating (attempt : nat) (config : gemini_api.attempt_config)
    : result json :=
  if bool_decide (attempt = 1%nat) then Ok (repeated_answer 5)
  else if bool_decide (attempt = 2%nat) then Ok (repeated_answer 4)
  else Ok (repeated_answer 6).

(** What the encoder raises on an unpaired surrogate. *)
Definition surrogate_error : exn :=
  Exn "UnicodeEncodeError"
    ("'utf-8' codec can't encode character '\ud83d' in position 31: "
     +:+ "surrogates not allowed").

(** The dump of a list of four items is refused by the encoder, with
    the opening bracket written; every other write succeeds. *)
Definition refusing_four (p : string) (v : json) : write_end :=
  match v with
  | JList [_; _; _; _] => Broken surrogate_error "["
  | _ => Written
  end.

(** Two repetitive answers, then the service is down. *)
Definition down_at_last (attempt : nat) (config : gemini_api.attempt_config)
    : result json :=
  if bool_decide (attempt = 1%nat) then Ok (repeated_answer 5)
  else if bool_decide (attempt = 2%nat) then Ok (repeated_answer 4)
  else Raise unavailable.

(** The analyzer of [gemini_api] as the collaborator of stage 2. *)
Definition with_gemini (svc : services) (cfg : config) (strip : string → string)
    (construct : Z → string → string → string → filesystem → result unit)
    (prepare : Z → string → result unit)
    (ask : Z → string → nat → gemini_api.attempt_config → result json)
    (writing : string → json → write_end) : services :=
  {| download_esg_report := download_esg_report svc;
     generate_wordcloud := generate_wordcloud svc;
     thread_schedule := thread_schedule svc;
     py_str := py_str svc;
     py_format := py_format svc;
     analyze_esg_report :=
       gemini_api.analyze_esg_report cfg strip construct prepare ask writing;
     search_news_for_report := search_news_for_report svc;
     verify_esg_with_news := verify_esg_with_news svc;
     verify_evidence_sources := verify_evidence_sources svc;
     insert_analysis_results := insert_analysis_results svc;
     query_company_data := query_company_data svc;
     company_view := company_view svc |}.

(** What stage 2 hands on when it was entered with the analyzer: nothing,
    or a result whose URL is the address of the year. *)
Definition analysed_url (year : Z) (analysis_result : option (gmap string string)) : Prop :=
  match analysis_result with
  | None => True
  | Some analysis => analysis !! "url" = Some (gemini_api.mops_url year)
  end.

(** ** The source check *)

(** An item as the source check writes it. It comes from an object of
    the input whose URL is a string that [strip] does not empty, and is
    that object marked as verified: unchanged otherwise when the
    stripped URL is valid, and with the URL that the search found, a
    string that is not empty, when it is not. *)
Definition kept_item (strip : string → string) (verify_single_url : string → bool)
    (find_alternative_url : json → json → json → string → result (option string))
    (items : list json) (item : json) : Prop :=
  ∃ fields text,
    JDict fields ∈ items
    ∧ pplx_api.get_or_empty fields "external_evidence_url" = JStr text
    ∧ strip text ≠ ""
    ∧ ((verify_single_url (strip text) = true
        ∧ item = JDict (<["is_verified" := JStr "True"]> fields))
       ∨ (verify_single_url (strip text) = false
          ∧ ∃ new_url,
              find_alternative_url (pplx_api.get_or_empty fields "company")
                (pplx_api.get_or_empty fields "year")
                (pplx_api.get_or_empty fields "external_evidence") (strip text)
              = Ok (Some new_url)
              ∧ new_url ≠ ""
              ∧ item = JDict (<["is_verified" := JStr "True"]>
                              (<["external_evidence_url" := JStr new_url]> fields)))).

(** The number the dictionary of statistics gives under [key]. *)
Definition statistic (answer : gmap string json) (key : string) : option Z :=
  match answer !! "statistics" with
  | Some (JDict stats) =>
      match stats !! key with
      | Some (JNum n) => Some n
      | _ => None
      end
  | _ => None
  end.
(** ** The artifact checker *)

Section RecoveryFacts.
Variable cfg : config.
Variable fs : filesystem.
Variables (year : Z) (company_code : string).

Lemma os_path_exists_lookup p :
  os_path_exists fs p = match files fs !! p with Some _ => true | None => false end.
Proof.
  unfold os_path_exists. destruct (files fs !! p) as [n|] eqn:E.
  - apply bool_decide_eq_true. eauto.
  - apply bool_decide_eq_false. intros [n Hn]. discriminate.
Qed.

Lemma check_json_valid_answer p :
  ∃ m, check_json_valid fs p = Ok (valid_artifact fs p, m) ∧ m ≠ "".
Proof.
  unfold check_json_valid, valid_artifact, json_load.
  rewrite os_path_exists_lookup.
  destruct (files fs !! p) as [[e|err|v]|]; simpl.
  - case_bool_decide; eexists; (split; [reflexivity | discriminate]).
  - eexists; (split; [reflexivity | discriminate]).
  - destruct v; simpl; try (eexists; (split; [reflexivity | discriminate]));
      case_bool_decide; eexists; (split; [reflexivity | discriminate]).
  - eexists; (split; [reflexivity | discriminate]).
Qed.

Lemma unusable_not_valid p : unusable fs p ↔ valid_artifact fs p = false.
Proof.
  unfold valid_artifact. split.
  - intros [H|e H|err H|v H Hv]; rewrite H; done.
  - destruct (files fs !! p) as [[e|err|v]|] eqn:E; intros H.
    + by eapply ReadError.
    + by eapply Unparseable.
    + by eapply Empty.
    + by apply Absent.
Qed.

Lemma json_stage_answer key :
  let p := get_file_path cfg key year company_code in
  ∃ m, json_stage cfg fs key year company_code
         = Ok (valid_artifact fs p, if valid_artifact fs p then p else "", m)
       ∧ m ≠ "".
Proof.
  intros p. unfold json_stage. fold p.
  destruct (check_json_valid_answer p) as (m & -> & Hm). simpl. eauto.
Qed.

Lemma check_stage_completion_answer stage :
  ∃ c p m, check_stage_completion cfg fs year company_code stage = Ok (c, p, m)
           ∧ (c = false → p = "" ∧ m ≠ "").
Proof.
  unfold check_stage_completion.
  repeat case_bool_decide;
    try (edestruct json_stage_answer as (m & -> & Hm); do 3 eexists;
         split; [reflexivity | by intros ->]).
  - unfold check_pdf_exists. destruct (glob_matches fs _); do 3 eexists;
      (split; [reflexivity | done]).
  - do 3 eexists. split; [reflexivity | done].
  - do 3 eexists. split; [reflexivity | done].
Qed.

Lemma reported_complete_json stage key :
  stage_key stage = Some key →
  reported_complete cfg fs year company_code stage
    = valid_artifact fs (get_file_path cfg key year company_code).
Proof.
  unfold stage_key, reported_complete, check_stage_completion.
  repeat case_bool_decide; subst; try done; intros [= <-];
    by edestruct json_stage_answer as (m & -> & _).
Qed.

Lemma reported_complete_stage1 :
  reported_complete cfg fs year company_code "stage1"
    = bool_decide (glob_matches fs (pdf_pattern cfg year company_code) ≠ []).
Proof.
  unfold reported_complete, check_stage_completion, check_pdf_exists. simpl.
  by destruct (glob_matches fs _).
Qed.

Lemma reported_complete_other stage :
  stage ≠ "stage1" → stage_key stage = None →
  reported_complete cfg fs year company_code stage = false.
Proof.
  unfold stage_key, reported_complete, check_stage_completion.
  repeat case_bool_decide; done.
Qed.

(** What is reported complete has its artifact in place. *)
Lemma reported_complete_present stage :
  reported_complete cfg fs year company_code stage = true →
  artifact_present cfg fs year company_code stage = true.
Proof.
  unfold artifact_present. case_bool_decide as H1.
  - subst. by rewrite reported_complete_stage1.
  - destruct (stage_key stage) as [key|] eqn:Hk.
    + rewrite (reported_complete_json _ _ Hk), os_path_exists_lookup.
      unfold valid_artifact. by destruct (files fs !! _).
    + by rewrite reported_complete_other.
Qed.

Lemma detail_of_answer stage :
  ∃ p m, check_stage_completion cfg fs year company_code stage
           = Ok (reported_complete cfg fs year company_code stage, p, m)
         ∧ detail_of cfg fs year company_code stage
           = Some {| completed := reported_complete cfg fs year company_code stage;
                     path := p; msg := m |}.
Proof.
  unfold reported_complete, detail_of.
  destruct (check_stage_completion_answer stage) as (c & p & m & -> & _). eauto.
Qed.

(** ** The resume planner *)

Local Abbreviation says := (λ stage, reported_complete cfg fs year company_code stage = true).

Lemma check_each_answer todo acc :
  ∃ r, check_each cfg fs year company_code todo acc = Ok r
       ∧ completed_stages r = (completed_stages acc ++ filter says todo)%list
       ∧ ∀ stage, stage_details r !! stage
                  = if decide (stage ∈ todo)
                    then detail_of cfg fs year company_code stage
                    else stage_details acc !! stage.
Proof.
  revert acc. induction todo as [|stage rest IH]; intros acc.
  - exists acc. split; [done|]. split; [by rewrite app_nil_r|].
    intros s. case_decide as H; [by apply elem_of_nil in H | done].
  - cbn [check_each].
    destruct (detail_of_answer stage) as (p & m & Hc & Hd). rewrite Hc. simpl.
    edestruct IH as (r & -> & Hdone & Hdet). exists r. split; [done|]. split.
    + rewrite Hdone. simpl. rewrite filter_cons.
      destruct (reported_complete cfg fs year company_code stage) eqn:E.
      * rewrite decide_True by done. by rewrite <- app_assoc.
      * rewrite decide_False by done. done.
    + intros s. rewrite Hdet. simpl.
      destruct (decide (s ∈ rest)) as [Hin|Hout].
      * rewrite decide_True by set_solver. done.
      * destruct (decide (s = stage)) as [->|Hne].
        -- rewrite decide_True by set_solver. by rewrite lookup_insert_eq.
        -- rewrite decide_False by set_solver. by rewrite lookup_insert_ne.
Qed.

Lemma first_not_in_filter (all todo : list string) :
  todo ⊆ all →
  first_not_in todo (filter says all)
    = snd <$> list_find (λ stage, reported_complete cfg fs year company_code stage = false) todo.
Proof.
  induction todo as [|stage rest IH]; intros Hsub; [done|].
  cbn [first_not_in list_find].
  destruct (reported_complete cfg fs year company_code stage) eqn:E.
  - rewrite bool_decide_eq_true_2.
    + rewrite decide_False by done. rewrite IH by set_solver.
      by destruct (list_find _ rest) as [[i s]|].
    + apply list_elem_of_filter. split; [done | set_solver].
  - rewrite bool_decide_eq_false_2.
    + by rewrite decide_True.
    + rewrite list_elem_of_filter. intros [H _]. congruence.
Qed.

Lemma stage6_never_reported :
  reported_complete cfg fs year company_code "stage6" = false.
Proof. by apply reported_complete_other. Qed.

(** The planner's answer, whatever the status handed to it. *)
Lemma determine_resume_point_answer status :
  ∃ r k,
    determine_resume_point cfg fs year company_code status = Ok r
    ∧ completed_stages r = filter says stages
    ∧ (∀ stage, stage_details r !! stage
                = if decide (stage ∈ stages)
                  then detail_of cfg fs year company_code stage else None)
    ∧ stages !! k = Some (resume_from r)
    ∧ reported_complete cfg fs year company_code (resume_from r) = false
    ∧ ∀ i stage, stages !! i = Some stage → (i < k)%nat →
                 reported_complete cfg fs year company_code stage = true.
Proof.
  unfold determine_resume_point.
  edestruct check_each_answer as (r0 & -> & Hdone & Hdet).
  unfold mbind, result_bind. cbn [rbind completed_stages stage_details app] in *.
  rewrite Hdone, (first_not_in_filter stages stages) by done.
  destruct (list_find _ stages) as [[k stage]|] eqn:Hfind.
  - apply list_find_Some in Hfind as (Hk & Hno & Hbefore).
    eexists _, k. split; [reflexivity|].
    cbn [resume_from completed_stages stage_details].
    split; [done|]. split; [|split; [done|]; split; [done|]].
    + intros s. rewrite Hdet. case_decide; [done | by rewrite lookup_empty].
    + intros i s Hi Hlt. specialize (Hbefore i s Hi Hlt).
      by destruct (reported_complete cfg fs year company_code s).
  - exfalso. apply list_find_None in Hfind.
    rewrite Forall_forall in Hfind. apply (Hfind "stage6").
    + unfold stages. do 5 apply list_elem_of_further. apply list_elem_of_here.
    + apply stage6_never_reported.
Qed.
End RecoveryFacts.

(** ** Properties of the resume planner and the checker *)

Lemma not_in_stages stage :
  stage ∉ stages →
  stage ≠ "stage1" ∧ stage ≠ "stage2" ∧ stage ≠ "stage3"
  ∧ stage ≠ "stage4" ∧ stage ≠ "stage5" ∧ stage ≠ "stage6".
Proof.
  unfold stages. rewrite !not_elem_of_cons. tauto.
Qed.

Lemma stage_key_in_stages stage key : stage_key stage = Some key → stage ∈ stages.
Proof.
  unfold stage_key, stages. repeat case_bool_decide; subst; try done; intros _.
  - do 1 apply list_elem_of_further. apply list_elem_of_here.
  - do 2 apply list_elem_of_further. apply list_elem_of_here.
  - do 3 apply list_elem_of_further. apply list_elem_of_here.
  - do 4 apply list_elem_of_further. apply list_elem_of_here.
Qed.

(** C1 (as amended). The planner checks every stage of [stages] in order
    and never raises; [completed_stages] lists the stages reported
    complete, and [resume_from] is the first stage not reported
    complete. For a pair i < j with stage j reported complete and the
    artifact of stage i missing, [resume_from] is not after stage i, and
    it is stage i once every stage before i is reported complete. *)
Theorem resume_from_first_incomplete (cfg : config) (fs : filesystem) (year : Z)
    (company_code status : string) :
  ∃ r k,
    determine_resume_point cfg fs year company_code status = Ok r
    ∧ (∀ stage, stage ∈ stages →
         stage_details r !! stage = detail_of cfg fs year company_code stage)
    ∧ completed_stages r
      = filter (λ stage, reported_complete cfg fs year company_code stage = true) stages
    ∧ stages !! k = Some (resume_from r)
    ∧ reported_complete cfg fs year company_code (resume_from r) = false
    ∧ (∀ i stage, stages !! i = Some stage → (i < k)%nat →
         reported_complete cfg fs year company_code stage = true)
    ∧ (∀ (i j : nat) si sj,
         (i < j)%nat → stages !! i = Some si → stages !! j = Some sj →
         reported_complete cfg fs year company_code sj = true →
         artifact_present cfg fs year company_code si = false →
         (k ≤ i)%nat
         ∧ ((∀ i' s', stages !! i' = Some s' → (i' < i)%nat →
               reported_complete cfg fs year company_code s' = true) →
            resume_from r = si)).
Proof.
  destruct (determine_resume_point_answer cfg fs year company_code status)
    as (r & k & Hr & Hdone & Hdet & Hk & Hno & Hbefore).
  exists r, k. split_and!; try done.
  - intros stage Hin. rewrite Hdet. by rewrite decide_True.
  - intros i j si sj Hij Hi Hj Hsj Hmiss.
    assert (reported_complete cfg fs year company_code si = false) as Hsi.
    { destruct (reported_complete cfg fs year company_code si) eqn:E; [|done].
      apply reported_complete_present in E. congruence. }
    assert (k ≤ i)%nat as Hle.
    { destruct (decide (k ≤ i)%nat) as [|Hgt]; [done|].
      rewrite (Hbefore i si Hi) in Hsi by lia. done. }
    split; [done|]. intros Hall.
    destruct (decide (k = i)) as [->|Hne]; [congruence|].
    rewrite (Hall k _ Hk) in Hno by lia. done.
Qed.

Lemma fs_gap_plan status :
  ∃ r, determine_resume_point repo_config fs_gap 2024 "2330" status = Ok r
       ∧ resume_from r = "stage1".
Proof. eexists. split; [vm_compute; reflexivity | reflexivity]. Qed.

(** C1 (as stated) fails: with the report and the P1 JSON both missing
    and a news JSON on disk, stage3 is reported complete, the stage2
    artifact is missing, and the planner resumes at stage1, not stage2. *)
Lemma resumes_at_any_missing_fails :
  ¬ resumes_at_any_missing repo_config fs_gap 2024 "2330".
Proof.
  intros Hclaim.
  destruct (fs_gap_plan "stage3") as (r & Hr & Hfrom).
  specialize (Hclaim "stage3" r 1%nat 2%nat "stage2" "stage3" Hr).
  rewrite Hfrom in Hclaim.
  discriminate Hclaim; [lia | reflexivity | reflexivity | by vm_compute | by vm_compute].
Qed.

(** C8. The planner's whole answer is the same for any two prior-status
    strings: [current_status] is not read. *)
Theorem resume_point_ignores_status (cfg : config) (fs : filesystem) (year : Z)
    (company_code status1 status2 : string) :
  determine_resume_point cfg fs year company_code status1
  = determine_resume_point cfg fs year company_code status2.
Proof. reflexivity. Qed.

(** C10. For every string given as the stage the check returns a triple
    and does not raise; a string outside stage1..stage6 gives
    [(False, "", message)], and an answer with completed false has the
    empty path. *)
Theorem check_stage_completion_total (cfg : config) (fs : filesystem) (year : Z)
    (company_code stage : string) :
  ∃ c p m,
    check_stage_completion cfg fs year company_code stage = Ok (c, p, m)
    ∧ (c = false → p = "")
    ∧ (stage ∉ stages → c = false ∧ p = "" ∧ m = "未知階段: " +:+ stage ∧ m ≠ "").
Proof.
  destruct (check_stage_completion_answer cfg fs year company_code stage)
    as (c & p & m & Hc & Hfalse).
  exists c, p, m. split; [done|]. split; [by intros [? ?]%Hfalse|].
  intros Hout. apply not_in_stages in Hout as (H1 & H2 & H3 & H4 & H5 & H6).
  revert Hc. unfold check_stage_completion.
  rewrite !bool_decide_eq_false_2 by done.
  intros [= <- <- <-]. done.
Qed.

(** C7. Neither the JSON check, nor the per-stage check, nor the planner
    raises. A path that is absent, unreadable, unparseable or holds an
    empty value gets [(False, message)] with a non-empty message, and the
    stage whose artifact it is stays out of [completed_stages] with
    [completed = False] in its detail. *)
Theorem planner_never_raises (cfg : config) (fs : filesystem) (year : Z)
    (company_code status : string) :
  (∀ p, ∃ ok m, check_json_valid fs p = Ok (ok, m) ∧ m ≠ ""
                ∧ (unusable fs p → ok = false))
  ∧ (∀ stage, ∃ c p m,
       check_stage_completion cfg fs year company_code stage = Ok (c, p, m))
  ∧ ∃ r, determine_resume_point cfg fs year company_code status = Ok r
         ∧ ∀ stage key, stage_key stage = Some key →
             unusable fs (get_file_path cfg key year company_code) →
             (stage ∉ completed_stages r)
             ∧ ∃ m, stage_details r !! stage
                    = Some {| completed := false; path := ""; msg := m |}.
Proof.
  split_and!.
  - intros p. destruct (check_json_valid_answer fs p) as (m & Hm & Hne).
    exists (valid_artifact fs p), m. split_and!; try done.
    by intros ?%unusable_not_valid.
  - intros stage.
    destruct (check_stage_completion_answer cfg fs year company_code stage)
      as (c & p & m & Hc & _). eauto.
  - destruct (determine_resume_point_answer cfg fs year company_code status)
      as (r & k & Hr & Hdone & Hdet & _).
    exists r. split; [done|]. intros stage key Hkey Hbad%unusable_not_valid.
    pose proof (reported_complete_json cfg fs year company_code stage key Hkey) as Hrep.
    rewrite Hbad in Hrep. split.
    + rewrite Hdone, list_elem_of_filter. intros [? _]. congruence.
    + rewrite Hdet. rewrite decide_True.
      * destruct (detail_of_answer cfg fs year company_code stage) as (p & m & Hc & ->).
        destruct (check_stage_completion_answer cfg fs year company_code stage)
          as (c' & p' & m' & Hc' & Hfalse).
        rewrite Hc in Hc'. injection Hc' as <- <- <-.
        rewrite Hrep in *. destruct Hfalse as [-> _]; [done|]. eauto.
      * by eapply stage_key_in_stages.
Qed.

(** *** The scenario of job (2024, "2330") *)

Section Removal.
Variable cfg : config.
Variable fs : filesystem.
Variable p : string.
Hypothesis Hfree : remove_denied fs !! p = None.
Hypothesis Hthere : is_Some (files fs !! p).

Lemma os_remove_done :
  os_remove fs p
  = (Ok (),
     {| files := delete p (files fs);
        glob_matches := λ pat, filter (λ q, q ≠ p) (glob_matches fs pat);
        remove_denied := remove_denied fs |}).
Proof. unfold os_remove. rewrite Hfree. by destruct Hthere as [n ->]. Qed.

Lemma valid_artifact_removed : valid_artifact (os_remove fs p).2 p = false.
Proof. rewrite os_remove_done. unfold valid_artifact. simpl. by rewrite lookup_delete_eq. Qed.

Lemma valid_artifact_kept q :
  q ≠ p → valid_artifact (os_remove fs p).2 q = valid_artifact fs q.
Proof.
  intros Hne. rewrite os_remove_done. unfold valid_artifact. simpl.
  by rewrite lookup_delete_ne.
Qed.

Lemma glob_kept pat m :
  m ∈ glob_matches fs pat → m ≠ p → glob_matches (os_remove fs p).2 pat ≠ [].
Proof.
  intros Hin Hne. rewrite os_remove_done. simpl. intros Hnil.
  assert (m ∈ filter (λ q, q ≠ p) (glob_matches fs pat)) as Hm
    by (by apply list_elem_of_filter).
  rewrite Hnil in Hm. by apply elem_of_nil in Hm.
Qed.
End Removal.

(** The planner's answer from what the checker reports for stages 1 to 5. *)
Lemma plan_from_reports (cfg : config) (fs : filesystem) (year : Z)
    (company_code status : string) (b1 b2 b3 b4 b5 : bool) :
  reported_complete cfg fs year company_code "stage1" = b1 →
  reported_complete cfg fs year company_code "stage2" = b2 →
  reported_complete cfg fs year company_code "stage3" = b3 →
  reported_complete cfg fs year company_code "stage4" = b4 →
  reported_complete cfg fs year company_code "stage5" = b5 →
  ∃ r, determine_resume_point cfg fs year company_code status = Ok r
       ∧ completed_stages r
         = ((if b1 then ["stage1"] else []) ++ (if b2 then ["stage2"] else [])
            ++ (if b3 then ["stage3"] else []) ++ (if b4 then ["stage4"] else [])
            ++ (if b5 then ["stage5"] else []))%list
       ∧ resume_from r
         = if b1 then if b2 then if b3 then if b4 then if b5
           then "stage6" else "stage5" else "stage4" else "stage3" else "stage2"
           else "stage1".
Proof.
  intros H1 H2 H3 H4 H5.
  pose proof (stage6_never_reported cfg fs year company_code) as H6.
  destruct (determine_resume_point_answer cfg fs year company_code status)
    as (r & k & Hr & Hdone & _ & Hk & Hno & Hbefore).
  exists r. split; [done|]. split.
  - rewrite Hdone. unfold stages. rewrite !filter_cons, filter_nil.
    rewrite H1, H2, H3, H4, H5, H6.
    by destruct b1, b2, b3, b4, b5.
  - assert (∀ i stage, stages !! i = Some stage → (i < k)%nat →
              reported_complete cfg fs year company_code stage = true) as Hb by done.
    destruct k as [|[|[|[|[|[|k]]]]]]; cbn in Hk; try discriminate Hk;
      injection Hk as Hk; rewrite <- Hk in *;
      try (pose proof (Hb 0%nat "stage1" eq_refl ltac:(lia)));
      try (pose proof (Hb 1%nat "stage2" eq_refl ltac:(lia)));
      try (pose proof (Hb 2%nat "stage3" eq_refl ltac:(lia)));
      try (pose proof (Hb 3%nat "stage4" eq_refl ltac:(lia)));
      try (pose proof (Hb 4%nat "stage5" eq_refl ltac:(lia)));
      destruct b1, b2, b3, b4, b5; first [reflexivity | congruence].
Qed.

(** C4 (as amended). With the report and the four JSON artifacts of a job
    valid on disk the planner answers [resume_from = stage6]; once the
    stage3 artifact alone is removed it answers [resume_from = stage3],
    and [completed_stages] still lists every stage whose artifact is
    valid: stage1, stage2, stage4 and stage5. *)
Theorem scenario_stage3_removed (cfg : config) (fs : filesystem) (year : Z)
    (company_code status : string) :
  all_artifacts_valid cfg fs year company_code →
  remove_denied fs !! get_file_path cfg "NEWS_JSON" year company_code = None →
  (∀ key, key ∈ ["P1_JSON"; "P2_JSON"; "P3_JSON"] →
     get_file_path cfg key year company_code
     ≠ get_file_path cfg "NEWS_JSON" year company_code) →
  (∃ m, m ∈ glob_matches fs (pdf_pattern cfg year company_code)
        ∧ m ≠ get_file_path cfg "NEWS_JSON" year company_code) →
  ∃ r r',
    determine_resume_point cfg fs year company_code status = Ok r
    ∧ resume_from r = "stage6"
    ∧ completed_stages r = ["stage1"; "stage2"; "stage3"; "stage4"; "stage5"]
    ∧ plan_after_removal cfg fs (get_file_path cfg "NEWS_JSON" year company_code)
        year company_code status = Ok r'
    ∧ resume_from r' = "stage3"
    ∧ completed_stages r' = ["stage1"; "stage2"; "stage4"; "stage5"].
Proof.
  intros [Hpdf Hjson] Hfree Hdistinct (m & Hm & Hmne).
  assert (∀ key, key ∈ ["P1_JSON"; "NEWS_JSON"; "P2_JSON"; "P3_JSON"] →
            valid_artifact fs (get_file_path cfg key year company_code) = true) as Hv
    by done.
  assert (is_Some (files fs !! get_file_path cfg "NEWS_JSON" year company_code)) as Hthere.
  { specialize (Hv "NEWS_JSON"). unfold valid_artifact in Hv.
    destruct (files fs !! _); [eauto|]. discriminate Hv.
    do 1 apply list_elem_of_further. apply list_elem_of_here. }
  destruct (plan_from_reports cfg fs year company_code status true true true true true)
    as (r & Hr & Hdone & Hfrom).
  { rewrite reported_complete_stage1. by apply bool_decide_eq_true. }
  { rewrite (reported_complete_json _ _ _ _ _ "P1_JSON") by done. apply Hv.
    apply list_elem_of_here. }
  { rewrite (reported_complete_json _ _ _ _ _ "NEWS_JSON") by done. apply Hv.
    do 1 apply list_elem_of_further. apply list_elem_of_here. }
  { rewrite (reported_complete_json _ _ _ _ _ "P2_JSON") by done. apply Hv.
    do 2 apply list_elem_of_further. apply list_elem_of_here. }
  { rewrite (reported_complete_json _ _ _ _ _ "P3_JSON") by done. apply Hv.
    do 3 apply list_elem_of_further. apply list_elem_of_here. }
  destruct (plan_from_reports cfg
              (os_remove fs (get_file_path cfg "NEWS_JSON" year company_code)).2
              year company_code status true true false true true)
    as (r' & Hr' & Hdone' & Hfrom').
  { rewrite reported_complete_stage1. apply bool_decide_eq_true. by eapply glob_kept. }
  { rewrite (reported_complete_json _ _ _ _ _ "P1_JSON") by done.
    rewrite valid_artifact_kept; try done.
    - apply Hv. apply list_elem_of_here.
    - apply Hdistinct. apply list_elem_of_here. }
  { rewrite (reported_complete_json _ _ _ _ _ "NEWS_JSON") by done.
    by apply valid_artifact_removed. }
  { rewrite (reported_complete_json _ _ _ _ _ "P2_JSON") by done.
    rewrite valid_artifact_kept; try done.
    - apply Hv. do 2 apply list_elem_of_further. apply list_elem_of_here.
    - apply Hdistinct. do 1 apply list_elem_of_further. apply list_elem_of_here. }
  { rewrite (reported_complete_json _ _ _ _ _ "P3_JSON") by done.
    rewrite valid_artifact_kept; try done.
    - apply Hv. do 3 apply list_elem_of_further. apply list_elem_of_here.
    - apply Hdistinct. do 2 apply list_elem_of_further. apply list_elem_of_here. }
  exists r, r'. by split_and!.
Qed.

Lemma fs_full_valid : all_artifacts_valid repo_config fs_full 2024 "2330".
Proof.
  split; [by vm_compute|]. intros key Hin.
  rewrite !elem_of_cons, elem_of_nil in Hin.
  destruct Hin as [->|[->|[->|[->|[]]]]]; by vm_compute.
Defined.

Lemma scenario_stage3_removed_witness :
  ∃ r r',
    determine_resume_point repo_config fs_full 2024 "2330" "stage3" = Ok r
    ∧ resume_from r = "stage6"
    ∧ completed_stages r = ["stage1"; "stage2"; "stage3"; "stage4"; "stage5"]
    ∧ plan_after_removal repo_config fs_full
        (get_file_path repo_config "NEWS_JSON" 2024 "2330") 2024 "2330" "stage3" = Ok r'
    ∧ resume_from r' = "stage3"
    ∧ completed_stages r' = ["stage1"; "stage2"; "stage4"; "stage5"].
Proof.
  apply (scenario_stage3_removed repo_config fs_full 2024 "2330" "stage3").
  - exact fs_full_valid.
  - by vm_compute.
  - intros key Hin. rewrite !elem_of_cons, elem_of_nil in Hin.
    destruct Hin as [->|[->|[->|[]]]]; by vm_compute.
  - exists pdf_2330. split; [vm_compute; apply list_elem_of_here | by vm_compute].
Defined.

Lemma fs_full_after_removal :
  ∃ r r',
    determine_resume_point repo_config fs_full 2024 "2330" "stage3" = Ok r
    ∧ plan_after_removal repo_config fs_full
        (get_file_path repo_config "NEWS_JSON" 2024 "2330") 2024 "2330" "stage3" = Ok r'
    ∧ completed_stages r' = ["stage1"; "stage2"; "stage4"; "stage5"].
Proof. do 2 eexists. split_and!; vm_compute; reflexivity. Qed.

(** C4 (as stated) fails: after the stage3 artifact of job (2024, "2330")
    is removed, [completed_stages] is stage1, stage2, stage4, stage5, not
    the set of stage1 and stage2. *)
Lemma scenario_cut_at_stage3_fails :
  ¬ scenario_cut_at_stage3 repo_config fs_full 2024 "2330".
Proof.
  intros Hclaim.
  destruct fs_full_after_removal as (r & r' & Hr & Hr' & Hdone).
  destruct (Hclaim "stage3" r r' Hr Hr') as (_ & _ & Hset).
  rewrite Hdone in Hset.
  apply (f_equal (λ s : gset string, bool_decide ("stage4" ∈ s))) in Hset.
  vm_compute in Hset. discriminate Hset.
Qed.

(** ** The analysis block *)

(** One step of symbolic execution of the monad. *)
Ltac step :=
  cbv [mbind M_bind bind mret M_ret ret respond raise of_result try_catch
       call call_db on_disk read_disk print update_analysis_status
       mark_processing_start].

Lemma released (w : world) (esg_id : string) :
  ∃ w', mark_processing_end esg_id w = (Next (), w')
        ∧ is_actively_processing w' esg_id = false
        ∧ disk w' = disk w ∧ analysis_status w' = analysis_status w
        ∧ journal w' = journal w.
Proof.
  unfold mark_processing_end, is_actively_processing. case_bool_decide as Hin.
  - eexists. split; [reflexivity|]. simpl. split_and!; try done.
    apply bool_decide_eq_false. rewrite lookup_delete_eq. by intros [? ?].
  - eexists. split; [reflexivity|]. split_and!; try done.
    by apply bool_decide_eq_false.
Qed.



(** *** Stages 3 to 5 never stop the run *)

Lemma logged_each_nil (w : world) : logged_each w [] = w.
Proof. destruct w. unfold logged_each. cbn. by rewrite app_nil_r. Qed.

Lemma logged_each_logged (w : world) (ev : event) (evs : list event) :
  logged_each (logged w ev) evs = logged_each w (ev :: evs).
Proof. unfold logged_each, logged. cbn. by rewrite <- app_assoc. Qed.

(** A run of prints only prints, and ends by falling through or by the
    exception of the line that could not be built. *)
Lemma print_each_run (lines : list (result string)) (w : world) :
  ∃ printed,
    (print_each lines w).2 = logged_each w (Printed <$> printed)
    ∧ ((print_each lines w).1 = Next () ∨ ∃ e, (print_each lines w).1 = Raised e).
Proof.
  revert w. induction lines as [|[line|e] rest IH]; intros w.
  - exists []. cbn. split; [by rewrite logged_each_nil | by left].
  - destruct (IH (logged w (Printed line))) as (printed & Hw & Hend).
    exists (line :: printed). cbn [print_each].
    change ((print line;; print_each rest) w)
      with (print_each rest (logged w (Printed line))).
    split; [|done]. by rewrite Hw, logged_each_logged.
  - exists []. cbn. split; [by rewrite logged_each_nil | right; by eexists].
Qed.

(** An entered stage 3, 4 or 5 always falls through: the status is the
    stage's, the disk is the one the collaborator left, the journal has
    the status write, the call and lines printed, and nothing else
    changed. *)
Lemma soft_stage_run (esg_id resume_from stage : string) (gate : list string)
    (c : collaborator) (run : filesystem → result step_report * filesystem)
    (said_done : gmap string json → list (result string))
    (said_skipped said_failed said_error stage_skipped : string) (w : world) :
  resume_from ∈ gate →
  ∃ printed,
    soft_stage esg_id resume_from stage gate c run said_done
      said_skipped said_failed said_error stage_skipped w
    = (Next (),
       {| disk := (run (disk w)).2;
          ACTIVE_PROCESSING := ACTIVE_PROCESSING w;
          analysis_status := <[esg_id := stage]> (analysis_status w);
          journal := journal w ++ StatusWritten esg_id stage :: Called c
                               :: (Printed <$> printed);
          clock := clock w |}).
Proof.
  intros Hin. unfold soft_stage. rewrite bool_decide_eq_true_2 by done. step.
  cbn [disk logged with_status with_active].
  destruct (run (disk w)) as [[[[|] [|] err dict]|e] d]; cbn.
  - exists [said_skipped]. unfold logged, with_disk, with_status. cbn.
    by rewrite <- !app_assoc.
  - match goal with
    | |- context [print_each ?lines ?w2] =>
        destruct (print_each_run lines w2) as (printed & Hw & [Hend|[e Hend]]);
          destruct (print_each lines w2) as [f w3]; cbn in Hw, Hend; subst f w3
    end.
    + exists printed. unfold logged_each, logged, with_disk, with_status. cbn.
      by rewrite <- !app_assoc.
    + exists (printed ++ [said_error +:+ exn_text e +:+ "（不影響主流程）"])%list.
      unfold logged_each, logged, with_disk, with_status. cbn.
      by rewrite fmap_app, <- !app_assoc.
  - eexists [_]. unfold logged, with_disk, with_status. cbn.
    by rewrite <- !app_assoc.
  - eexists [_]. unfold logged, with_disk, with_status. cbn.
    by rewrite <- !app_assoc.
  - eexists [_]. unfold logged, with_disk, with_status. cbn.
    by rewrite <- !app_assoc.
Qed.

Lemma soft_stage_entered (esg_id resume_from stage : string) (gate : list string)
    (c : collaborator) (run : filesystem → result step_report * filesystem)
    (said_done : gmap string json → list (result string))
    (said_skipped said_failed said_error stage_skipped : string) (w : world) :
  resume_from ∈ gate →
  ∃ w' evs,
    soft_stage esg_id resume_from stage gate c run said_done
      said_skipped said_failed said_error stage_skipped w = (Next (), w')
    ∧ journal w' = (journal w ++ StatusWritten esg_id stage :: Called c :: evs)%list
    ∧ ACTIVE_PROCESSING w' = ACTIVE_PROCESSING w.
Proof.
  intros Hin.
  destruct (soft_stage_run esg_id resume_from stage gate c run said_done said_skipped
              said_failed said_error stage_skipped w Hin) as (printed & ->).
  by eexists _, _.
Qed.

Lemma bind_assoc {A B C} (m : M A) (f : A → M B) (g : B → M C) (w : world) :
  bind (bind m f) g w = bind m (λ a, bind (f a) g) w.
Proof. unfold bind. by destruct (m w) as [[a|r|e] w']. Qed.

Lemma try_catch_bind_next {A B} (m : M A) (k : A → M B) (h : exn → M B)
    (a : A) (w w' : world) :
  m w = (Next a, w') → try_catch (bind m k) h w = try_catch (k a) h w'.
Proof. intros Hm. unfold try_catch, bind. by rewrite Hm. Qed.

(** The run, cut after stage 2. *)
Lemma run_analysis_cut (cfg : config) (svc : services) (year : Z)
    (company_code esg_id : string) (report_info : gmap string string)
    (resume_from : string) (w0 : world) :
  run_analysis cfg svc year company_code esg_id report_info resume_from w0
  = match enter_and_reach_stage3 cfg svc year company_code esg_id report_info
            resume_from w0 with
    | (Next analysis_result, w) =>
        try_catch
          (stage3_news svc year company_code esg_id resume_from;;
           stage4_verify svc year company_code esg_id resume_from;;
           stage5_sources svc year company_code esg_id resume_from;;
           stage6_persist cfg svc year company_code esg_id report_info analysis_result;;
           finalize cfg svc year company_code esg_id report_info)
          (on_exception esg_id) w
    | (Returned r, w) => (Returned r, w)
    | (Raised e, w) => on_exception esg_id e w
    end.
Proof.
  cbv [run_analysis enter_and_reach_stage3 stages_1_to_6 mbind M_bind bind try_catch
       mark_processing_start].
  destruct (stage1_download _ _ _ _ _ _ _) as [[pdf|r|e] w1]; [|done|done].
  destruct (stage2_analysis _ _ _ _ _ _ _ _) as [[ar|r|e] w2]; [|done|done].
  destruct (stage3_news _ _ _ _ _ _) as [[[]|r|e] w3]; [|done|done].
  destruct (stage4_verify _ _ _ _ _ _) as [[[]|r|e] w4]; [|done|done].
  destruct (stage5_sources _ _ _ _ _ _) as [[[]|r|e] w5]; [|done|done].
  by destruct (stage6_persist _ _ _ _ _ _ _ _) as [[[]|r|e] w6].
Qed.

(** C6. When the news search of stage3 fails, by a failure report or by
    an exception, stage3 prints a warning and falls through: the status
    stays [stage3], nothing is written as failed, the registry is
    untouched, and stage4 is entered next, in a single stage pair as well
    as in the whole run, which continues from stage4 in the world stage3
    left. Such a run can end [completed]. *)
Theorem news_failure_is_soft (cfg : config) (svc : services) (year : Z)
    (company_code esg_id : string) (report_info : gmap string string)
    (resume_from : string) (w : world) :
  resume_from ∈ ["stage1"; "stage2"; "stage3"] →
  news_fails svc year company_code (disk w) →
  ∃ line w3,
    stage3_news svc year company_code esg_id resume_from w = (Next (), w3)
    ∧ ((∃ why, line = "⚠️ 新聞爬蟲失敗：" +:+ why +:+ "（不影響主流程）")
       ∨ (∃ why, line = "⚠️ 新聞爬蟲發生錯誤: " +:+ why +:+ "（不影響主流程）"))
    ∧ journal w3 = (journal w ++ [StatusWritten esg_id "stage3"; Called NewsSearch;
                                  Printed line])%list
    ∧ analysis_status w3 !! esg_id = Some "stage3"
    ∧ ACTIVE_PROCESSING w3 = ACTIVE_PROCESSING w
    ∧ (∃ w4 evs,
         (stage3_news svc year company_code esg_id resume_from;;
          stage4_verify svc year company_code esg_id resume_from) w = (Next (), w4)
         ∧ journal w4 = (journal w3 ++ StatusWritten esg_id "stage4"
                                       :: Called AIVerification :: evs)%list)
    ∧ (∀ w0 analysis_result,
         enter_and_reach_stage3 cfg svc year company_code esg_id report_info resume_from w0
           = (Next analysis_result, w) →
         run_analysis cfg svc year company_code esg_id report_info resume_from w0
           = from_stage4 cfg svc year company_code esg_id report_info resume_from
               analysis_result w3)
    ∧ (∃ svc', news_fails svc' 2024 "2330" (disk fresh_world)
         ∧ outcome_status (run_2330 svc' "stage1" fresh_world).1 = Some "completed"
         ∧ analysis_status (run_2330 svc' "stage1" fresh_world).2 !! "20242330"
           = Some "completed").
Proof.
  intros Hin Hfail.
  assert (∃ line w3,
    stage3_news svc year company_code esg_id resume_from w = (Next (), w3)
    ∧ ((∃ why, line = "⚠️ 新聞爬蟲失敗：" +:+ why +:+ "（不影響主流程）")
       ∨ (∃ why, line = "⚠️ 新聞爬蟲發生錯誤: " +:+ why +:+ "（不影響主流程）"))
    ∧ journal w3 = (journal w ++ [StatusWritten esg_id "stage3"; Called NewsSearch;
                                  Printed line])%list
    ∧ analysis_status w3 !! esg_id = Some "stage3"
    ∧ ACTIVE_PROCESSING w3 = ACTIVE_PROCESSING w) as (line & w3 & H3 & Hline & Hj & Hs & Ha).
  { unfold news_fails in Hfail. unfold stage3_news, soft_stage.
    rewrite bool_decide_eq_true_2 by done. step.
    cbn [disk logged with_status with_active].
    destruct (search_news_for_report svc year company_code true (disk w))
      as [[[ok skip err dict]|e] d]; cbn in Hfail; [subst ok|]; cbn.
    - eexists _, _. split; [reflexivity|]. cbn.
      split_and!; [|by rewrite <- !app_assoc|by rewrite lookup_insert_eq|done].
      left. by eexists.
    - eexists _, _. split; [reflexivity|]. cbn.
      split_and!; [|by rewrite <- !app_assoc|by rewrite lookup_insert_eq|done].
      right. by eexists. }
  exists line, w3. split_and!; try done.
  - destruct (soft_stage_entered esg_id resume_from "stage4"
                ["stage1"; "stage2"; "stage3"; "stage4"] AIVerification
                (verify_esg_with_news svc year company_code true) (verify_done svc)
                "ℹ️ AI 驗證結果已存在，跳過生成" "⚠️ AI 驗證失敗：" "⚠️ AI 驗證發生錯誤: "
                "⏭️ Stage 4 已完成，跳過 AI 驗證" w3) as (w4 & evs & H4 & Hj4 & _).
    { revert Hin. rewrite !elem_of_cons. tauto. }
    exists w4, evs. split; [|done].
    unfold mbind, M_bind, bind. rewrite H3. exact H4.
  - intros w0 ar Hreach.
    rewrite run_analysis_cut, Hreach.
    unfold from_stage4, try_catch, mbind, M_bind. unfold bind at 1. by rewrite H3.
  - exists news_down. split_and!; vm_compute; reflexivity.
Qed.

Lemma news_failure_is_soft_witness :
  "stage1" ∈ ["stage1"; "stage2"; "stage3"]
  ∧ news_fails news_down 2024 "2330" (disk fresh_world)
  ∧ ∃ line w3,
      stage3_news news_down 2024 "2330" "20242330" "stage1" fresh_world = (Next (), w3)
      ∧ journal w3 = [StatusWritten "20242330" "stage3"; Called NewsSearch; Printed line]
      ∧ analysis_status w3 !! "20242330" = Some "stage3".
Proof.
  split; [apply list_elem_of_here|]. split; [by vm_compute|].
  destruct (news_failure_is_soft repo_config news_down 2024 "2330" "20242330"
              report_info_2330 "stage1" fresh_world)
    as (line & w3 & H3 & _ & Hj & Hs & _).
  - apply list_elem_of_here.
  - by vm_compute.
  - exists line, w3. split; [exact H3|]. split; [exact Hj | exact Hs].
Defined.

(** *** A failure of the AI analysis *)

(** Whatever the collaborators, an exception of the AI analysis leaves
    stage 2 by falling through, with no analysis result. *)
Lemma extraction_failure_falls_through (svc : services) (year : Z)
    (company_code esg_id : string) (report_info : gmap string string)
    (resume_from pdf_path : string) (w : world) :
  resume_from ∈ ["stage1"; "stage2"] →
  analysis_fails svc pdf_path year company_code report_info (disk w) →
  ∃ w2,
    stage2_analysis svc year company_code esg_id report_info resume_from pdf_path w
      = (Next None, w2)
    ∧ analysis_status w2 !! esg_id = Some "stage2"
    ∧ ACTIVE_PROCESSING w2 = ACTIVE_PROCESSING w.
Proof.
  intros Hin [e He]. unfold stage2_analysis.
  rewrite bool_decide_eq_true_2 by done. step.
  unfold run_threads, run_wordcloud, run_ai_analysis.
  cbn [disk logged with_status with_active with_disk].
  destruct (generate_wordcloud _ _ _ _ _) as [[[[|] [|] werr]|we]|];
    destruct (analyze_esg_report _ _ _ _ _ _ _) as [ra d]; cbn in He; subst ra; cbn;
    eexists; (split; [reflexivity|]); cbn; by rewrite lookup_insert_eq.
Qed.

(** C2 (what the code does). On a first run of job (2024, "2330") in
    which the AI analysis raises, the run does end [failed], but only
    after stage3, stage4 and stage5 have been persisted and their
    collaborators called, and stage6 has been entered; this is so when
    the word cloud thread is the first to act and when the analysis
    thread is. *)
Theorem extraction_failure_runs_later_stages :
  analysis_fails analysis_down pdf_2330 2024 "2330" report_info_2330
    (download_saves 2024 "2330" empty_disk).2
  ∧ outcome_status (run_2330 analysis_down "stage1" fresh_world).1 = Some "failed"
  ∧ status_writes (journal (run_2330 analysis_down "stage1" fresh_world).2)
    = ["stage1"; "stage2"; "stage3"; "stage4"; "stage5"; "stage6"; "failed"]
  ∧ survey (journal (run_2330 analysis_down "stage1" fresh_world).2)
    = [DownloadReport; WordCloud; AIAnalysis; NewsSearch; AIVerification; SourceCheck]
  ∧ (outcome_status (run_2330 (scheduled [false] analysis_down) "stage1" fresh_world).1
       = Some "failed"
     ∧ status_writes
         (journal (run_2330 (scheduled [false] analysis_down) "stage1" fresh_world).2)
       = ["stage1"; "stage2"; "stage3"; "stage4"; "stage5"; "stage6"; "failed"]
     ∧ survey
         (journal (run_2330 (scheduled [false] analysis_down) "stage1" fresh_world).2)
       = [DownloadReport; AIAnalysis; WordCloud; NewsSearch; AIVerification;
          SourceCheck]).
Proof.
  split; [by eexists|]. split_and!; vm_compute; reflexivity.
Qed.

(** *** Paths that leave the registry entry behind *)

(** Whatever the collaborators, stage 6 without a P3 JSON returns the
    failed response and leaves the registry as it was. *)
Lemma missing_p3_keeps_registry (cfg : config) (svc : services) (year : Z)
    (company_code esg_id : string) (report_info : gmap string string)
    (analysis_result : option (gmap string string)) (w : world) :
  files (disk w) !! p3_path cfg year company_code = None →
  ∃ message w',
    stage6_persist cfg svc year company_code esg_id report_info analysis_result w
      = (Returned (failed_response esg_id message), w')
    ∧ analysis_status w' !! esg_id = Some "failed"
    ∧ ACTIVE_PROCESSING w' = ACTIVE_PROCESSING w.
Proof.
  intros Hnone. unfold stage6_persist. step.
  cbn [disk logged with_status with_active]. rewrite os_path_exists_lookup, Hnone.
  eexists _, _. split; [reflexivity|]. cbn. by rewrite lookup_insert_eq.
Qed.

(** C3 (what the code does). On a first run of job (2024, "2330") in
    which the source check fails and writes no P3 JSON, the run returns
    [failed] with status [failed] written, and the registry entry made at
    the start is still there. *)
Theorem failed_run_keeps_registry_entry :
  outcome_status (run_2330 sources_down "stage1" fresh_world).1 = Some "failed"
  ∧ analysis_status (run_2330 sources_down "stage1" fresh_world).2 !! "20242330"
    = Some "failed"
  ∧ is_actively_processing fresh_world "20242330" = false
  ∧ is_actively_processing (run_2330 sources_down "stage1" fresh_world).2 "20242330"
    = true.
Proof. split_and!; vm_compute; reflexivity. Qed.

(** *** Finalization *)

Lemma remove_target_swept (file_path : string) (w : world) :
  ∃ w', remove_target file_path w = (Next (), w') ∧ swept [file_path] w w'.
Proof.
  unfold remove_target. step. rewrite os_path_exists_lookup. unfold os_remove.
  destruct (files (disk w) !! file_path) as [n|] eqn:Hfile.
  - destruct (remove_denied (disk w) !! file_path) as [e|] eqn:Hden; cbn; rewrite ?Hfile.
    + eexists. split; [reflexivity|]. unfold swept. cbn.
      split_and!; [done|done|done|by eexists|done|done|done| |].
      * intros p ->%list_elem_of_singleton. congruence.
      * intros p e' ->%list_elem_of_singleton. rewrite Hden. intros [= ->] _.
        unfold removal_warning. apply elem_of_app. right. apply list_elem_of_here.
    + eexists. split; [reflexivity|]. unfold swept. cbn.
      split_and!; [done|done|done|by eexists| | | | |].
      * intros q Hq. rewrite lookup_delete_ne; [done|].
        intros ->. apply Hq, list_elem_of_here.
      * intros q [e He]. rewrite lookup_delete_ne; [done|]. intros ->. congruence.
      * intros q Hq. destruct (decide (file_path = q)) as [->|Hne].
        -- by rewrite lookup_delete_eq.
        -- by rewrite lookup_delete_ne.
      * intros p ->%list_elem_of_singleton _. by rewrite lookup_delete_eq.
      * intros p e ->%list_elem_of_singleton. congruence.
  - cbn. eexists. split; [reflexivity|]. unfold swept.
    split_and!; [done|done|done| |done|done|done| |].
    + exists []. by rewrite app_nil_r.
    + intros p ->%list_elem_of_singleton. done.
    + intros p e ->%list_elem_of_singleton _ [n Hn]. congruence.
Qed.

Lemma swept_cons (file_path : string) (rest : list string) (w w1 w2 : world) :
  swept [file_path] w w1 → swept rest w1 w2 → swept (file_path :: rest) w w2.
Proof.
  intros (Ha1 & Hs1 & Hd1 & [evs1 Hj1] & Hout1 & Hkeep1 & Hnone1 & Hgone1 & Hwarn1)
         (Ha2 & Hs2 & Hd2 & [evs2 Hj2] & Hout2 & Hkeep2 & Hnone2 & Hgone2 & Hwarn2).
  unfold swept. split_and!.
  - congruence.
  - congruence.
  - congruence.
  - exists (evs1 ++ evs2)%list. by rewrite Hj2, Hj1, app_assoc.
  - intros q Hq. apply not_elem_of_cons in Hq as [Hne Hq].
    rewrite Hout2 by done. apply Hout1. by intros ->%list_elem_of_singleton.
  - intros q Hq. rewrite Hkeep2 by (by rewrite Hd1). by apply Hkeep1.
  - intros q Hq. by apply Hnone2, Hnone1.
  - intros p Hp Hden. apply elem_of_cons in Hp as [->|Hp].
    + apply Hnone2, Hgone1; [apply list_elem_of_here | done].
    + apply Hgone2; [done | by rewrite Hd1].
  - intros p e Hp Hden Hfile. apply elem_of_cons in Hp as [->|Hp].
    + rewrite Hj2. apply elem_of_app. left.
      apply Hwarn1; [apply list_elem_of_here | done | done].
    + apply Hwarn2; [done | by rewrite Hd1 |].
      rewrite Hkeep1; [done | by rewrite Hden].
Qed.

(** The clean-up never raises and never returns early. *)
Lemma remove_each_swept (targets : list string) (w : world) :
  ∃ w', remove_each targets w = (Next (), w') ∧ swept targets w w'.
Proof.
  revert w. induction targets as [|file_path rest IH]; intros w.
  - exists w. split; [done|]. unfold swept. split_and!; try done.
    + exists []. by rewrite app_nil_r.
    + by intros p ?%elem_of_nil.
    + by intros p e ?%elem_of_nil.
  - cbn [remove_each]. unfold mbind, M_bind, bind.
    destruct (remove_target_swept file_path w) as (w1 & -> & H1).
    destruct (IH w1) as (w2 & -> & H2).
    exists w2. split; [done|]. by eapply swept_cons.
Qed.

(** After a successful stage6 and a successful read-back, the run
    returns the completed response and releases the registry entry,
    whatever the removals do. Finalization removes the files it names,
    the report stored as
    [{year}_{company_code}_{company_name}_永續報告書.pdf] and the four
    JSON files: each of them is gone afterwards unless its removal was
    refused, and a refused removal is printed as a warning and nothing
    more. No other path is touched. *)
Lemma finalization_removes_targets (cfg : config) (svc : services) (year : Z)
    (company_code esg_id : string) (report_info : gmap string string)
    (resume_from : string) (w0 w6 : world) (company_obj : json) :
  enter_and_persist cfg svc year company_code esg_id report_info resume_from w0
    = (Next (), w6) →
  read_back_succeeds svc year company_code w6 company_obj →
  ∃ w',
    run_analysis cfg svc year company_code esg_id report_info resume_from w0
      = (Returned (completed_response esg_id company_obj), w')
    ∧ is_actively_processing w' esg_id = false
    ∧ analysis_status w' = analysis_status w6
    ∧ (∀ p, p ∈ file_targets cfg year company_code (dict_get report_info "company_name" "") →
         files (disk w') !! p = None
         ∨ ∃ e, remove_denied (disk w6) !! p = Some e
                ∧ Printed (removal_warning p e) ∈ journal w')
    ∧ (∀ q, q ∉ file_targets cfg year company_code (dict_get report_info "company_name" "") →
         files (disk w') !! q = files (disk w6) !! q).
Proof.
  intros Hreach (record & Hquery & Hstatus & Hview).
  cbv [run_analysis enter_and_persist mbind M_bind bind try_catch mark_processing_start]
    in *.
  destruct (stages_1_to_6 _ _ _ _ _ _ _ _) as [[[]|r|e] w]; try discriminate Hreach.
  injection Hreach as ->.
  unfold finalize. step. rewrite Hquery. cbn [of_result ret].
  rewrite bool_decide_eq_true_2 by done. rewrite Hview.
  unfold cleanup_temp_files.
  destruct (remove_each_swept
              (file_targets cfg year company_code (dict_get report_info "company_name" ""))
              (logged w6 (Called QueryCompany)))
    as (w7 & -> & Ha & Hs & Hd & [evs Hj] & Hout & Hkeep & Hnone & Hgone & Hwarn).
  destruct (released w7 esg_id) as (w' & -> & Hfree & Hd' & Hs' & Hj').
  exists w'. split; [reflexivity|]. split; [done|]. split; [by rewrite Hs', Hs|].
  rewrite Hd', Hj'. split.
  - intros p Hp. cbn in *.
    destruct (remove_denied (disk w6) !! p) as [e|] eqn:Hden.
    + destruct (files (disk w6) !! p) as [n|] eqn:Hfile.
      * right. exists e. split; [done|]. apply Hwarn; [done|done|]. by rewrite Hfile.
      * left. by apply Hnone.
    + left. by apply Hgone.
  - intros q Hq. by apply Hout.
Qed.

Lemma finalization_removes_targets_witness :
  enter_and_persist repo_config all_up 2024 "2330" "20242330" report_info_2330
    "stage1" locked_world = (Next (), persisted_locked)
  ∧ read_back_succeeds all_up 2024 "2330" persisted_locked company_2330
  ∧ ∃ w',
      run_2330 all_up "stage1" locked_world
        = (Returned (completed_response "20242330" company_2330), w')
      ∧ is_actively_processing w' "20242330" = false
      ∧ (files (disk w') !! "temp_data/prompt3_json/2024_2330_p3.json" = None
         ∨ ∃ e, remove_denied (disk persisted_locked)
                  !! "temp_data/prompt3_json/2024_2330_p3.json" = Some e
                ∧ Printed (removal_warning "temp_data/prompt3_json/2024_2330_p3.json" e)
                  ∈ journal w').
Proof.
  assert (enter_and_persist repo_config all_up 2024 "2330" "20242330" report_info_2330
            "stage1" locked_world = (Next (), persisted_locked)) as Hreach.
  { unfold persisted_locked.
    destruct (enter_and_persist _ _ _ _ _ _ _ _) as [f w] eqn:E.
    apply (f_equal fst) in E. vm_compute in E. by subst f. }
  assert (read_back_succeeds all_up 2024 "2330" persisted_locked company_2330) as Hback.
  { eexists. split; [vm_compute; reflexivity|]. split; by vm_compute. }
  split; [exact Hreach|]. split; [exact Hback|].
  destruct (finalization_removes_targets repo_config all_up 2024 "2330" "20242330"
              report_info_2330 "stage1" locked_world persisted_locked company_2330
              Hreach Hback)
    as (w' & Hrun & Hfree & _ & Htargets & _).
  exists w'. split; [exact Hrun|]. split; [exact Hfree|].
  apply Htargets. vm_compute. do 4 apply list_elem_of_further. apply list_elem_of_here.
Defined.

Lemma remove_target_first_match (file_path : string) (w : world) :
  first_match_kept [file_path] w (remove_target file_path w).2.
Proof.
  intros pat q rest Hq Hmatch.
  unfold remove_target. step. rewrite os_path_exists_lookup. unfold os_remove.
  destruct (files (disk w) !! file_path) as [n|] eqn:Hfile; [|by eexists].
  destruct (remove_denied (disk w) !! file_path) as [e|]; cbn; rewrite ?Hfile;
    [by eexists|].
  cbn. rewrite Hmatch. cbn [filter list_filter].
  rewrite decide_True; [by eexists|].
  intros ->. apply Hq, list_elem_of_here.
Qed.

Lemma remove_each_first_match (targets : list string) (w : world) :
  first_match_kept targets w (remove_each targets w).2.
Proof.
  revert w. induction targets as [|file_path others IH]; intros w pat q rest Hq Hmatch.
  - by eexists.
  - apply not_elem_of_cons in Hq as [Hne Hq].
    cbn [remove_each]. unfold mbind, M_bind, bind.
    destruct (remove_target_first_match file_path w pat q rest) as [rest1 Hmatch1];
      [by intros ->%list_elem_of_singleton | done |].
    destruct (remove_target_swept file_path w) as (w1 & Hstep & _).
    rewrite Hstep in Hmatch1 |- *. cbn [snd] in Hmatch1.
    by apply (IH w1 pat q rest1).
Qed.

(** C9 (what the code does). Finalization does not delete the report of
    the job unless it is stored under the one name that the clean-up
    builds from the company name on record. Whatever the collaborators
    do: when stage 6 and the read-back succeed and the stage-1 artifact,
    as the checker finds it, is none of the five paths the clean-up
    names, the run returns the completed response, the report is on
    disk as before, and the checker still finds it and reports stage 1
    complete. *)
Theorem finalization_leaves_unnamed_report (cfg : config) (svc : services) (year : Z)
    (company_code esg_id : string) (report_info : gmap string string)
    (resume_from : string) (w0 w6 : world) (company_obj : json) (pdf_path : string) :
  enter_and_persist cfg svc year company_code esg_id report_info resume_from w0
    = (Next (), w6) →
  read_back_succeeds svc year company_code w6 company_obj →
  check_pdf_exists cfg (disk w6) year company_code = (true, pdf_path) →
  pdf_path ∉ file_targets cfg year company_code (dict_get report_info "company_name" "") →
  ∃ w',
    run_analysis cfg svc year company_code esg_id report_info resume_from w0
      = (Returned (completed_response esg_id company_obj), w')
    ∧ files (disk w') !! pdf_path = files (disk w6) !! pdf_path
    ∧ check_pdf_exists cfg (disk w') year company_code = (true, pdf_path)
    ∧ reported_complete cfg (disk w') year company_code "stage1" = true.
Proof.
  intros Hreach (record & Hquery & Hstatus & Hview) Hfound Hother.
  cbv [run_analysis enter_and_persist mbind M_bind bind try_catch mark_processing_start]
    in *.
  destruct (stages_1_to_6 _ _ _ _ _ _ _ _) as [[[]|r|e] w]; try discriminate Hreach.
  injection Hreach as ->.
  unfold finalize. step. rewrite Hquery. cbn [of_result ret].
  rewrite bool_decide_eq_true_2 by done. rewrite Hview.
  unfold cleanup_temp_files.
  pose proof (remove_each_first_match
                (file_targets cfg year company_code (dict_get report_info "company_name" ""))
                (logged w6 (Called QueryCompany))) as Hglob.
  destruct (remove_each_swept
              (file_targets cfg year company_code (dict_get report_info "company_name" ""))
              (logged w6 (Called QueryCompany)))
    as (w7 & Hsweep & _ & _ & _ & _ & Hout & _).
  rewrite Hsweep in Hglob |- *. cbn [snd] in Hglob.
  destruct (released w7 esg_id) as (w' & -> & _ & Hd' & _).
  exists w'. split; [reflexivity|]. rewrite Hd'.
  assert (check_pdf_exists cfg (disk w7) year company_code = (true, pdf_path)) as Hstill.
  { unfold check_pdf_exists in Hfound |- *.
    destruct (glob_matches (disk w6) (pdf_pattern cfg year company_code))
      as [|first_match others] eqn:Hmatch; [discriminate Hfound|].
    injection Hfound as ->.
    destruct (Hglob (pdf_pattern cfg year company_code) pdf_path others Hother Hmatch)
      as [others' ->].
    done. }
  split_and!.
  - by apply Hout.
  - done.
  - unfold reported_complete, check_stage_completion.
    rewrite bool_decide_eq_true_2 by done. by rewrite Hstill.
Qed.

Lemma finalization_leaves_unnamed_report_witness :
  enter_and_persist repo_config all_up 2024 "2330" "20242330" report_info_2330
    "stage6" resumed_world = (Next (), persisted_resumed)
  ∧ read_back_succeeds all_up 2024 "2330" persisted_resumed company_2330
  ∧ check_pdf_exists repo_config (disk persisted_resumed) 2024 "2330" = (true, pdf_found)
  ∧ ∃ w',
      run_2330 all_up "stage6" resumed_world
        = (Returned (completed_response "20242330" company_2330), w')
      ∧ files (disk w') !! pdf_found = files (disk persisted_resumed) !! pdf_found
      ∧ check_pdf_exists repo_config (disk w') 2024 "2330" = (true, pdf_found)
      ∧ reported_complete repo_config (disk w') 2024 "2330" "stage1" = true.
Proof.
  assert (enter_and_persist repo_config all_up 2024 "2330" "20242330" report_info_2330
            "stage6" resumed_world = (Next (), persisted_resumed)) as Hreach.
  { unfold persisted_resumed.
    destruct (enter_and_persist _ _ _ _ _ _ _ _) as [f w] eqn:E.
    apply (f_equal fst) in E. vm_compute in E. by subst f. }
  assert (read_back_succeeds all_up 2024 "2330" persisted_resumed company_2330) as Hback.
  { eexists. split; [vm_compute; reflexivity|]. split; by vm_compute. }
  assert (check_pdf_exists repo_config (disk persisted_resumed) 2024 "2330"
          = (true, pdf_found)) as Hfound by (vm_compute; reflexivity).
  split; [exact Hreach|]. split; [exact Hback|]. split; [exact Hfound|].
  apply (finalization_leaves_unnamed_report repo_config all_up 2024 "2330" "20242330"
           report_info_2330 "stage6" resumed_world persisted_resumed company_2330
           pdf_found Hreach Hback Hfound).
  intros Hin. vm_compute in Hin.
  repeat (apply elem_of_cons in Hin as [Hin|Hin]; [discriminate Hin|]).
  by apply elem_of_nil in Hin.
Defined.

(** ** The course of a run *)

Lemma deeds_app (evs1 evs2 : list event) :
  deeds (evs1 ++ evs2) = (deeds evs1 ++ deeds evs2)%list.
Proof.
  induction evs1 as [|[id s|c|line] rest IH]; cbn; by rewrite ?IH.
Qed.

Lemma deeds_cons (ev : event) (evs : list event) :
  deeds (ev :: evs) = (deeds [ev] ++ deeds evs)%list.
Proof. by destruct ev. Qed.

Lemma deeds_printed_lines (lines : list string) : deeds (Printed <$> lines) = [].
Proof. induction lines; [done|]. by cbn. Qed.

(** A thread that only prints leaves the deeds of the other one. *)
Lemma deeds_interleave_quiet_l (schedule : list bool) (first second : list event) :
  deeds first = [] → deeds (interleave schedule first second) = deeds second.
Proof.
  revert first second. induction schedule as [|turn later IH]; intros first second Hq.
  - cbn. by rewrite deeds_app, Hq.
  - destruct first as [|ev1 first']; [by destruct second|].
    destruct second as [|ev2 second']; [done|].
    cbn [interleave]. destruct turn.
    + destruct ev1; try discriminate Hq. cbn in Hq |- *. by apply IH.
    + rewrite deeds_cons, (deeds_cons ev2 second'). f_equal. by apply IH.
Qed.

Lemma deeds_interleave_quiet_r (schedule : list bool) (first second : list event) :
  deeds second = [] → deeds (interleave schedule first second) = deeds first.
Proof.
  revert first second. induction schedule as [|turn later IH]; intros first second Hq.
  - cbn. by rewrite deeds_app, Hq, app_nil_r.
  - destruct first as [|ev1 first']; [by destruct second|].
    destruct second as [|ev2 second']; [done|].
    cbn [interleave]. destruct turn.
    + rewrite deeds_cons, (deeds_cons ev1 first'). f_equal. by apply IH.
    + destruct ev2; try discriminate Hq. cbn in Hq |- *. by apply IH.
Qed.

(** The journal of two threads that each make one call and then print:
    the calls come in the order of the first turn. *)
Lemma deeds_two_calls (schedule : list bool) (c1 c2 : collaborator)
    (lines1 lines2 : list string) :
  deeds (interleave schedule (Called c1 :: (Printed <$> lines1))
           (Called c2 :: (Printed <$> lines2)))
  = match schedule with
    | false :: _ => [Called c2; Called c1]
    | _ => [Called c1; Called c2]
    end.
Proof.
  destruct schedule as [|[|] later]; cbn [interleave].
  - rewrite deeds_app. cbn. by rewrite !deeds_printed_lines.
  - cbn [deeds]. rewrite deeds_interleave_quiet_l by apply deeds_printed_lines.
    cbn. by rewrite deeds_printed_lines.
  - cbn [deeds]. rewrite deeds_interleave_quiet_r by apply deeds_printed_lines.
    cbn. by rewrite deeds_printed_lines.
Qed.

(** Each thread of stage 2 makes its call and then prints at most. *)
Lemma run_threads_events (svc : services) (year : Z) (company_code : string)
    (report_info : gmap string string) (pdf_path : string) (d : filesystem) :
  ∃ lines1 lines2,
    (run_wordcloud svc year company_code pdf_path).2
      = Called WordCloud :: (Printed <$> lines1)
    ∧ (run_ai_analysis svc year company_code report_info pdf_path d).1.2
      = Called AIAnalysis :: (Printed <$> lines2).
Proof.
  unfold run_wordcloud, run_ai_analysis.
  destruct (generate_wordcloud _ _ _ _ _) as [[report|e]|];
    destruct (analyze_esg_report _ _ _ _ _ _ _) as [[analysis|e'] d']; cbn;
    first [ by exists [], [] | by eexists [], [_] | by eexists [_], []
          | by eexists [_], [_] ].
Qed.

Lemma deeds_threads (svc : services) (year : Z) (company_code : string)
    (lines1 lines2 : list string) :
  deeds (interleave (thread_schedule svc year company_code)
           (Called WordCloud :: (Printed <$> lines1))
           (Called AIAnalysis :: (Printed <$> lines2)))
  = stage2_calls (analysis_first svc year company_code).
Proof.
  rewrite deeds_two_calls. unfold stage2_calls, analysis_first.
  by destruct (thread_schedule svc year company_code) as [|[|] later].
Qed.

Lemma spares_refl (esg_id : string) (w : world) : spares esg_id w w.
Proof. by intros other _. Qed.

Lemma spares_trans (esg_id : string) (w1 w2 w3 : world) :
  spares esg_id w1 w2 → spares esg_id w2 w3 → spares esg_id w1 w3.
Proof.
  intros H12 H23 other Hne. destruct (H12 other Hne) as [<- <-]. by apply H23.
Qed.

Section Within.
Variable esg_id : string.

Lemma within_weaken {A} (m : M A) (l l' : list event) :
  l `sublist_of` l' → within esg_id m l → within esg_id m l'.
Proof.
  intros Hsub Hm w. destruct (Hm w) as (evs & Hj & Hsp & Hd).
  exists evs. split_and!; [done|done|].
  destruct (m w).1; try (by etrans).
  etrans; [done|]. by apply sublist_app.
Qed.

Lemma within_bind {A B} (m : M A) (k : A → M B) (l1 l2 : list event) :
  within esg_id m l1 → (∀ a, within esg_id (k a) l2) →
  within esg_id (m ≫= k) (l1 ++ l2)%list.
Proof.
  intros Hm Hk w. unfold mbind, M_bind, bind.
  destruct (Hm w) as (evs1 & Hj1 & Hsp1 & Hd1).
  destruct (m w) as [[a|r|e] w1]; cbn in *.
  - destruct (Hk a w1) as (evs2 & Hj2 & Hsp2 & Hd2).
    exists (evs1 ++ evs2)%list. split_and!.
    + by rewrite Hj2, Hj1, app_assoc.
    + by eapply spares_trans.
    + rewrite deeds_app. destruct (k a w1).1.
      * by apply sublist_app.
      * rewrite <- app_assoc. by apply sublist_app.
      * by apply sublist_app.
  - exists evs1. split_and!; [done|done|].
    rewrite <- app_assoc. etrans; [done|]. apply sublist_app; [done|].
    by apply sublist_inserts_l.
  - exists evs1. split_and!; [done|done|]. by apply sublist_inserts_r.
Qed.

Lemma within_try {A} (body : M A) (handler : exn → M A) (l1 l2 : list event) :
  within esg_id body l1 → (∀ e, within esg_id (handler e) l2) →
  within esg_id (try_catch body handler) (l1 ++ l2)%list.
Proof.
  intros Hm Hh w. unfold try_catch.
  destruct (Hm w) as (evs1 & Hj1 & Hsp1 & Hd1).
  destruct (body w) as [[a|r|e] w1]; cbn in *.
  - exists evs1. split_and!; [done|done|]. by apply sublist_inserts_r.
  - exists evs1. split_and!; [done|done|].
    rewrite <- app_assoc. etrans; [done|]. apply sublist_app; [done|].
    by apply sublist_inserts_l.
  - destruct (Hh e w1) as (evs2 & Hj2 & Hsp2 & Hd2).
    exists (evs1 ++ evs2)%list. split_and!.
    + by rewrite Hj2, Hj1, app_assoc.
    + by eapply spares_trans.
    + rewrite deeds_app. destruct (handler e w1).1.
      * by apply sublist_app.
      * rewrite <- app_assoc. by apply sublist_app.
      * by apply sublist_app.
Qed.

(** A statement that changes nothing but the disk. *)
Lemma within_quiet {A} (m : M A) :
  (∀ w, journal (m w).2 = journal w
        ∧ analysis_status (m w).2 = analysis_status w
        ∧ ACTIVE_PROCESSING (m w).2 = ACTIVE_PROCESSING w) →
  within esg_id m [].
Proof.
  intros Hm w. destruct (Hm w) as (Hj & Hs & Ha). exists [].
  split_and!.
  - by rewrite Hj, app_nil_r.
  - intros other _. by rewrite Hs, Ha.
  - destruct (m w).1; cbn; [constructor | apply sublist_nil_l | constructor].
Qed.

Lemma within_ret {A} (a : A) : within esg_id (mret a) [].
Proof. by apply within_quiet. Qed.

Lemma within_respond {A} (r : response) : within esg_id (@respond A r) [].
Proof. by apply within_quiet. Qed.

Lemma within_raise {A} (e : exn) : within esg_id (@raise A e) [].
Proof. by apply within_quiet. Qed.

Lemma within_of_result {A} (r : result A) : within esg_id (of_result r) [].
Proof. apply within_quiet. intros w. by destruct r. Qed.

Lemma within_read_disk {A} (f : filesystem → A) : within esg_id (read_disk f) [].
Proof. by apply within_quiet. Qed.

Lemma within_on_disk {A} (f : filesystem → result A * filesystem) :
  within esg_id (on_disk f) [].
Proof.
  apply within_quiet. intros w. unfold on_disk.
  by destruct (f (disk w)) as [[a|e] d].
Qed.

Lemma within_print (line : string) : within esg_id (print line) [].
Proof.
  intros w. exists [Printed line].
  split_and!; [done | by intros other _ | cbn; repeat constructor].
Qed.

Lemma within_status (status : string) :
  within esg_id (update_analysis_status esg_id status) [StatusWritten esg_id status].
Proof.
  intros w. exists [StatusWritten esg_id status].
  split_and!; [done| |cbn; repeat constructor].
  intros other Hne. cbn. by rewrite lookup_insert_ne.
Qed.

Lemma within_call {A} (c : collaborator) (f : filesystem → result A * filesystem) :
  within esg_id (call c f) [Called c].
Proof.
  intros w. exists [Called c]. unfold call, on_disk. cbn.
  destruct (f (disk w)) as [[a|e] d]; cbn; (split_and!; [done | by intros other _ | repeat constructor]).
Qed.

Lemma within_call_db {A} (c : collaborator) (r : result A) :
  within esg_id (call_db c r) [Called c].
Proof.
  intros w. exists [Called c]. unfold call_db.
  destruct r as [a|e]; cbn; (split_and!; [done | by intros other _ | repeat constructor]).
Qed.

Lemma within_mark_start : within esg_id (mark_processing_start esg_id) [].
Proof.
  intros w. exists []. cbn. split_and!; [by rewrite app_nil_r| |constructor].
  intros other Hne. cbn. by rewrite lookup_insert_ne.
Qed.

Lemma within_mark_end : within esg_id (mark_processing_end esg_id) [].
Proof.
  intros w. exists []. unfold mark_processing_end.
  case_bool_decide; cbn; (split_and!; [by rewrite app_nil_r| |constructor]).
  - intros other Hne. cbn. by rewrite lookup_delete_ne.
  - by intros other _.
Qed.

(** A block that writes [failed] and returns. *)
Lemma within_give_up {A} (m : M A) :
  (∀ w, ∃ r, (m w).1 = Returned r ∧ journal (m w).2 = journal w
             ∧ spares esg_id w (m w).2) →
  within esg_id (update_analysis_status esg_id "failed";; m) [].
Proof.
  intros Hm w. unfold mbind, M_bind, bind, update_analysis_status.
  set (w1 := logged _ _).
  destruct (Hm w1) as (r & Hr & Hj & Hsp).
  destruct (m w1) as [f w2]. cbn in *. subst f.
  exists [StatusWritten esg_id "failed"]. split_and!.
  - rewrite Hj. by unfold w1.
  - eapply spares_trans; [|exact Hsp]. intros other Hne. unfold w1. cbn.
    by rewrite lookup_insert_ne.
  - cbn. repeat constructor.
Qed.

Lemma give_up_respond {A} (r : response) (w : world) :
  ∃ r', (@respond A r w).1 = Returned r' ∧ journal (@respond A r w).2 = journal w
        ∧ spares esg_id w (@respond A r w).2.
Proof. exists r. split_and!; [done | done | by intros other _]. Qed.

Lemma give_up_release {A} (r : response) (w : world) :
  ∃ r', ((mark_processing_end esg_id;; @respond A r) w).1 = Returned r'
        ∧ journal ((mark_processing_end esg_id;; @respond A r) w).2 = journal w
        ∧ spares esg_id w ((mark_processing_end esg_id;; @respond A r) w).2.
Proof.
  exists r. unfold mbind, M_bind, bind, mark_processing_end, respond.
  case_bool_decide; cbn; (split_and!; [done | done |]).
  - intros other Hne. cbn. by rewrite lookup_delete_ne.
  - by intros other _.
Qed.
End Within.

Section Course.
Variable cfg : config.
Variable svc : services.
Variables (year : Z) (company_code esg_id : string).
Variable report_info : gmap string string.
Variable resume_from : string.

Local Abbreviation W status := (StatusWritten esg_id status).

Lemma within_stage1 :
  within esg_id (stage1_download cfg svc year company_code esg_id resume_from)
    (when_entered resume_from ["stage1"] [W "stage1"; Called DownloadReport]).
Proof.
  unfold stage1_download, when_entered. case_bool_decide.
  - apply (within_bind _ _ _ [W "stage1"] [Called DownloadReport]);
      [apply within_status | intros _].
    apply (within_bind _ _ _ [Called DownloadReport] []); [apply within_call|].
    intros [[|] p]; cbn.
    + apply within_ret.
    + apply within_give_up. intros w. apply give_up_release.
  - apply (within_bind _ _ _ [] []); [apply within_read_disk | intros found].
    apply (within_bind _ _ _ [] []); [apply within_print | intros _].
    apply within_ret.
Qed.

Lemma within_run_threads (pdf_path : string) :
  within esg_id (run_threads svc year company_code report_info pdf_path)
    (stage2_calls (analysis_first svc year company_code)).
Proof.
  intros w. unfold run_threads.
  destruct (run_threads_events svc year company_code report_info pdf_path (disk w))
    as (lines1 & lines2 & Hw & Ha).
  destruct (run_wordcloud _ _ _ _) as [wordcloud_result wordcloud_events].
  destruct (run_ai_analysis _ _ _ _ _ _) as [[analysis_result analysis_events] d].
  cbn in Hw, Ha. subst wordcloud_events analysis_events. cbn.
  eexists. split_and!; [reflexivity | by intros other _ |].
  rewrite deeds_threads. reflexivity.
Qed.

Lemma within_print_each (lines : list (result string)) :
  within esg_id (print_each lines) [].
Proof.
  induction lines as [|[line|e] rest IH]; cbn [print_each].
  - apply within_ret.
  - apply (within_bind _ _ _ [] []); [apply within_print | intros _; exact IH].
  - apply within_raise.
Qed.

Lemma within_stage2 (pdf_path : string) :
  within esg_id
    (stage2_analysis svc year company_code esg_id report_info resume_from pdf_path)
    (when_entered resume_from ["stage1"; "stage2"]
       (W "stage2" :: stage2_calls (analysis_first svc year company_code))).
Proof.
  unfold stage2_analysis, when_entered. case_bool_decide.
  - apply (within_bind _ _ _ [W "stage2"] (stage2_calls _));
      [apply within_status | intros _].
    rewrite <- (app_nil_r (stage2_calls _)).
    apply within_bind; [apply within_run_threads|].
    intros [wordcloud_result analysis_result].
    apply (within_bind _ _ _ [] []); [|intros _; apply within_ret].
    destruct wordcloud_result as [[[|] [|] err]|];
      first [apply within_print | apply within_ret].
  - apply (within_bind _ _ _ [] []); [apply within_print | intros _; apply within_ret].
Qed.

Lemma within_soft_stage (stage : string) (gate : list string) (c : collaborator)
    (run : filesystem → result step_report * filesystem)
    (said_done : gmap string json → list (result string))
    (said_skipped said_failed said_error stage_skipped : string) :
  within esg_id
    (soft_stage esg_id resume_from stage gate c run said_done
       said_skipped said_failed said_error stage_skipped)
    (when_entered resume_from gate [W stage; Called c]).
Proof.
  unfold soft_stage, when_entered. case_bool_decide; [|apply within_print].
  apply (within_bind _ _ _ [W stage] [Called c]); [apply within_status | intros _].
  apply (within_try _ _ _ [Called c] []); [|intros e; apply within_print].
  apply (within_bind _ _ _ [Called c] []); [apply within_call|].
  intros [[|] [|] err dict];
    first [apply within_print | apply within_print_each | apply within_ret].
Qed.

Lemma within_stage6 (analysis_result : option (gmap string string)) :
  within esg_id
    (stage6_persist cfg svc year company_code esg_id report_info analysis_result)
    [W "stage6"; Called InsertResults; W "completed"].
Proof.
  unfold stage6_persist.
  apply (within_bind _ _ _ [W "stage6"] [Called InsertResults; W "completed"]);
    [apply within_status | intros _].
  apply (within_bind _ _ _ [] [Called InsertResults; W "completed"]);
    [apply within_read_disk | intros present].
  apply (within_bind _ _ _ [] [Called InsertResults; W "completed"]).
  { destruct present.
    - apply (within_bind _ _ _ [] []); [apply within_on_disk | intros items].
      apply (within_bind _ _ _ [] []); [apply within_of_result | intros _].
      apply within_ret.
    - apply (within_bind _ _ _ [] []); [apply within_print | intros _].
      apply within_give_up. intros w. apply give_up_respond. }
  intros final_analysis_items.
  apply (within_bind _ _ _ [] [Called InsertResults; W "completed"]).
  { destruct analysis_result; [apply within_ret | apply within_raise]. }
  intros report_url.
  apply (within_bind _ _ _ [Called InsertResults] [W "completed"]);
    [apply within_call_db|].
  intros [[|] insert_msg]; cbn.
  - apply within_status.
  - apply (within_weaken _ _ []); [apply sublist_nil_l|].
    apply within_give_up. intros w. apply give_up_respond.
Qed.
End Course.

Section CourseOfRun.
Variable cfg : config.
Variable svc : services.
Variables (year : Z) (company_code esg_id : string).
Variable report_info : gmap string string.
Variable resume_from : string.

Local Abbreviation W status := (StatusWritten esg_id status).

Lemma within_remove_each (targets : list string) :
  within esg_id (remove_each targets) [].
Proof.
  induction targets as [|file_path rest IH]; [apply within_ret|].
  cbn [remove_each].
  apply (within_bind _ _ _ [] []); [|intros _; exact IH].
  unfold remove_target.
  apply (within_try _ _ _ [] []); [|intros e; apply within_print].
  apply (within_bind _ _ _ [] []); [apply within_read_disk|].
  intros [|]; [|apply within_ret].
  apply (within_bind _ _ _ [] []); [apply within_on_disk | intros _; apply within_print].
Qed.

Lemma within_finalize :
  within esg_id (finalize cfg svc year company_code esg_id report_info)
    [Called QueryCompany].
Proof.
  unfold finalize.
  apply (within_bind _ _ _ [Called QueryCompany] []).
  { intros w. apply within_call_db. }
  intros final_result. case_bool_decide; [|apply within_respond].
  apply (within_bind _ _ _ [] []); [apply within_of_result | intros company_obj].
  apply (within_bind _ _ _ [] []); [apply within_remove_each | intros _].
  apply (within_bind _ _ _ [] []); [apply within_mark_end | intros _].
  apply within_respond.
Qed.

Lemma within_run_analysis :
  within esg_id
    (run_analysis cfg svc year company_code esg_id report_info resume_from)
    (course_through_read_back (analysis_first svc year company_code) esg_id resume_from).
Proof.
  eapply within_weaken; cycle 1.
  { unfold run_analysis, stages_1_to_6.
    eapply within_bind; [apply within_mark_start | intros _].
    eapply within_try;
      [|intros e; apply within_give_up; intros w; apply give_up_release].
    eapply within_bind; [|intros _; apply within_finalize].
    eapply within_bind; [apply within_stage1 | intros pdf_path].
    eapply within_bind; [apply within_stage2 | intros analysis_result].
    eapply within_bind; [apply within_soft_stage | intros _].
    eapply within_bind; [apply within_soft_stage | intros _].
    eapply within_bind; [apply within_soft_stage | intros _].
    apply within_stage6. }
  unfold course_through_read_back. cbn [app]. rewrite app_nil_r, <- !app_assoc.
  reflexivity.
Qed.

Lemma run_in_course (w : world) :
  ∃ evs,
    journal (run_analysis cfg svc year company_code esg_id report_info resume_from w).2
      = (journal w ++ evs)%list
    ∧ spares esg_id w
        (run_analysis cfg svc year company_code esg_id report_info resume_from w).2
    ∧ deeds evs `sublist_of`
        course (analysis_first svc year company_code) esg_id resume_from.
Proof.
  destruct (within_run_analysis w) as (evs & Hj & Hsp & Hd).
  exists evs. split_and!; [done|done|]. unfold course.
  destruct (run_analysis _ _ _ _ _ _ _ _).1; [|done|]; by apply sublist_inserts_r.
Qed.

(** X1. Whatever the collaborators do, the status writes and calls of a
    run form a sublist of its course: the stages from the resume point
    on in ascending order, each status written before its collaborators
    are called, the two calls of stage 2 in the order in which their
    threads act (the analysis first when its thread has the first turn,
    the word cloud first otherwise), then the insertion, [completed],
    the read-back, and as last write [failed]; every write is for the
    job of the run, and none is made twice. *)
Theorem run_follows_course (w : world) :
  ∃ evs,
    journal (run_analysis cfg svc year company_code esg_id report_info resume_from w).2
      = (journal w ++ evs)%list
    ∧ deeds evs `sublist_of`
        course (analysis_first svc year company_code) esg_id resume_from.
Proof.
  destruct (within_run_analysis w) as (evs & Hj & _ & Hd).
  exists evs. split; [done|]. unfold course.
  destruct (run_analysis _ _ _ _ _ _ _ _).1; [|done|]; by apply sublist_inserts_r.
Qed.

(** X2. A run changes neither the status nor the registry entry of any
    other job. *)
Theorem run_spares_other_jobs (w : world) (other : string) :
  other ≠ esg_id →
  analysis_status
    (run_analysis cfg svc year company_code esg_id report_info resume_from w).2 !! other
    = analysis_status w !! other
  ∧ ACTIVE_PROCESSING
      (run_analysis cfg svc year company_code esg_id report_info resume_from w).2 !! other
    = ACTIVE_PROCESSING w !! other.
Proof.
  intros Hne. destruct (within_run_analysis w) as (evs & _ & Hsp & _). by apply Hsp.
Qed.
End CourseOfRun.

Lemma run_spares_other_jobs_witness :
  "20231101" ≠ "20242330"
  ∧ analysis_status
      (run_analysis repo_config all_up 2024 "2330" "20242330" report_info_2330 "stage1"
         busy_world).2 !! "20231101" = analysis_status busy_world !! "20231101"
  ∧ ACTIVE_PROCESSING
      (run_analysis repo_config all_up 2024 "2330" "20242330" report_info_2330 "stage1"
         busy_world).2 !! "20231101" = ACTIVE_PROCESSING busy_world !! "20231101".
Proof.
  split; [discriminate|].
  apply (run_spares_other_jobs repo_config all_up 2024 "2330" "20242330"
           report_info_2330 "stage1" busy_world "20231101").
  discriminate.
Defined.

Lemma elem_of_deeds (ev : event) (evs : list event) :
  ev ∈ evs → (∀ line, ev ≠ Printed line) → ev ∈ deeds evs.
Proof.
  intros Hin Hdeed. induction evs as [|ev' rest IH]; [by apply elem_of_nil in Hin|].
  apply elem_of_cons in Hin as [->|Hin].
  - destruct ev'; cbn; try apply list_elem_of_here. by destruct (Hdeed line).
  - destruct ev'; cbn; try apply list_elem_of_further; by apply IH.
Qed.

Lemma status_write_in_deeds (status : string) (evs : list event) :
  status ∈ status_writes evs → ∃ id, StatusWritten id status ∈ deeds evs.
Proof.
  unfold status_writes. rewrite list_elem_of_omap. intros ([id s|c|line] & Hin & Htag);
    try discriminate Htag.
  injection Htag as ->. exists id. by apply elem_of_deeds.
Qed.

Lemma call_in_deeds (c : collaborator) (evs : list event) :
  c ∈ survey evs → Called c ∈ deeds evs.
Proof.
  unfold survey. rewrite list_elem_of_omap. intros ([id s|c'|line] & Hin & Htag);
    try discriminate Htag.
  injection Htag as ->. by apply elem_of_deeds.
Qed.

Lemma elem_of_when_entered (ev : event) (resume_from : string) (gate : list string)
    (l : list event) :
  ev ∈ when_entered resume_from gate l → resume_from ∈ gate ∧ ev ∈ l.
Proof.
  unfold when_entered. case_bool_decide; [done|]. by intros ?%elem_of_nil.
Qed.

Ltac absurd_member H :=
  repeat (apply elem_of_cons in H as [H|H]; [discriminate H|]);
  by apply elem_of_nil in H.

Ltac gate_case Hin :=
  let Hgate := fresh "Hgate" in
  first
    [ apply elem_of_when_entered in Hin as [Hgate Hin];
      first [exact Hgate | absurd_member Hin]
    | absurd_member Hin ].

(** Which gate lets an event of the course in. *)
Lemma course_gates (first : bool) (esg_id resume_from : string) (ev : event) :
  ev ∈ course first esg_id resume_from →
  ((∃ id, ev = StatusWritten id "stage1") ∨ ev = Called DownloadReport →
     resume_from ∈ ["stage1"])
  ∧ ((∃ id, ev = StatusWritten id "stage2") ∨ ev = Called WordCloud
     ∨ ev = Called AIAnalysis → resume_from ∈ ["stage1"; "stage2"])
  ∧ ((∃ id, ev = StatusWritten id "stage3") ∨ ev = Called NewsSearch →
     resume_from ∈ ["stage1"; "stage2"; "stage3"])
  ∧ ((∃ id, ev = StatusWritten id "stage4") ∨ ev = Called AIVerification →
     resume_from ∈ ["stage1"; "stage2"; "stage3"; "stage4"])
  ∧ ((∃ id, ev = StatusWritten id "stage5") ∨ ev = Called SourceCheck →
     resume_from ∈ ["stage1"; "stage2"; "stage3"; "stage4"; "stage5"]).
Proof.
  unfold course, course_through_read_back. rewrite !elem_of_app.
  intros Hin. split_and!.
  - intros [[id ->]| ->]; destruct first; cbn [stage2_calls] in Hin;
      destruct Hin as [[Hin|[Hin|[Hin|[Hin|[Hin|Hin]]]]]|Hin];
      gate_case Hin.
  - intros [[id ->]|[->| ->]]; destruct first; cbn [stage2_calls] in Hin;
      destruct Hin as [[Hin|[Hin|[Hin|[Hin|[Hin|Hin]]]]]|Hin]; gate_case Hin.
  - intros [[id ->]| ->]; destruct first; cbn [stage2_calls] in Hin;
      destruct Hin as [[Hin|[Hin|[Hin|[Hin|[Hin|Hin]]]]]|Hin];
      gate_case Hin.
  - intros [[id ->]| ->]; destruct first; cbn [stage2_calls] in Hin;
      destruct Hin as [[Hin|[Hin|[Hin|[Hin|[Hin|Hin]]]]]|Hin];
      gate_case Hin.
  - intros [[id ->]| ->]; destruct first; cbn [stage2_calls] in Hin;
      destruct Hin as [[Hin|[Hin|[Hin|[Hin|[Hin|Hin]]]]]|Hin];
      gate_case Hin.
Qed.

Lemma course_skips (first : bool) (esg_id resume_from : string) (evs : list event) :
  deeds evs `sublist_of` course first esg_id resume_from →
  (resume_from ∉ ["stage1"] →
         ("stage1" ∉ status_writes evs) ∧ (DownloadReport ∉ survey evs))
    ∧ (resume_from ∉ ["stage1"; "stage2"] →
         ("stage2" ∉ status_writes evs) ∧ (WordCloud ∉ survey evs)
         ∧ (AIAnalysis ∉ survey evs))
    ∧ (resume_from ∉ ["stage1"; "stage2"; "stage3"] →
         ("stage3" ∉ status_writes evs) ∧ (NewsSearch ∉ survey evs))
    ∧ (resume_from ∉ ["stage1"; "stage2"; "stage3"; "stage4"] →
         ("stage4" ∉ status_writes evs) ∧ (AIVerification ∉ survey evs))
    ∧ (resume_from ∉ ["stage1"; "stage2"; "stage3"; "stage4"; "stage5"] →
         ("stage5" ∉ status_writes evs) ∧ (SourceCheck ∉ survey evs)).
Proof.
  intros Hsub.
  assert (∀ ev, ev ∈ deeds evs → ev ∈ course first esg_id resume_from) as Hin
    by (intros ev Hev; by eapply elem_of_sublist).
  split_and!; intros Hout; split_and!; intros Hev; apply Hout.
  - apply status_write_in_deeds in Hev as [id Hev].
    eapply (course_gates first esg_id resume_from); [by apply Hin | left; by eexists].
  - apply call_in_deeds in Hev.
    eapply (course_gates first esg_id resume_from); [by apply Hin | by right].
  - apply status_write_in_deeds in Hev as [id Hev].
    eapply (course_gates first esg_id resume_from); [by apply Hin | left; by eexists].
  - apply call_in_deeds in Hev.
    eapply (course_gates first esg_id resume_from); [by apply Hin | right; by left].
  - apply call_in_deeds in Hev.
    eapply (course_gates first esg_id resume_from); [by apply Hin | right; by right].
  - apply status_write_in_deeds in Hev as [id Hev].
    eapply (course_gates first esg_id resume_from); [by apply Hin | left; by eexists].
  - apply call_in_deeds in Hev.
    eapply (course_gates first esg_id resume_from); [by apply Hin | by right].
  - apply status_write_in_deeds in Hev as [id Hev].
    eapply (course_gates first esg_id resume_from); [by apply Hin | left; by eexists].
  - apply call_in_deeds in Hev.
    eapply (course_gates first esg_id resume_from); [by apply Hin | by right].
  - apply status_write_in_deeds in Hev as [id Hev].
    eapply (course_gates first esg_id resume_from); [by apply Hin | left; by eexists].
  - apply call_in_deeds in Hev.
    eapply (course_gates first esg_id resume_from); [by apply Hin | by right].
Qed.

(** X3. A stage before the resume point is not run again: when
    [resume_from] is outside the stages that enter it, the run neither
    writes its status nor calls its collaborator, whatever the others do. *)
Theorem skipped_stages_not_run (cfg : config) (svc : services) (year : Z)
    (company_code esg_id : string) (report_info : gmap string string)
    (resume_from : string) (w : world) :
  ∃ evs,
    journal (run_analysis cfg svc year company_code esg_id report_info resume_from w).2
      = (journal w ++ evs)%list
    ∧ (resume_from ∉ ["stage1"] →
         ("stage1" ∉ status_writes evs) ∧ (DownloadReport ∉ survey evs))
    ∧ (resume_from ∉ ["stage1"; "stage2"] →
         ("stage2" ∉ status_writes evs) ∧ (WordCloud ∉ survey evs)
         ∧ (AIAnalysis ∉ survey evs))
    ∧ (resume_from ∉ ["stage1"; "stage2"; "stage3"] →
         ("stage3" ∉ status_writes evs) ∧ (NewsSearch ∉ survey evs))
    ∧ (resume_from ∉ ["stage1"; "stage2"; "stage3"; "stage4"] →
         ("stage4" ∉ status_writes evs) ∧ (AIVerification ∉ survey evs))
    ∧ (resume_from ∉ ["stage1"; "stage2"; "stage3"; "stage4"; "stage5"] →
         ("stage5" ∉ status_writes evs) ∧ (SourceCheck ∉ survey evs)).
Proof.
  destruct (run_in_course cfg svc year company_code esg_id report_info
              resume_from w) as (evs & Hj & _ & Hsub).
  exists evs. split; [done|]. by apply (course_skips (analysis_first svc year company_code) esg_id).
Qed.

(** *** How a run ends *)

Section Carries.
Variable esg_id : string.

Lemma carries_plain {A} (m : M A) :
  (∀ w, ACTIVE_PROCESSING (m w).2 = ACTIVE_PROCESSING w
        ∧ ∀ r, (m w).1 ≠ Returned r) →
  carries esg_id m.
Proof.
  intros Hm w. destruct (Hm w) as [Ha Hr].
  destruct (m w).1 as [a|r|e]; [done | by destruct (Hr r) | done].
Qed.

Lemma carries_bind {A B} (m : M A) (k : A → M B) :
  carries esg_id m → (∀ a, carries esg_id (k a)) → carries esg_id (m ≫= k).
Proof.
  intros Hm Hk w. unfold mbind, M_bind, bind. specialize (Hm w).
  destruct (m w) as [[a|r|e] w1]; cbn in *; [|done|done].
  specialize (Hk a w1). destruct (k a w1).1; [congruence | done | congruence].
Qed.

Lemma carries_try {A} (body : M A) (handler : exn → M A) :
  carries esg_id body → (∀ e, carries esg_id (handler e)) →
  carries esg_id (try_catch body handler).
Proof.
  intros Hm Hh w. unfold try_catch. specialize (Hm w).
  destruct (body w) as [[a|r|e] w1]; cbn in *; [done|done|].
  specialize (Hh e w1). destruct (handler e w1).1; [congruence | done | congruence].
Qed.

Lemma carries_ret {A} (a : A) : carries esg_id (mret a).
Proof. by apply carries_plain. Qed.

Lemma carries_raise {A} (e : exn) : carries esg_id (@raise A e).
Proof. by apply carries_plain. Qed.

Lemma carries_of_result {A} (r : result A) : carries esg_id (of_result r).
Proof. apply carries_plain. intros w. by destruct r. Qed.

Lemma carries_read_disk {A} (f : filesystem → A) : carries esg_id (read_disk f).
Proof. by apply carries_plain. Qed.

Lemma carries_on_disk {A} (f : filesystem → result A * filesystem) :
  carries esg_id (on_disk f).
Proof.
  apply carries_plain. intros w. unfold on_disk. by destruct (f (disk w)) as [[a|e] d].
Qed.

Lemma carries_print (line : string) : carries esg_id (print line).
Proof. by apply carries_plain. Qed.

Lemma carries_status (id status : string) :
  carries esg_id (update_analysis_status id status).
Proof. by apply carries_plain. Qed.

Lemma carries_call {A} (c : collaborator) (f : filesystem → result A * filesystem) :
  carries esg_id (call c f).
Proof.
  apply carries_plain. intros w. unfold call, on_disk. cbn.
  by destruct (f (disk w)) as [[a|e] d].
Qed.

Lemma carries_call_db {A} (c : collaborator) (r : result A) :
  carries esg_id (call_db c r).
Proof. apply carries_plain. intros w. unfold call_db. by destruct r. Qed.

Lemma carries_give_up {A} (message : string) :
  carries esg_id (update_analysis_status esg_id "failed";;
                  @respond A (failed_response esg_id message)).
Proof.
  intros w. unfold mbind, M_bind, bind, update_analysis_status, respond. cbn.
  split; [done|]. by rewrite lookup_insert_eq.
Qed.

Lemma carries_give_up_release {A} (message : string) :
  carries esg_id (update_analysis_status esg_id "failed";;
                  mark_processing_end esg_id;;
                  @respond A (failed_response esg_id message)).
Proof.
  intros w. unfold mbind, M_bind, bind, update_analysis_status, mark_processing_end, respond.
  case_bool_decide; cbn; (split; [done|]); by rewrite lookup_insert_eq.
Qed.
End Carries.

Section HowARunEnds.
Variable cfg : config.
Variable svc : services.
Variables (year : Z) (company_code esg_id : string).
Variable report_info : gmap string string.
Variable resume_from : string.

Lemma carries_stage1 :
  carries esg_id (stage1_download cfg svc year company_code esg_id resume_from).
Proof.
  unfold stage1_download. case_bool_decide.
  - apply carries_bind; [apply carries_status | intros _].
    apply carries_bind; [apply carries_call|].
    intros [[|] p]; cbn; [apply carries_ret | apply carries_give_up_release].
  - apply carries_bind; [apply carries_read_disk | intros found].
    apply carries_bind; [apply carries_print | intros _; apply carries_ret].
Qed.

Lemma carries_print_each (lines : list (result string)) :
  carries esg_id (print_each lines).
Proof.
  induction lines as [|[line|e] rest IH]; cbn [print_each].
  - apply carries_ret.
  - apply carries_bind; [apply carries_print | intros _; exact IH].
  - apply carries_raise.
Qed.

Lemma carries_stage2 (pdf_path : string) :
  carries esg_id
    (stage2_analysis svc year company_code esg_id report_info resume_from pdf_path).
Proof.
  unfold stage2_analysis. case_bool_decide.
  - apply carries_bind; [apply carries_status | intros _].
    apply carries_bind.
    { apply carries_plain. intros w. unfold run_threads.
      destruct (run_wordcloud _ _ _ _) as [wordcloud_result wordcloud_events].
      by destruct (run_ai_analysis _ _ _ _ _ _) as [[analysis_result analysis_events] d]. }
    intros [wordcloud_result analysis_result].
    apply carries_bind; [|intros _; apply carries_ret].
    destruct wordcloud_result as [[[|] [|] err]|];
      first [apply carries_print | apply carries_ret].
  - apply carries_bind; [apply carries_print | intros _; apply carries_ret].
Qed.

Lemma carries_soft_stage (stage : string) (gate : list string) (c : collaborator)
    (run : filesystem → result step_report * filesystem)
    (said_done : gmap string json → list (result string))
    (said_skipped said_failed said_error stage_skipped : string) :
  carries esg_id
    (soft_stage esg_id resume_from stage gate c run said_done
       said_skipped said_failed said_error stage_skipped).
Proof.
  unfold soft_stage. case_bool_decide; [|apply carries_print].
  apply carries_bind; [apply carries_status | intros _].
  apply carries_try; [|intros e; apply carries_print].
  apply carries_bind; [apply carries_call|].
  intros [[|] [|] err dict];
    first [apply carries_print | apply carries_print_each | apply carries_ret].
Qed.

Lemma carries_stage6 (analysis_result : option (gmap string string)) :
  carries esg_id
    (stage6_persist cfg svc year company_code esg_id report_info analysis_result).
Proof.
  unfold stage6_persist.
  apply carries_bind; [apply carries_status | intros _].
  apply carries_bind; [apply carries_read_disk | intros present].
  apply carries_bind.
  { destruct present.
    - apply carries_bind; [apply carries_on_disk | intros items].
      apply carries_bind; [apply carries_of_result | intros _; apply carries_ret].
    - apply carries_bind; [apply carries_print | intros _; apply carries_give_up]. }
  intros final_analysis_items. apply carries_bind.
  { destruct analysis_result; [apply carries_ret | apply carries_raise]. }
  intros report_url. apply carries_bind; [apply carries_call_db|].
  intros [[|] insert_msg]; cbn; [apply carries_status | apply carries_give_up].
Qed.

Lemma carries_stages_1_to_6 :
  carries esg_id
    (stages_1_to_6 cfg svc year company_code esg_id report_info resume_from).
Proof.
  unfold stages_1_to_6.
  apply carries_bind; [apply carries_stage1 | intros pdf_path].
  apply carries_bind; [apply carries_stage2 | intros analysis_result].
  apply carries_bind; [apply carries_soft_stage | intros _].
  apply carries_bind; [apply carries_soft_stage | intros _].
  apply carries_bind; [apply carries_soft_stage | intros _].
  apply carries_stage6.
Qed.

Lemma lands_bind {A B} (status : string) (m : M A) (k : A → M B) :
  (∀ a, lands esg_id status (k a)) → lands esg_id status (m ≫= k).
Proof.
  intros Hk w. unfold mbind, M_bind, bind.
  destruct (m w) as [[a|r|e] w1]; cbn; [apply Hk | done | done].
Qed.

Lemma lands_stages_1_to_6 :
  lands esg_id "completed"
    (stages_1_to_6 cfg svc year company_code esg_id report_info resume_from).
Proof.
  unfold stages_1_to_6, stage6_persist.
  do 10 (apply lands_bind; intros ?).
  destruct a8 as [[|] insert_msg]; cbn.
  - intros w. cbn. by rewrite lookup_insert_eq.
  - by intros w.
Qed.

(** The read-back and what follows it: the status stays, and either the
    completed response is returned with the entry released, or the error
    response, or an exception leaves with the entry in place. *)
Lemma finalize_ends (w : world) :
  analysis_status (finalize cfg svc year company_code esg_id report_info w).2
    = analysis_status w
  ∧ ((∃ company_obj,
        (finalize cfg svc year company_code esg_id report_info w).1
          = Returned (completed_response esg_id company_obj)
        ∧ is_actively_processing
            (finalize cfg svc year company_code esg_id report_info w).2 esg_id = false)
     ∨ ((finalize cfg svc year company_code esg_id report_info w).1
          = Returned (read_back_error esg_id)
        ∧ ACTIVE_PROCESSING (finalize cfg svc year company_code esg_id report_info w).2
          = ACTIVE_PROCESSING w)
     ∨ ((∃ e, (finalize cfg svc year company_code esg_id report_info w).1 = Raised e)
        ∧ ACTIVE_PROCESSING (finalize cfg svc year company_code esg_id report_info w).2
          = ACTIVE_PROCESSING w)).
Proof.
  unfold finalize. step.
  destruct (query_company_data svc year company_code (analysis_status w))
    as [record|e]; cbv beta iota; [|cbn; split; [done|]; right; right; eauto].
  case_bool_decide; [|cbn; split; [done|]; right; by left].
  destruct (company_view svc record) as [company_obj|e]; cbv beta iota;
    [|cbn; split; [done|]; right; right; eauto].
  unfold cleanup_temp_files.
  destruct (remove_each_swept
              (file_targets cfg year company_code (dict_get report_info "company_name" ""))
              (logged w (Called QueryCompany)))
    as (w1 & -> & Ha & Hs & _).
  destruct (released w1 esg_id) as (w2 & -> & Hfree & _ & Hs2 & _). cbn.
  split; [by rewrite Hs2, Hs|]. left. by exists company_obj.
Qed.
End HowARunEnds.

Lemma on_exception_ends (esg_id : string) (e : exn) (w : world) :
  ∃ w', on_exception esg_id e w
        = (Returned (failed_response esg_id ("處理過程發生錯誤: " +:+ exn_text e)), w')
        ∧ analysis_status w' !! esg_id = Some "failed".
Proof.
  unfold on_exception, mbind, M_bind, bind, update_analysis_status,
    mark_processing_end, respond.
  case_bool_decide; eexists; (split; [reflexivity|]); cbn; by rewrite lookup_insert_eq.
Qed.

Lemma run_ends (cfg : config) (svc : services) (year : Z)
    (company_code esg_id : string) (report_info : gmap string string)
    (resume_from : string) (w : world) (f : flow ()) (w' : world) :
  run_analysis cfg svc year company_code esg_id report_info resume_from w = (f, w') →
  ∃ r,
    f = Returned r
    ∧ r_esg_id r = esg_id
    ∧ ((r_status r = "completed" ∧ r_code r = 200 ∧ is_Some (r_data r)
        ∧ analysis_status w' !! esg_id = Some "completed"
        ∧ is_actively_processing w' esg_id = false)
       ∨ (r_status r = "failed" ∧ r_code r = 500 ∧ r_data r = None
          ∧ analysis_status w' !! esg_id = Some "failed")
       ∨ (r_status r = "error" ∧ r_code r = 500 ∧ r_data r = None
          ∧ analysis_status w' !! esg_id = Some "completed"
          ∧ is_actively_processing w' esg_id = true)).
Proof.
  unfold run_analysis, mbind, M_bind, mark_processing_start. unfold bind at 1.
  set (w1 := with_active w _).
  assert (is_Some (ACTIVE_PROCESSING w1 !! esg_id)) as Hactive
    by (unfold w1; cbn; rewrite lookup_insert_eq; eauto).
  unfold try_catch. unfold bind at 1.
  pose proof (carries_stages_1_to_6 cfg svc year company_code esg_id report_info
                resume_from w1) as Hcarry.
  pose proof (lands_stages_1_to_6 cfg svc year company_code esg_id report_info
                resume_from w1) as Hland.
  destruct (stages_1_to_6 cfg svc year company_code esg_id report_info resume_from w1)
    as [[[]|r|e] w6]; cbn in Hcarry, Hland.
  - destruct (finalize_ends cfg svc year company_code esg_id report_info w6)
      as (Hs & [(obj & Hf & Hfree)|[[Hf Ha]|[[e Hf] Ha]]]);
      destruct (finalize cfg svc year company_code esg_id report_info w6) as [f7 w7];
      cbn in Hs, Hf; subst f7.
    + intros [= <- <-]. eexists. split; [reflexivity|]. split; [done|]. left.
      split_and!; first [done | by eexists | by rewrite Hs].
    + intros [= <- <-]. eexists. split; [reflexivity|]. split; [done|]. right; right.
      split_and!; first [done | by rewrite Hs | idtac].
      unfold is_actively_processing. apply bool_decide_eq_true.
      cbn in Ha. by rewrite Ha, Hcarry.
    + destruct (on_exception_ends esg_id e w7) as (w8 & -> & Hst).
      intros [= <- <-]. eexists. split; [reflexivity|]. split; [done|].
      right; left. by split_and!.
  - destruct Hcarry as [Hr Hst]. intros [= <- <-].
    eexists. split; [reflexivity|]. rewrite Hr. split; [done|]. right; left.
    by split_and!.
  - destruct (on_exception_ends esg_id e w6) as (w8 & -> & Hst).
    intros [= <- <-]. eexists. split; [reflexivity|]. split; [done|].
    right; left. by split_and!.
Qed.

(** X4. Whatever the collaborators do, a run ends with a response for
    its job, and only three endings exist: [completed] with code 200,
    the data, status [completed] and the registry entry released;
    [failed] with code 500 and status [failed]; or, when the record read
    back is not completed, [error] with code 500 while the status stays
    [completed] and the registry entry stays in place. *)
Theorem run_always_answers (cfg : config) (svc : services) (year : Z)
    (company_code esg_id : string) (report_info : gmap string string)
    (resume_from : string) (w : world) :
  ∃ r,
    (run_analysis cfg svc year company_code esg_id report_info resume_from w).1
      = Returned r
    ∧ r_esg_id r = esg_id
    ∧ ((r_status r = "completed" ∧ r_code r = 200 ∧ is_Some (r_data r)
        ∧ analysis_status
            (run_analysis cfg svc year company_code esg_id report_info resume_from w).2
            !! esg_id = Some "completed"
        ∧ is_actively_processing
            (run_analysis cfg svc year company_code esg_id report_info resume_from w).2
            esg_id = false)
       ∨ (r_status r = "failed" ∧ r_code r = 500 ∧ r_data r = None
          ∧ analysis_status
              (run_analysis cfg svc year company_code esg_id report_info resume_from w).2
              !! esg_id = Some "failed")
       ∨ (r_status r = "error" ∧ r_code r = 500 ∧ r_data r = None
          ∧ analysis_status
              (run_analysis cfg svc year company_code esg_id report_info resume_from w).2
              !! esg_id = Some "completed"
          ∧ is_actively_processing
              (run_analysis cfg svc year company_code esg_id report_info resume_from w).2
              esg_id = true)).
Proof.
  destruct (run_analysis cfg svc year company_code esg_id report_info resume_from w)
    as [f w'] eqn:E. cbn. by eapply run_ends.
Qed.

(** ** More on the checker and the planner *)

(** X5. The JSON check answers [True] exactly for a file that parses to
    a non-empty list or a non-empty object: a number, a string, a
    boolean or [null] at top level counts as empty, like [[]] and [{}]. *)
Theorem check_json_valid_true_iff (fs : filesystem) (p : string) :
  (∃ m, check_json_valid fs p = Ok (true, m))
  ↔ ∃ v, files fs !! p = Some (Json v)
         ∧ ((∃ items, v = JList items ∧ items ≠ [])
            ∨ (∃ fields, v = JDict fields ∧ fields ≠ ∅)).
Proof.
  destruct (check_json_valid_answer fs p) as (m & Hm & _). rewrite Hm.
  unfold valid_artifact. split.
  - intros [m' [= Hv _]]. destruct (files fs !! p) as [[e|err|v]|]; try done.
    exists v. split; [done|]. destruct v; try done; cbn in Hv.
    + left. eexists. split; [done|]. apply bool_decide_eq_true in Hv.
      intros ->. cbn in Hv. lia.
    + right. eexists. split; [done|]. apply bool_decide_eq_true in Hv.
      intros ->. rewrite map_size_empty in Hv. lia.
  - intros (v & -> & [(items & -> & Hne)|(fields & -> & Hne)]); exists m; cbn.
    + rewrite bool_decide_eq_true_2; [done|]. destruct items; [done | cbn; lia].
    + rewrite bool_decide_eq_true_2; [done|].
      destruct (decide (size fields = 0%nat)) as [Hz|Hz]; [|lia].
      by apply map_size_empty_iff in Hz.
Qed.

(** X6. When a stage is reported complete the path returned is the
    artifact itself: for stage1 the first match of the report pattern,
    also given as the message; for stage2 to stage5 the path of
    [get_file_path], which holds a valid JSON artifact. No other stage is
    ever reported complete. *)
Theorem completed_stage_names_its_artifact (cfg : config) (fs : filesystem) (year : Z)
    (company_code stage p m : string) :
  check_stage_completion cfg fs year company_code stage = Ok (true, p, m) →
  (stage = "stage1" ∧ m = p
   ∧ ∃ others, glob_matches fs (pdf_pattern cfg year company_code) = p :: others)
  ∨ (∃ key, stage_key stage = Some key
            ∧ p = get_file_path cfg key year company_code
            ∧ valid_artifact fs p = true).
Proof.
  unfold check_stage_completion.
  repeat case_bool_decide; subst;
    try (edestruct json_stage_answer as (m' & -> & _); intros [= Hv <- <-]; right;
         eexists; split; [reflexivity|]; rewrite Hv; by split).
  - unfold check_pdf_exists. destruct (glob_matches fs _) as [|first others] eqn:E;
      intros [= <- <-]. left. split_and!; try done. by exists others.
  - discriminate.
  - discriminate.
Qed.

Lemma completed_stage_names_its_artifact_witness :
  check_stage_completion repo_config fs_full 2024 "2330" "stage2"
    = Ok (true, "temp_data/prompt1_json/2024_2330_p1.json", "有效 JSON (1 筆資料)")
  ∧ ∃ key, stage_key "stage2" = Some key
           ∧ "temp_data/prompt1_json/2024_2330_p1.json"
             = get_file_path repo_config key 2024 "2330"
           ∧ valid_artifact fs_full "temp_data/prompt1_json/2024_2330_p1.json" = true.
Proof.
  assert (check_stage_completion repo_config fs_full 2024 "2330" "stage2"
          = Ok (true, "temp_data/prompt1_json/2024_2330_p1.json", "有效 JSON (1 筆資料)"))
    as Hc by (vm_compute; reflexivity).
  split; [exact Hc|].
  destruct (completed_stage_names_its_artifact repo_config fs_full 2024 "2330"
              "stage2" _ _ Hc) as [(Habs & _)|Hkey]; [discriminate Habs | exact Hkey].
Defined.

(** X7. The planner never answers that everything is done: stage6 is
    never among [completed_stages], which is a sublist of stage1..stage5;
    [resume_from] is one of stage1..stage6 and is not in
    [completed_stages]; and [stage_details] has the six stages as keys,
    no other. *)
Theorem resume_point_in_range (cfg : config) (fs : filesystem) (year : Z)
    (company_code status : string) :
  ∃ r,
    determine_resume_point cfg fs year company_code status = Ok r
    ∧ resume_from r ∈ stages
    ∧ (resume_from r ∉ completed_stages r)
    ∧ completed_stages r
      `sublist_of` ["stage1"; "stage2"; "stage3"; "stage4"; "stage5"]
    ∧ (∀ stage, is_Some (stage_details r !! stage) ↔ stage ∈ stages).
Proof.
  destruct (determine_resume_point_answer cfg fs year company_code status)
    as (r & k & Hr & Hdone & Hdet & Hk & Hno & _).
  exists r. split; [done|]. split_and!.
  - apply list_elem_of_lookup. by exists k.
  - rewrite Hdone, list_elem_of_filter. intros [? _]. congruence.
  - rewrite Hdone. unfold stages. rewrite !filter_cons, filter_nil.
    rewrite stage6_never_reported.
    repeat case_decide; try discriminate; repeat constructor.
  - intros stage. rewrite Hdet. case_decide as Hin.
    + split; [done|]. intros _.
      destruct (detail_of_answer cfg fs year company_code stage) as (p & m & _ & ->).
      by eexists.
    + split; [by intros [? ?] | done].
Qed.

Lemma reported_complete_before_removal (cfg : config) (fs : filesystem) (p : string)
    (year : Z) (company_code stage : string) :
  reported_complete cfg (os_remove fs p).2 year company_code stage = true →
  reported_complete cfg fs year company_code stage = true.
Proof.
  unfold os_remove.
  destruct (remove_denied fs !! p) as [e|]; [done|].
  destruct (files fs !! p) as [n|] eqn:Hfile; [|done]. cbn [snd].
  destruct (decide (stage = "stage1")) as [->|Hne].
  - rewrite !reported_complete_stage1. cbn.
    intros Hf%bool_decide_eq_true. apply bool_decide_eq_true.
    intros Hnil. rewrite Hnil in Hf. by apply Hf.
  - destruct (stage_key stage) as [key|] eqn:Hkey.
    + rewrite !(reported_complete_json _ _ _ _ _ key) by done.
      unfold valid_artifact. cbn.
      destruct (decide (get_file_path cfg key year company_code = p)) as [->|Hp].
      * by rewrite lookup_delete_eq.
      * by rewrite lookup_delete_ne.
    + by rewrite !reported_complete_other.
Qed.

(** X8. Removing a file never moves the resume point forward: after
    [os.remove] of any path, whether it succeeds or not, the planner
    resumes at the same stage or at an earlier one, and reports no stage
    complete that it did not report before. *)
Theorem removal_never_advances_resume_point (cfg : config) (fs : filesystem)
    (p : string) (year : Z) (company_code status : string) :
  ∃ r r' (k k' : nat),
    determine_resume_point cfg fs year company_code status = Ok r
    ∧ plan_after_removal cfg fs p year company_code status = Ok r'
    ∧ stages !! k = Some (resume_from r)
    ∧ stages !! k' = Some (resume_from r')
    ∧ (k' ≤ k)%nat
    ∧ (∀ stage, stage ∈ completed_stages r' → stage ∈ completed_stages r).
Proof.
  unfold plan_after_removal.
  destruct (determine_resume_point_answer cfg fs year company_code status)
    as (r & k & Hr & Hdone & _ & Hk & Hno & Hbefore).
  destruct (determine_resume_point_answer cfg (os_remove fs p).2 year company_code status)
    as (r' & k' & Hr' & Hdone' & _ & Hk' & Hno' & Hbefore').
  exists r, r', k, k'. split_and!; try done.
  - destruct (decide (k' ≤ k)%nat) as [|Hgt]; [done|]. exfalso.
    assert (reported_complete cfg (os_remove fs p).2 year company_code (resume_from r)
            = true) as Hlater by (apply (Hbefore' k); [done | lia]).
    apply reported_complete_before_removal in Hlater. congruence.
  - intros stage. rewrite Hdone, Hdone', !list_elem_of_filter.
    intros [Hc Hin]. split; [|done]. by apply (reported_complete_before_removal _ _ p).
Qed.

(** X9. After the clean-up, when [get_file_path] puts the JSON artifacts
    where the clean-up looks for them and no removal is refused, the
    checker reports stages 2 to 5 incomplete: a new run resumes at
    stage1, or at stage2 when a report PDF is still found. *)
Theorem plan_after_cleanup (cfg : config) (year : Z)
    (company_code company_name status : string) (w : world) :
  layout_agrees cfg year company_code →
  (∀ p, p ∈ file_targets cfg year company_code company_name →
        remove_denied (disk w) !! p = None) →
  ∃ r,
    (cleanup_temp_files cfg year company_code company_name w).1 = Next ()
    ∧ determine_resume_point cfg
        (disk (cleanup_temp_files cfg year company_code company_name w).2)
        year company_code status = Ok r
    ∧ resume_from r ∈ ["stage1"; "stage2"]
    ∧ completed_stages r `sublist_of` ["stage1"].
Proof.
  intros (H1 & Hn & H2 & H3) Hfree. unfold cleanup_temp_files.
  destruct (remove_each_swept (file_targets cfg year company_code company_name) w)
    as (w' & -> & _ & _ & _ & _ & _ & _ & _ & Hgone & _). cbn [fst snd].
  assert (∀ key, key ∈ ["P1_JSON"; "NEWS_JSON"; "P2_JSON"; "P3_JSON"] →
            valid_artifact (disk w') (get_file_path cfg key year company_code) = false)
    as Hinvalid.
  { intros key Hkey.
    assert (get_file_path cfg key year company_code
            ∈ file_targets cfg year company_code company_name) as Htarget.
    { rewrite !elem_of_cons, elem_of_nil in Hkey.
      destruct Hkey as [->|[->|[->|[->|[]]]]];
        rewrite ?H1, ?Hn, ?H2, ?H3; unfold file_targets.
      - do 1 apply list_elem_of_further. apply list_elem_of_here.
      - do 2 apply list_elem_of_further. apply list_elem_of_here.
      - do 3 apply list_elem_of_further. apply list_elem_of_here.
      - do 4 apply list_elem_of_further. apply list_elem_of_here. }
    unfold valid_artifact. by rewrite (Hgone _ Htarget (Hfree _ Htarget)). }
  destruct (plan_from_reports cfg (disk w') year company_code status
              (reported_complete cfg (disk w') year company_code "stage1")
              false false false false) as (r & Hr & Hdone & Hfrom); try done.
  { rewrite (reported_complete_json _ _ _ _ _ "P1_JSON") by done. apply Hinvalid.
    apply list_elem_of_here. }
  { rewrite (reported_complete_json _ _ _ _ _ "NEWS_JSON") by done. apply Hinvalid.
    do 1 apply list_elem_of_further. apply list_elem_of_here. }
  { rewrite (reported_complete_json _ _ _ _ _ "P2_JSON") by done. apply Hinvalid.
    do 2 apply list_elem_of_further. apply list_elem_of_here. }
  { rewrite (reported_complete_json _ _ _ _ _ "P3_JSON") by done. apply Hinvalid.
    do 3 apply list_elem_of_further. apply list_elem_of_here. }
  exists r. split; [done|]. split; [done|]. rewrite Hfrom, Hdone.
  destruct (reported_complete cfg (disk w') year company_code "stage1"); cbn; split.
  - do 1 apply list_elem_of_further. apply list_elem_of_here.
  - repeat constructor.
  - apply list_elem_of_here.
  - repeat constructor.
Qed.

Lemma plan_after_cleanup_witness :
  layout_agrees repo_config 2024 "2330"
  ∧ ∃ r,
      determine_resume_point repo_config
        (disk (cleanup_temp_files repo_config 2024 "2330" "台積電" full_world).2)
        2024 "2330" "completed" = Ok r
      ∧ resume_from r ∈ ["stage1"; "stage2"].
Proof.
  assert (layout_agrees repo_config 2024 "2330") as Hlay
    by (split_and!; vm_compute; reflexivity).
  split; [exact Hlay|].
  destruct (plan_after_cleanup repo_config 2024 "2330" "台積電" "completed" full_world Hlay)
    as (r & _ & Hr & Hfrom & _).
  - intros p _. vm_compute. reflexivity.
  - exists r. split; [exact Hr | exact Hfrom].
Defined.

(** ** The active-job registry *)

(** X10. Marking the start makes the job active, overwriting any earlier
    entry and touching no other job; marking the end afterwards makes it
    inactive again and leaves the registry as it was without the job. *)
Theorem registry_start_then_end (w : world) (esg_id other : string) :
  is_actively_processing (mark_processing_start esg_id w).2 esg_id = true
  ∧ ACTIVE_PROCESSING (mark_processing_start esg_id w).2 !! esg_id = Some (clock w)
  ∧ is_actively_processing
      (mark_processing_end esg_id (mark_processing_start esg_id w).2).2 esg_id = false
  ∧ ACTIVE_PROCESSING (mark_processing_end esg_id (mark_processing_start esg_id w).2).2
    = delete esg_id (ACTIVE_PROCESSING w)
  ∧ (other ≠ esg_id →
       is_actively_processing (mark_processing_start esg_id w).2 other
       = is_actively_processing w other).
Proof.
  unfold mark_processing_start, mark_processing_end, is_actively_processing. cbn.
  rewrite lookup_insert_eq.
  rewrite (bool_decide_eq_true_2 (is_Some (Some (clock w)))) by eauto. cbn.
  split_and!; try done.
  - apply bool_decide_eq_false. rewrite lookup_delete_eq. by intros [? ?].
  - by rewrite delete_insert_eq.
  - intros Hne. by rewrite lookup_insert_ne.
Qed.

(** X11. Marking the end of a job that is not tracked changes nothing at
    all, so doing it a second time is harmless; and it never touches the
    entry of another job. *)
Theorem registry_end_untracked (w : world) (esg_id other : string) :
  (is_actively_processing w esg_id = false → mark_processing_end esg_id w = (Next (), w))
  ∧ mark_processing_end esg_id (mark_processing_end esg_id w).2
    = (Next (), (mark_processing_end esg_id w).2)
  ∧ (other ≠ esg_id →
       ACTIVE_PROCESSING (mark_processing_end esg_id w).2 !! other
       = ACTIVE_PROCESSING w !! other).
Proof.
  assert (∀ w0, is_actively_processing w0 esg_id = false →
                mark_processing_end esg_id w0 = (Next (), w0)) as Hnoop.
  { intros w0. unfold mark_processing_end, is_actively_processing. by intros ->. }
  split_and!.
  - apply Hnoop.
  - destruct (released w esg_id) as (w' & -> & Hgone & _). by apply Hnoop.
  - intros Hne. unfold mark_processing_end.
    case_bool_decide; cbn; [by rewrite lookup_delete_ne | done].
Qed.

(** ** The clean-up on its own *)

(** X12. The clean-up always runs to its end, touches neither the
    registry nor any status, removes no file outside its five targets,
    and a second clean-up right after the first removes nothing more. *)
Theorem cleanup_is_idempotent (cfg : config) (year : Z)
    (company_code company_name : string) (w : world) :
  ∃ w1 w2,
    cleanup_temp_files cfg year company_code company_name w = (Next (), w1)
    ∧ cleanup_temp_files cfg year company_code company_name w1 = (Next (), w2)
    ∧ ACTIVE_PROCESSING w1 = ACTIVE_PROCESSING w
    ∧ analysis_status w1 = analysis_status w
    ∧ (∀ q, q ∉ file_targets cfg year company_code company_name →
            files (disk w1) !! q = files (disk w) !! q)
    ∧ files (disk w2) = files (disk w1).
Proof.
  unfold cleanup_temp_files.
  destruct (remove_each_swept (file_targets cfg year company_code company_name) w)
    as (w1 & E1 & Ha & Hs & Hd & _ & Hout & Hkeep & Hnone & Hgone & _).
  destruct (remove_each_swept (file_targets cfg year company_code company_name) w1)
    as (w2 & E2 & _ & _ & _ & _ & Hout2 & Hkeep2 & Hnone2 & Hgone2 & _).
  exists w1, w2. split_and!; try done.
  apply map_eq. intros q.
  destruct (decide (q ∈ file_targets cfg year company_code company_name)) as [Hin|Hnot];
    [|by apply Hout2].
  destruct (remove_denied (disk w) !! q) as [e|] eqn:Hden.
  - apply Hkeep2. rewrite Hd, Hden. by eexists.
  - rewrite (Hgone q Hin Hden). apply Hnone2. by apply Hgone.
Qed.

(** ** Stages 3, 4 and 5 *)

(** X13. The news search, the AI verification and the source check never
    stop a run: whatever their collaborator answers or raises, each stage
    falls through, leaves the registry alone and, when entered, leaves
    its own stage as the status of the job; when skipped it leaves status
    and disk as they were. *)
Theorem enrichment_stages_fall_through (svc : services) (year : Z)
    (company_code esg_id resume_from : string) (w : world) (stage : M ()) (name : string)
    (gate : list string) :
  (stage, name, gate) ∈
    [ (stage3_news svc year company_code esg_id resume_from, "stage3",
       ["stage1"; "stage2"; "stage3"]);
      (stage4_verify svc year company_code esg_id resume_from, "stage4",
       ["stage1"; "stage2"; "stage3"; "stage4"]);
      (stage5_sources svc year company_code esg_id resume_from, "stage5",
       ["stage1"; "stage2"; "stage3"; "stage4"; "stage5"]) ] →
  (stage w).1 = Next ()
  ∧ ACTIVE_PROCESSING (stage w).2 = ACTIVE_PROCESSING w
  ∧ (resume_from ∈ gate → analysis_status (stage w).2 !! esg_id = Some name)
  ∧ (resume_from ∉ gate →
       analysis_status (stage w).2 = analysis_status w ∧ disk (stage w).2 = disk w).
Proof.
  assert (∀ stage_name gate c run done s1 s2 s3 s4,
    (soft_stage esg_id resume_from stage_name gate c run done s1 s2 s3 s4 w).1 = Next ()
    ∧ ACTIVE_PROCESSING
        (soft_stage esg_id resume_from stage_name gate c run done s1 s2 s3 s4 w).2
      = ACTIVE_PROCESSING w
    ∧ (resume_from ∈ gate →
         analysis_status
           (soft_stage esg_id resume_from stage_name gate c run done s1 s2 s3 s4 w).2
           !! esg_id = Some stage_name)
    ∧ (resume_from ∉ gate →
         analysis_status
           (soft_stage esg_id resume_from stage_name gate c run done s1 s2 s3 s4 w).2
           = analysis_status w
         ∧ disk (soft_stage esg_id resume_from stage_name gate c run done s1 s2 s3 s4 w).2
           = disk w)) as Hsoft.
  { intros stage_name gate' c run done s1 s2 s3 s4.
    destruct (decide (resume_from ∈ gate')) as [Hin|Hout].
    - destruct (soft_stage_run esg_id resume_from stage_name gate' c run done
                  s1 s2 s3 s4 w Hin) as (printed & ->).
      cbn. split_and!; [done | done | intros _; by rewrite lookup_insert_eq | done].
    - unfold soft_stage. rewrite bool_decide_eq_false_2 by done. by split_and!. }
  rewrite !elem_of_cons, elem_of_nil.
  intros [[= -> -> ->]|[[= -> -> ->]|[[= -> -> ->]|[]]]]; apply Hsoft.
Qed.

Lemma enrichment_stages_fall_through_witness :
  (stage4_verify sources_down 2024 "2330" "20242330" "stage4" fresh_world).1 = Next ()
  ∧ analysis_status
      (stage4_verify sources_down 2024 "2330" "20242330" "stage4" fresh_world).2
      !! "20242330" = Some "stage4".
Proof.
  destruct (enrichment_stages_fall_through sources_down 2024 "2330" "20242330" "stage4"
              fresh_world
              (stage4_verify sources_down 2024 "2330" "20242330" "stage4") "stage4"
              ["stage1"; "stage2"; "stage3"; "stage4"])
    as (Hnext & _ & Hstatus & _).
  - do 1 apply list_elem_of_further. apply list_elem_of_here.
  - split; [exact Hnext|]. apply Hstatus.
    do 3 apply list_elem_of_further. apply list_elem_of_here.
Defined.

(** ** What the word cloud cannot change *)

Lemma same_state_refl (w : world) : same_state w w.
Proof. by split_and!. Qed.

Lemma alike_bind {A B} (m1 m2 : M A) (k1 k2 : A → M B) :
  alike m1 m2 → (∀ a, alike (k1 a) (k2 a)) → alike (m1 ≫= k1) (m2 ≫= k2).
Proof.
  intros Hm Hk w w' Hsame. unfold mbind, M_bind, bind.
  destruct (Hm w w' Hsame) as [Hf Hs].
  destruct (m1 w) as [f1 w1], (m2 w') as [f2 w2]. cbn in *. subst f2.
  destruct f1 as [a|r|e]; [by apply Hk | done | done].
Qed.

Lemma alike_try {A} (body1 body2 : M A) (h1 h2 : exn → M A) :
  alike body1 body2 → (∀ e, alike (h1 e) (h2 e)) →
  alike (try_catch body1 h1) (try_catch body2 h2).
Proof.
  intros Hm Hh w w' Hsame. unfold try_catch.
  destruct (Hm w w' Hsame) as [Hf Hs].
  destruct (body1 w) as [f1 w1], (body2 w') as [f2 w2]. cbn in *. subst f2.
  destruct f1 as [a|r|e]; [done | done | by apply Hh].
Qed.

(** A statement that reads nothing but the state and writes the journal
    at most. *)
Ltac alike_leaf :=
  intros w w' (Hd & Ha & Hs & Hc); cbn; rewrite <- ?Hd, <- ?Ha, <- ?Hs, <- ?Hc;
  repeat match goal with
         | |- context [match ?x with _ => _ end] => destruct x; cbn
         end;
  unfold same_state; cbn; by rewrite <- ?Hd, <- ?Ha, <- ?Hs, <- ?Hc.

Lemma alike_ret {A} (a : A) : alike (mret a) (mret a).
Proof. alike_leaf. Qed.

Lemma alike_respond {A} (r : response) : alike (@respond A r) (respond r).
Proof. alike_leaf. Qed.

Lemma alike_raise {A} (e : exn) : alike (@raise A e) (raise e).
Proof. alike_leaf. Qed.

Lemma alike_of_result {A} (r : result A) : alike (of_result r) (of_result r).
Proof. unfold of_result. alike_leaf. Qed.

Lemma alike_read_disk {A} (f : filesystem → A) : alike (read_disk f) (read_disk f).
Proof. unfold read_disk. alike_leaf. Qed.

Lemma alike_on_disk {A} (f : filesystem → result A * filesystem) :
  alike (on_disk f) (on_disk f).
Proof. unfold on_disk, of_result. alike_leaf. Qed.

Lemma alike_print (line : string) : alike (print line) (print line).
Proof. unfold print. alike_leaf. Qed.

Lemma alike_status (id status : string) :
  alike (update_analysis_status id status) (update_analysis_status id status).
Proof. unfold update_analysis_status. alike_leaf. Qed.

Lemma alike_call {A} (c : collaborator) (f : filesystem → result A * filesystem) :
  alike (call c f) (call c f).
Proof. unfold call, on_disk, of_result. alike_leaf. Qed.

Lemma alike_call_db {A} (c : collaborator) (r : result A) :
  alike (call_db c r) (call_db c r).
Proof. unfold call_db, of_result. alike_leaf. Qed.

Lemma alike_mark_start (id : string) :
  alike (mark_processing_start id) (mark_processing_start id).
Proof. unfold mark_processing_start. alike_leaf. Qed.

Lemma alike_mark_end (id : string) :
  alike (mark_processing_end id) (mark_processing_end id).
Proof.
  intros w w' (Hd & Ha & Hs & Hc). unfold mark_processing_end. rewrite <- Ha.
  case_bool_decide; cbn; unfold same_state; cbn; by rewrite ?Ha.
Qed.

Section Alike.
Variable cfg : config.
Variable svc : services.
Variable wordcloud : Z → string → string → bool → option (result wordcloud_report).
Variables (year : Z) (company_code esg_id : string).
Variable report_info : gmap string string.
Variable resume_from : string.

Local Abbreviation svc' := (with_wordcloud svc wordcloud).

Lemma alike_stage1 :
  alike (stage1_download cfg svc year company_code esg_id resume_from)
        (stage1_download cfg svc' year company_code esg_id resume_from).
Proof.
  unfold stage1_download. case_bool_decide.
  - apply alike_bind; [apply alike_status | intros _].
    apply alike_bind; [apply alike_call|].
    intros [[|] p]; cbn; [apply alike_ret|].
    apply alike_bind; [apply alike_status | intros _].
    apply alike_bind; [apply alike_mark_end | intros _; apply alike_respond].
  - apply alike_bind; [apply alike_read_disk | intros found].
    apply alike_bind; [apply alike_print | intros _; apply alike_ret].
Qed.

Lemma alike_stage2 (pdf_path : string) :
  alike (stage2_analysis svc year company_code esg_id report_info resume_from pdf_path)
        (stage2_analysis svc' year company_code esg_id report_info resume_from pdf_path).
Proof.
  unfold stage2_analysis. case_bool_decide.
  - intros w w' (Hd & Ha & Hs & Hc).
    unfold run_threads, run_wordcloud, run_ai_analysis. step.
    cbn [generate_wordcloud analyze_esg_report with_wordcloud disk logged with_status].
    destruct (generate_wordcloud svc year company_code pdf_path false)
      as [[[[|] [|] err1]|e1]|];
    destruct (wordcloud year company_code pdf_path false)
      as [[[[|] [|] err2]|e2]|];
    cbn; rewrite <- Hd;
    destruct (analyze_esg_report svc pdf_path year company_code _ _ (disk w))
      as [[analysis|e] d];
    cbn; unfold same_state; cbn; by rewrite Ha, Hs, Hc.
  - apply alike_bind; [apply alike_print | intros _; apply alike_ret].
Qed.

Lemma alike_print_each (lines : list (result string)) :
  alike (print_each lines) (print_each lines).
Proof.
  induction lines as [|[line|e] rest IH]; cbn [print_each].
  - apply alike_ret.
  - apply alike_bind; [apply alike_print | intros _; exact IH].
  - apply alike_raise.
Qed.

Lemma alike_soft_stage (stage : string) (gate : list string) (c : collaborator)
    (run : filesystem → result step_report * filesystem)
    (said_done : gmap string json → list (result string)) (s1 s2 s3 s4 : string) :
  alike (soft_stage esg_id resume_from stage gate c run said_done s1 s2 s3 s4)
        (soft_stage esg_id resume_from stage gate c run said_done s1 s2 s3 s4).
Proof.
  unfold soft_stage. case_bool_decide; [|apply alike_print].
  apply alike_bind; [apply alike_status | intros _].
  apply alike_try; [|intros e; apply alike_print].
  apply alike_bind; [apply alike_call|].
  intros [[|] [|] err dict];
    first [apply alike_print | apply alike_print_each | apply alike_ret].
Qed.

Lemma alike_stage6 (analysis_result : option (gmap string string)) :
  alike (stage6_persist cfg svc year company_code esg_id report_info analysis_result)
        (stage6_persist cfg svc' year company_code esg_id report_info analysis_result).
Proof.
  unfold stage6_persist.
  apply alike_bind; [apply alike_status | intros _].
  apply alike_bind; [apply alike_read_disk | intros present].
  apply alike_bind.
  { destruct present.
    - apply alike_bind; [apply alike_on_disk | intros items].
      apply alike_bind; [apply alike_of_result | intros _; apply alike_ret].
    - apply alike_bind; [apply alike_print | intros _].
      apply alike_bind; [apply alike_status | intros _; apply alike_respond]. }
  intros final_analysis_items. apply alike_bind.
  { destruct analysis_result; [apply alike_ret | apply alike_raise]. }
  intros report_url. apply alike_bind; [apply alike_call_db|].
  intros [[|] insert_msg]; cbn; [apply alike_status|].
  apply alike_bind; [apply alike_status | intros _; apply alike_respond].
Qed.

Lemma alike_remove_each (targets : list string) :
  alike (remove_each targets) (remove_each targets).
Proof.
  induction targets as [|file_path rest IH]; [apply alike_ret|]. cbn [remove_each].
  apply alike_bind; [|intros _; exact IH]. unfold remove_target.
  apply alike_try; [|intros e; apply alike_print].
  apply alike_bind; [apply alike_read_disk|].
  intros [|]; [|apply alike_ret].
  apply alike_bind; [apply alike_on_disk | intros _; apply alike_print].
Qed.

Lemma alike_finalize :
  alike (finalize cfg svc year company_code esg_id report_info)
        (finalize cfg svc' year company_code esg_id report_info).
Proof.
  unfold finalize. apply alike_bind.
  { intros w w' Hsame. cbn [query_company_data with_wordcloud].
    destruct Hsame as (Hd & Ha & Hs & Hc). rewrite <- Hs.
    apply alike_call_db. by split_and!. }
  intros final_result. case_bool_decide; [|apply alike_respond].
  apply alike_bind; [apply alike_of_result | intros company_obj].
  apply alike_bind; [apply alike_remove_each | intros _].
  apply alike_bind; [apply alike_mark_end | intros _; apply alike_respond].
Qed.

Lemma alike_run_analysis :
  alike (run_analysis cfg svc year company_code esg_id report_info resume_from)
        (run_analysis cfg svc' year company_code esg_id report_info resume_from).
Proof.
  unfold run_analysis, stages_1_to_6.
  apply alike_bind; [apply alike_mark_start | intros _].
  apply alike_try.
  - apply alike_bind; [|intros _; apply alike_finalize].
    apply alike_bind; [apply alike_stage1 | intros pdf_path].
    apply alike_bind; [apply alike_stage2 | intros analysis_result].
    apply alike_bind; [apply alike_soft_stage | intros _].
    apply alike_bind; [apply alike_soft_stage | intros _].
    apply alike_bind; [apply alike_soft_stage | intros _].
    apply alike_stage6.
  - intros e. unfold on_exception.
    apply alike_bind; [apply alike_status | intros _].
    apply alike_bind; [apply alike_mark_end | intros _; apply alike_respond].
Qed.

(** X14. The word cloud is best effort all the way: whether it finishes,
    is skipped, fails, raises or is still running when the wait ends, the
    run returns the same response and leaves the same disk, registry and
    statuses; only console lines differ. *)
Theorem wordcloud_changes_nothing (w : world) :
  (run_analysis cfg svc year company_code esg_id report_info resume_from w).1
  = (run_analysis cfg svc' year company_code esg_id report_info resume_from w).1
  ∧ same_state
      (run_analysis cfg svc year company_code esg_id report_info resume_from w).2
      (run_analysis cfg svc' year company_code esg_id report_info resume_from w).2.
Proof. apply alike_run_analysis, same_state_refl. Qed.
End Alike.

(** ** The URL stored by a resumed run *)

Lemma bind_same {A B} (m1 m2 : M A) (k1 k2 : A → M B) (w : world) :
  m1 w = m2 w → (∀ a w', k1 a w' = k2 a w') → bind m1 k1 w = bind m2 k2 w.
Proof. intros Hm Hk. unfold bind. rewrite Hm. destruct (m2 w) as [[a|r|e] w']; auto. Qed.

Lemma try_catch_same {A} (m1 m2 : M A) (h1 h2 : exn → M A) (w : world) :
  m1 w = m2 w → (∀ e w', h1 e w' = h2 e w') → try_catch m1 h1 w = try_catch m2 h2 w.
Proof.
  intros Hm Hh. unfold try_catch. rewrite Hm. destruct (m2 w) as [[a|r|e] w']; auto.
Qed.

Lemma bind_print_ret {A B} (line : string) (a : A) (k : A → M B) (w : world) :
  bind (bind (print line) (λ _, ret a)) k w = k a (logged w (Printed line)).
Proof. reflexivity. Qed.

Section UrlOnResume.
Variable cfg : config.
Variable svc : services.
Variable year : Z.
Variable company_code esg_id : string.
Variable report_info : gmap string string.

Lemma stage6_with_empty_url (w : world) :
  stage6_persist cfg svc year company_code esg_id report_info (Some {[ "url" := "" ]}) w
  = stage6_persist cfg (with_url svc "") year company_code esg_id report_info
      (Some {[ "url" := "" ]}) w.
Proof.
  unfold stage6_persist. cbv beta iota.
  assert (∀ fallback, dict_get {[ "url" := "" ]} "url" fallback = "") as ->
    by (intros; unfold dict_get; by rewrite lookup_singleton_eq).
  reflexivity.
Qed.

(** X15. A run resumed after stage 2 hands the empty string as report
    URL to [insert_analysis_results]: it is the run over collaborators
    whose insertion ignores the URL it is given and takes the empty one,
    neither the URL of an earlier analysis nor the default address. *)
Theorem resumed_run_stores_empty_url (resume_from : string) (w : world) :
  resume_from ∉ ["stage1"; "stage2"] →
  run_analysis cfg svc year company_code esg_id report_info resume_from w
  = run_analysis cfg (with_url svc "") year company_code esg_id report_info resume_from w.
Proof.
  intros Hpast.
  unfold run_analysis, stages_1_to_6, stage2_analysis.
  rewrite (bool_decide_eq_false_2 (resume_from ∈ ["stage1"; "stage2"])) by done.
  unfold mbind, M_bind.
  apply bind_same; [reflexivity|]. intros _ w1.
  apply try_catch_same; [|reflexivity].
  apply bind_same; [|reflexivity].
  apply bind_same; [reflexivity|]. intros pdf_path w2.
  rewrite !bind_print_ret.
  apply bind_same; [reflexivity|]. intros _ w3.
  apply bind_same; [reflexivity|]. intros _ w4.
  apply bind_same; [reflexivity|]. intros _ w5.
  apply stage6_with_empty_url.
Qed.
End UrlOnResume.

Lemma resumed_run_stores_empty_url_witness :
  ("stage5" ∉ ["stage1"; "stage2"])
  ∧ run_analysis repo_config all_up 2024 "2330" "20242330" report_info_2330 "stage5"
      stopped_world
    = run_analysis repo_config (with_url all_up "") 2024 "2330" "20242330" report_info_2330
        "stage5" stopped_world.
Proof.
  assert ("stage5" ∉ ["stage1"; "stage2"]) as Hpast
    by (rewrite !not_elem_of_cons; split_and!; [discriminate|discriminate|apply not_elem_of_nil]).
  split; [exact Hpast|].
  apply (resumed_run_stores_empty_url repo_config all_up 2024 "2330" "20242330"
           report_info_2330 "stage5" stopped_world Hpast).
Defined.

(** ** The endpoint *)

Lemma print_all_journal (lines : list string) (w : world) :
  journal (print_all lines w) = (journal w ++ (Printed <$> lines))%list.
Proof.
  revert w. induction lines as [|line lines IH]; intros w; cbn.
  - by rewrite app_nil_r.
  - unfold print_all in *. cbn. rewrite IH. cbn. by rewrite <- app_assoc.
Qed.

Lemma print_all_state (lines : list string) (w : world) :
  disk (print_all lines w) = disk w
  ∧ ACTIVE_PROCESSING (print_all lines w) = ACTIVE_PROCESSING w
  ∧ analysis_status (print_all lines w) = analysis_status w
  ∧ clock (print_all lines w) = clock w.
Proof.
  revert w. induction lines as [|line lines IH]; intros w; [done|].
  unfold print_all in *. cbn. by destruct (IH (logged w (Printed line))) as (-> & -> & -> & ->).
Qed.

Lemma deeds_printed (lines : list string) : deeds (Printed <$> lines) = [].
Proof. by induction lines. Qed.

Lemma within_grows {A} (esg_id : string) (m : M A) (allowed : list event) :
  within esg_id m allowed → grows m.
Proof. intros Hm w. destruct (Hm w) as (evs & Hj & _). by exists evs. Qed.

Lemma opens_bind {A B} (m : M A) (k : A → M B) (first : list event) :
  opens m first → (∀ a, grows (k a)) → opens (bind m k) first.
Proof.
  intros Hm Hk w. destruct (Hm w) as (rest & Hj). unfold bind.
  destruct (m w) as [[a|r|e] w1]; cbn in Hj; [|by exists rest..].
  destruct (Hk a w1) as (evs & Hj'). exists (rest ++ evs)%list.
  by rewrite Hj', Hj, <- !app_assoc.
Qed.

Lemma opens_try {A} (m : M A) (h : exn → M A) (first : list event) :
  opens m first → (∀ e, grows (h e)) → opens (try_catch m h) first.
Proof.
  intros Hm Hh w. destruct (Hm w) as (rest & Hj). unfold try_catch.
  destruct (m w) as [[a|r|e] w1]; cbn in Hj; [by exists rest..|].
  destruct (Hh e w1) as (evs & Hj'). exists (rest ++ evs)%list.
  by rewrite Hj', Hj, <- !app_assoc.
Qed.

Section FromStage1.
Variable cfg : config.
Variable svc : services.
Variables (year : Z) (company_code esg_id : string).
Variable report_info : gmap string string.

Lemma opens_stage1 :
  opens (stage1_download cfg svc year company_code esg_id "stage1")
    [StatusWritten esg_id "stage1"; Called DownloadReport].
Proof.
  intros w. unfold stage1_download.
  rewrite bool_decide_eq_true_2 by apply list_elem_of_here.
  unfold mark_processing_end. step. cbn.
  destruct (download_esg_report svc year company_code (disk w)) as [[[[] p]|e] d]; cbn;
    try case_bool_decide; cbn; eexists; rewrite <- ?app_assoc; cbn [app];
    try reflexivity; by rewrite app_nil_r.
Qed.

Lemma grows_after_stage1 (pdf_path : string) :
  grows (analysis_result ← stage2_analysis svc year company_code esg_id report_info
                              "stage1" pdf_path;
         stage3_news svc year company_code esg_id "stage1";;
         stage4_verify svc year company_code esg_id "stage1";;
         stage5_sources svc year company_code esg_id "stage1";;
         stage6_persist cfg svc year company_code esg_id report_info analysis_result).
Proof.
  eapply within_grows.
  eapply within_bind; [apply within_stage2 | intros analysis_result].
  eapply within_bind; [apply within_soft_stage | intros _].
  eapply within_bind; [apply within_soft_stage | intros _].
  eapply within_bind; [apply within_soft_stage | intros _].
  apply within_stage6.
Qed.

Lemma grows_on_exception (e : exn) : grows (on_exception esg_id e).
Proof.
  eapply within_grows. unfold on_exception.
  apply within_give_up. intros w. apply give_up_release.
Qed.

Lemma run_from_stage1_opens :
  opens (run_analysis cfg svc year company_code esg_id report_info "stage1")
    [StatusWritten esg_id "stage1"; Called DownloadReport].
Proof.
  intros w. unfold run_analysis, mbind, M_bind, mark_processing_start. unfold bind at 1.
  set (w1 := with_active w _).
  change (journal w) with (journal w1).
  apply opens_try; [|apply grows_on_exception].
  apply opens_bind; [|intros _; eapply within_grows, within_finalize].
  unfold stages_1_to_6, mbind, M_bind.
  apply opens_bind; [apply opens_stage1 | apply grows_after_stage1].
Qed.
End FromStage1.

Lemma same_state_logged (w : world) (ev : event) : same_state w (logged w ev).
Proof. done. Qed.

Lemma spares_logged (esg_id : string) (w : world) (ev : event) :
  spares esg_id w (logged w ev).
Proof. by intros other _. Qed.

Lemma spares_print_all (esg_id : string) (lines : list string) (w : world) :
  spares esg_id w (print_all lines w).
Proof.
  intros other _. by destruct (print_all_state lines w) as (_ & -> & -> & _).
Qed.

Lemma spares_row_inserted (esg_id : string) (w : world) :
  spares esg_id w (row_inserted esg_id w).
Proof.
  intros other Hne. unfold row_inserted. cbn. by rewrite lookup_insert_ne.
Qed.

Lemma resumable_not_completed (status : string) :
  status ∈ PROCESSING_STATES_FOR_RESUME → status ≠ "completed".
Proof.
  unfold PROCESSING_STATES_FOR_RESUME. rewrite !elem_of_cons, elem_of_nil.
  intros [->|[->|[->|[->|[->|[->|[->|[]]]]]]]]; discriminate.
Qed.

Section EndpointFacts.
Variable cfg : config.
Variable fd : front_desk.

(** What the analysis block hands over is the response of a run. *)
Lemma reply_of_run (year : Z) (company_code esg_id : string)
    (report_info : gmap string string) (resume_from : string) (w : world) :
  ∃ r evs,
    (reply_of (run_analysis cfg (services_of fd) year company_code esg_id report_info
                 resume_from w)).1 = plain r
    ∧ (r_status r, r_code r) ∈ run_answers
    ∧ journal (reply_of (run_analysis cfg (services_of fd) year company_code esg_id
                           report_info resume_from w)).2 = (journal w ++ evs)%list
    ∧ spares esg_id w
        (reply_of (run_analysis cfg (services_of fd) year company_code esg_id
                     report_info resume_from w)).2
    ∧ deeds evs `sublist_of`
        course (analysis_first (services_of fd) year company_code) esg_id resume_from.
Proof.
  destruct (run_in_course cfg (services_of fd) year company_code esg_id report_info
              resume_from w) as (evs & Hj & Hsp & Hd).
  destruct (run_analysis cfg (services_of fd) year company_code esg_id report_info
              resume_from w) as [f w'] eqn:Hrun.
  destruct (run_ends _ _ _ _ _ _ _ _ _ _ Hrun) as (r & -> & _ & Hr).
  exists r, evs. unfold reply_of. cbn in *. split_and!; [done| |done|done|done].
  unfold run_answers.
  destruct Hr as [(-> & -> & _)|[(-> & -> & _)|(-> & -> & _)]].
  - apply list_elem_of_here.
  - apply list_elem_of_further, list_elem_of_here.
  - do 2 apply list_elem_of_further. apply list_elem_of_here.
Qed.

(** With consent, a job that is neither completed nor running reaches
    [start_analysis] when its report is in the catalogue. *)
Lemma reaches_start (year : Z) (company_code : string) (found : company_lookup)
    (report_info : gmap string string) (w : world) :
  year ≠ 0 → company_code ≠ "" →
  lookup_company fd year company_code (analysis_status w) = Ok found →
  q_status (lookup_record found) ≠ "completed" →
  (q_status (lookup_record found) ∈ PROCESSING_STATES →
   is_actively_processing w (job_id year company_code found) = false) →
  validate_report_exists fd year company_code = Ok (true, report_info) →
  query_company cfg fd (Ok (year, company_code, true)) w
  = start_analysis cfg fd year company_code (job_id year company_code found)
      (q_status (lookup_record found)) report_info (logged w (Called QueryCompany)).
Proof.
  intros Hyear Hcode Hfound Hnot Hidle Hreport. unfold query_company.
  rewrite (bool_decide_eq_false_2 (year = 0)), (bool_decide_eq_false_2 (company_code = ""))
    by done.
  cbn [orb]. rewrite Hfound. cbv zeta. fold (job_id year company_code found).
  rewrite (bool_decide_eq_false_2 _ Hnot).
  unfold after_validation. rewrite Hreport. cbn [negb].
  case_bool_decide as Hin; [|done].
  change (is_actively_processing (logged w (Called QueryCompany))
            (job_id year company_code found))
    with (is_actively_processing w (job_id year company_code found)).
  by rewrite (Hidle Hin).
Qed.

End EndpointFacts.

Ltac in_list := repeat first [apply list_elem_of_here | apply list_elem_of_further].

Section EndpointStart.
Variable cfg : config.
Variable fd : front_desk.

(** Whatever [start_analysis] does, it does for its job, and it answers
    like a run. *)
Lemma start_analysis_does (year : Z) (company_code esg_id status : string)
    (report_info : gmap string string) (w : world) :
  ∃ evs,
    journal (start_analysis cfg fd year company_code esg_id status report_info w).2
      = (journal w ++ evs)%list
    ∧ spares esg_id w
        (start_analysis cfg fd year company_code esg_id status report_info w).2
    ∧ (r_status (answer
         (start_analysis cfg fd year company_code esg_id status report_info w).1),
       r_code (answer
         (start_analysis cfg fd year company_code esg_id status report_info w).1))
      ∈ run_answers.
Proof.
  unfold start_analysis. case_bool_decide as Hresume.
  - unfold print_recovery_status.
    destruct (determine_resume_point_answer cfg (disk w) year company_code status)
      as (r & k & -> & _).
    cbv zeta.
    set (w2 := print_all _ (print_all _ w)).
    destruct (reply_of_run cfg fd year company_code esg_id report_info (resume_from r) w2)
      as (r' & evs & -> & Hans & -> & Hsp & _).
    eexists. split_and!; [| |exact Hans].
    + unfold w2. rewrite !print_all_journal, <- !app_assoc. reflexivity.
    + eapply spares_trans; [|exact Hsp].
      unfold w2. eapply spares_trans; apply spares_print_all.
  - destruct (insert_company_basic fd year company_code _ _ _) as [[success insert_msg]|e].
    + destruct success; cbn [negb andb].
      * set (w2 := print_all _ (row_inserted esg_id w)).
        destruct (reply_of_run cfg fd year company_code esg_id report_info "stage1" w2)
          as (r' & evs & -> & Hans & -> & Hsp & _).
        eexists. split_and!; [| |exact Hans].
        -- unfold w2. rewrite print_all_journal, <- !app_assoc. reflexivity.
        -- eapply spares_trans; [|exact Hsp].
           eapply spares_trans; [apply spares_row_inserted | apply spares_print_all].
      * destruct (contains "已存在" insert_msg); cbn [negb].
        -- set (w2 := print_all _ w).
           destruct (reply_of_run cfg fd year company_code esg_id report_info "stage1" w2)
             as (r' & evs & -> & Hans & -> & Hsp & _).
           eexists. split_and!; [| |exact Hans].
           ++ unfold w2. rewrite print_all_journal, <- !app_assoc. reflexivity.
           ++ eapply spares_trans; [apply spares_print_all | exact Hsp].
        -- exists []. cbn. rewrite app_nil_r.
           split_and!; [done | apply spares_refl | unfold run_answers; in_list].
    + exists []. cbn. rewrite app_nil_r.
      split_and!; [done | apply spares_refl | unfold run_answers; in_list].
Qed.

End EndpointStart.

(** X16. Without consent the endpoint only asks: for every request
    with [auto_fetch] false, whatever the database and the report
    catalogue answer, the disk, the registry and the statuses stay as
    they were, no status is written and no collaborator of the analysis
    is called (the journal gains the database lookup at most), and the
    answer is never [failed]. *)
Theorem no_consent_no_work (cfg : config) (fd : front_desk) (year : Z)
    (company_code : string) (w : world) :
  same_state w (query_company cfg fd (Ok (year, company_code, false)) w).2
  ∧ (journal (query_company cfg fd (Ok (year, company_code, false)) w).2 = journal w
     ∨ journal (query_company cfg fd (Ok (year, company_code, false)) w).2
       = (journal w ++ [Called QueryCompany])%list)
  ∧ r_status (answer (query_company cfg fd (Ok (year, company_code, false)) w).1)
    ∈ ["error"; "completed"; "processing"; "resume_needed"; "not_found";
       "validation_needed"].
Proof.
  unfold query_company.
  destruct (bool_decide (year = 0) || bool_decide (company_code = ""));
    [cbn; split_and!; [done | by left | in_list]|].
  destruct (lookup_company fd year company_code (analysis_status w)) as [found|e];
    [|cbn; split_and!; [done | by right | in_list]].
  cbv zeta. unfold after_validation.
  case_bool_decide.
  { destruct (company_view _ _); cbn; split_and!; first [done | by right | in_list]. }
  case_bool_decide.
  { destruct (is_actively_processing _ _); cbn;
      split_and!; first [done | by right | in_list]. }
  destruct (validate_report_exists fd year company_code) as [[[] report_info]|e]; cbn;
    split_and!; first [done | by right | in_list].
Qed.

(** X17. A job that is completed, or in a processing state with an entry
    in the registry, is not started again, with or without consent: the
    endpoint looks it up and answers, and changes nothing else. The
    answer is an error only when the assembly of the stored result
    raises. *)
Theorem settled_job_not_started (cfg : config) (fd : front_desk) (year : Z)
    (company_code : string) (auto_fetch : bool) (found : company_lookup) (w : world) :
  year ≠ 0 → company_code ≠ "" →
  lookup_company fd year company_code (analysis_status w) = Ok found →
  q_status (lookup_record found) = "completed"
  ∨ (q_status (lookup_record found) ∈ PROCESSING_STATES
     ∧ is_actively_processing w (job_id year company_code found) = true) →
  (query_company cfg fd (Ok (year, company_code, auto_fetch)) w).2
    = logged w (Called QueryCompany)
  ∧ r_esg_id (answer (query_company cfg fd (Ok (year, company_code, auto_fetch)) w).1)
    = (if bool_decide
            (r_status (answer
               (query_company cfg fd (Ok (year, company_code, auto_fetch)) w).1) = "error")
       then "" else job_id year company_code found)
  ∧ match company_view (back_office fd) (lookup_record found) with
    | Raise _ =>
        r_status (answer (query_company cfg fd (Ok (year, company_code, auto_fetch)) w).1)
        = if bool_decide (q_status (lookup_record found) = "completed")
          then "error" else "processing"
    | Ok _ =>
        r_status (answer (query_company cfg fd (Ok (year, company_code, auto_fetch)) w).1)
        = if bool_decide (q_status (lookup_record found) = "completed")
          then "completed" else "processing"
    end.
Proof.
  intros Hyear Hcode Hfound Hsettled. unfold query_company.
  rewrite (bool_decide_eq_false_2 (year = 0)), (bool_decide_eq_false_2 (company_code = ""))
    by done.
  cbn [orb]. rewrite Hfound. cbv zeta. fold (job_id year company_code found).
  case_bool_decide as Hdone.
  - destruct (company_view _ _); cbn; by split_and!.
  - destruct Hsettled as [?|[Hin Hactive]]; [done|].
    rewrite (bool_decide_eq_true_2 _ Hin).
    change (is_actively_processing (logged w (Called QueryCompany))
              (job_id year company_code found))
      with (is_actively_processing w (job_id year company_code found)).
    rewrite Hactive. destruct (company_view _ _); cbn; by split_and!.
Qed.

Lemma settled_job_not_started_witness :
  (query_company repo_config (desk_over all_up) (Ok (2024, "2330", true)) full_world).2
    = logged full_world (Called QueryCompany).
Proof.
  refine (proj1 (settled_job_not_started repo_config (desk_over all_up) 2024 "2330" true
            {| known_esg_id := None;
               lookup_record := {| q_status := "completed"; q_data := JNull;
                                   q_details := one_item |} |}
            full_world _ _ _ _)).
  - discriminate.
  - discriminate.
  - vm_compute. reflexivity.
  - left. reflexivity.
Defined.

(** X18. A resumed request runs the analysis from the planner's point:
    for a job in a resumable state that is not running, with consent and
    a report in the catalogue, the endpoint looks the job up, prints the
    recovery report, and then neither writes the status nor calls the
    collaborator of any stage whose artifact and all earlier ones the
    checker reports complete on the disk of the request. *)
Theorem resume_skips_completed_stages (cfg : config) (fd : front_desk) (year : Z)
    (company_code : string) (found : company_lookup)
    (report_info : gmap string string) (w : world) :
  year ≠ 0 → company_code ≠ "" →
  lookup_company fd year company_code (analysis_status w) = Ok found →
  q_status (lookup_record found) ∈ PROCESSING_STATES_FOR_RESUME →
  (q_status (lookup_record found) ∈ PROCESSING_STATES →
   is_actively_processing w (job_id year company_code found) = false) →
  validate_report_exists fd year company_code = Ok (true, report_info) →
  ∃ lines evs,
    journal (query_company cfg fd (Ok (year, company_code, true)) w).2
      = (journal w ++ Called QueryCompany :: (Printed <$> lines) ++ evs)%list
    ∧ (done_on_disk cfg w year company_code "stage1" →
         ("stage1" ∉ status_writes evs) ∧ (DownloadReport ∉ survey evs))
    ∧ (done_on_disk cfg w year company_code "stage1" →
       done_on_disk cfg w year company_code "stage2" →
         ("stage2" ∉ status_writes evs) ∧ (WordCloud ∉ survey evs)
         ∧ (AIAnalysis ∉ survey evs))
    ∧ (done_on_disk cfg w year company_code "stage1" →
       done_on_disk cfg w year company_code "stage2" →
       done_on_disk cfg w year company_code "stage3" →
         ("stage3" ∉ status_writes evs) ∧ (NewsSearch ∉ survey evs))
    ∧ (done_on_disk cfg w year company_code "stage1" →
       done_on_disk cfg w year company_code "stage2" →
       done_on_disk cfg w year company_code "stage3" →
       done_on_disk cfg w year company_code "stage4" →
         ("stage4" ∉ status_writes evs) ∧ (AIVerification ∉ survey evs))
    ∧ (done_on_disk cfg w year company_code "stage1" →
       done_on_disk cfg w year company_code "stage2" →
       done_on_disk cfg w year company_code "stage3" →
       done_on_disk cfg w year company_code "stage4" →
       done_on_disk cfg w year company_code "stage5" →
         ("stage5" ∉ status_writes evs) ∧ (SourceCheck ∉ survey evs)).
Proof.
  intros Hyear Hcode Hfound Hresume Hidle Hreport.
  rewrite (reaches_start cfg fd year company_code found report_info w)
    by (try done; by apply resumable_not_completed).
  unfold start_analysis. rewrite (bool_decide_eq_true_2 _ Hresume).
  unfold print_recovery_status, done_on_disk.
  change (disk (logged w (Called QueryCompany))) with (disk w).
  destruct (determine_resume_point_answer cfg (disk w) year company_code
              (q_status (lookup_record found))) as (r & k & -> & _ & _ & _ & Hopen & _).
  cbv zeta.
  set (w2 := print_all _ (print_all _ _)).
  destruct (reply_of_run cfg fd year company_code (job_id year company_code found)
              report_info (resume_from r) w2) as (r' & evs & _ & _ & -> & _ & Hcourse).
  eexists _, evs. split.
  { unfold w2. rewrite !print_all_journal. cbn [journal logged].
    rewrite <- !app_assoc. cbn [app].
    rewrite (app_assoc (Printed <$> _)), <- fmap_app. reflexivity. }
  destruct (course_skips _ _ _ _ Hcourse) as (H1 & H2 & H3 & H4 & H5).
  split_and!; intros; first [apply H1 | apply H2 | apply H3 | apply H4 | apply H5];
    rewrite !elem_of_cons, elem_of_nil; intros Hat;
    repeat (destruct Hat as [Hat|Hat]; [rewrite Hat in Hopen; congruence|]); done.
Qed.

Lemma resume_skips_completed_stages_witness :
  ∃ lines evs,
    journal (query_company repo_config (desk_over all_up) (Ok (2024, "2330", true))
               stopped_world).2
      = (journal stopped_world ++ Called QueryCompany :: (Printed <$> lines) ++ evs)%list
    ∧ (done_on_disk repo_config stopped_world 2024 "2330" "stage1" →
         ("stage1" ∉ status_writes evs) ∧ (DownloadReport ∉ survey evs)).
Proof.
  destruct (resume_skips_completed_stages repo_config (desk_over all_up) 2024 "2330"
              {| known_esg_id := None;
                 lookup_record := {| q_status := "stage5"; q_data := JNull;
                                     q_details := one_item |} |}
              report_info_2330 stopped_world)
    as (lines & evs & Hj & H1 & _).
  - discriminate.
  - discriminate.
  - vm_compute. reflexivity.
  - unfold PROCESSING_STATES_FOR_RESUME. cbn [q_status lookup_record]. in_list.
  - intros _. vm_compute. reflexivity.
  - reflexivity.
  - exists lines, evs. split; [exact Hj | exact H1].
Defined.

(** X19. A job whose status is outside the resumable states (unknown to
    the database, or left at [processing]) is started from stage 1
    whatever the disk holds: with consent, a report in the catalogue and
    an insertion that succeeds or finds the row, the status writes and
    calls in the journal start with the lookup, the write of [stage1]
    and the download. *)
Theorem unresumable_status_starts_over (cfg : config) (fd : front_desk) (year : Z)
    (company_code : string) (found : company_lookup)
    (report_info : gmap string string) (inserted : bool) (insert_msg : string)
    (w : world) :
  year ≠ 0 → company_code ≠ "" →
  lookup_company fd year company_code (analysis_status w) = Ok found →
  q_status (lookup_record found) ≠ "completed" →
  (q_status (lookup_record found) ∉ PROCESSING_STATES_FOR_RESUME) →
  (q_status (lookup_record found) ∈ PROCESSING_STATES →
   is_actively_processing w (job_id year company_code found) = false) →
  validate_report_exists fd year company_code = Ok (true, report_info) →
  insert_company_basic fd year company_code (dict_get report_info "company_name" "")
    (dict_get report_info "sector" "") "processing" = Ok (inserted, insert_msg) →
  inserted = true ∨ contains "已存在" insert_msg = true →
  ∃ evs rest,
    journal (query_company cfg fd (Ok (year, company_code, true)) w).2
      = (journal w ++ evs)%list
    ∧ deeds evs
      = ([Called QueryCompany;
          StatusWritten (job_id year company_code found) "stage1";
          Called DownloadReport] ++ rest)%list.
Proof.
  intros Hyear Hcode Hfound Hnot Hfirst Hidle Hreport Hinsert Hrow.
  rewrite (reaches_start cfg fd year company_code found report_info w) by done.
  unfold start_analysis. rewrite (bool_decide_eq_false_2 _ Hfirst), Hinsert.
  assert (negb inserted && negb (contains "已存在" insert_msg) = false) as ->
    by (destruct Hrow as [-> | ->]; [done | by rewrite andb_false_r]).
  set (w2 := print_all _ _).
  destruct (run_from_stage1_opens cfg (services_of fd) year company_code
              (job_id year company_code found) report_info w2) as (rest & Hj).
  exists ([Called QueryCompany;
           Printed "🔍 DEBUG: 進入 run_analysis 區塊，resume_from=stage1";
           StatusWritten (job_id year company_code found) "stage1";
           Called DownloadReport] ++ rest)%list, (deeds rest).
  split; [|by rewrite deeds_app].
  unfold reply_of.
  destruct (run_analysis _ _ _ _ _ _ _ w2) as [[[]|r|e] w3]; cbn [fst snd] in Hj |- *;
    rewrite Hj; unfold w2; rewrite print_all_journal;
    destruct inserted; cbn; by rewrite <- !app_assoc.
Qed.

Lemma unresumable_status_starts_over_witness :
  ∃ evs rest,
    journal (query_company repo_config (desk_over all_up) (Ok (2024, "2330", true))
               fresh_world).2
      = (journal fresh_world ++ evs)%list
    ∧ deeds evs
      = ([Called QueryCompany; StatusWritten "20242330" "stage1"; Called DownloadReport]
         ++ rest)%list.
Proof.
  apply (unresumable_status_starts_over repo_config (desk_over all_up) 2024 "2330"
           {| known_esg_id := None;
              lookup_record := {| q_status := "processing"; q_data := JNull;
                                  q_details := one_item |} |}
           report_info_2330 true "新增成功" fresh_world).
  - discriminate.
  - discriminate.
  - vm_compute. reflexivity.
  - discriminate.
  - unfold PROCESSING_STATES_FOR_RESUME. cbn [q_status lookup_record].
    rewrite !not_elem_of_cons. split_and!; try discriminate. apply not_elem_of_nil.
  - intros _. vm_compute. reflexivity.
  - reflexivity.
  - reflexivity.
  - by left.
Defined.

Lemma run_answers_codes (status : string) (code : Z) :
  (status, code) ∈ run_answers → (status, code) ∈ answer_codes ∧ code ≠ 400.
Proof.
  intros Hin. unfold run_answers in Hin. rewrite !elem_of_cons, elem_of_nil in Hin.
  unfold answer_codes.
  destruct Hin as [[= -> ->]|[[= -> ->]|[[= -> ->]|[]]]]; (split; [in_list | done]).
Qed.

(** X20. Every request is answered with a status and the HTTP code that
    goes with it: 200 for [completed], [processing], [resume_needed] and
    [validation_needed], 404 for [not_found], 500 for [failed], 500 or
    400 for [error]; and the code is 400 exactly when the year read is 0
    or the company code is empty. *)
Theorem endpoint_answer_codes (cfg : config) (fd : front_desk)
    (request : result (Z * string * bool)) (w : world) :
  (r_status (answer (query_company cfg fd request w).1),
   r_code (answer (query_company cfg fd request w).1)) ∈ answer_codes
  ∧ (r_code (answer (query_company cfg fd request w).1) = 400
     ↔ ∃ year company_code auto_fetch,
         request = Ok (year, company_code, auto_fetch)
         ∧ (year = 0 ∨ company_code = "")).
Proof.
  destruct request as [[[year company_code] auto_fetch]|e]; cycle 1.
  { cbn. split; [unfold answer_codes; in_list|].
    split; [done | by intros (? & ? & ? & ? & _)]. }
  unfold query_company.
  destruct (decide (year = 0 ∨ company_code = "")) as [Hbad|Hgood].
  { assert (bool_decide (year = 0) || bool_decide (company_code = "") = true) as ->
      by (destruct Hbad as [-> | ->]; [done | by rewrite orb_true_r]).
    cbn. split; [unfold answer_codes; in_list|].
    split; [intros _; by exists year, company_code, auto_fetch | done]. }
  rewrite (bool_decide_eq_false_2 (year = 0)), (bool_decide_eq_false_2 (company_code = ""))
    by tauto.
  cbn [orb].
  match goal with
  | |- ?pair ∈ _ ∧ (?code = 400 ↔ _) =>
      cut (pair ∈ answer_codes ∧ code ≠ 400);
        [intros [Hin Hcode]; split; [exact Hin|];
         split; [done | by intros (? & ? & ? & [= <- <- <-] & ?)]|]
  end.
  destruct (lookup_company fd year company_code (analysis_status w)) as [found|e];
    [|cbn; split; [unfold answer_codes; in_list | done]].
  cbv zeta. unfold after_validation.
  case_bool_decide.
  { destruct (company_view _ _); cbn; (split; [unfold answer_codes; in_list | done]). }
  case_bool_decide.
  - destruct (is_actively_processing _ _);
      [cbn; split; [unfold answer_codes; in_list | done]|].
    destruct auto_fetch; cbn [negb];
      [|cbn; split; [unfold answer_codes; in_list | done]].
    destruct (validate_report_exists fd year company_code) as [[[] report_info]|e];
      cbn [negb]; try (cbn; split; [unfold answer_codes; in_list | done]).
    destruct (start_analysis_does cfg fd year company_code
                (default (pretty year +:+ company_code) (known_esg_id found))
                (q_status (lookup_record found)) report_info
                (logged w (Called QueryCompany))) as (_ & _ & _ & Hans).
    by apply run_answers_codes.
  - destruct (validate_report_exists fd year company_code) as [[[] report_info]|e];
      cbn [negb]; try (cbn; split; [unfold answer_codes; in_list | done]).
    destruct auto_fetch; cbn [negb];
      [|cbn; split; [unfold answer_codes; in_list | done]].
    destruct (start_analysis_does cfg fd year company_code
                (default (pretty year +:+ company_code) (known_esg_id found))
                (q_status (lookup_record found)) report_info
                (logged w (Called QueryCompany))) as (_ & _ & _ & Hans).
    by apply run_answers_codes.
Qed.

(** X21. A request touches its own job only: the status and the registry
    entry of every identifier other than the one the request works
    under (the one of the row found, or year and code side by side)
    are after the request what they were before, whatever the request
    starts. *)
Theorem endpoint_spares_other_jobs (cfg : config) (fd : front_desk) (year : Z)
    (company_code : string) (auto_fetch : bool) (w : world) (other : string) :
  (∀ found, lookup_company fd year company_code (analysis_status w) = Ok found →
            other ≠ job_id year company_code found) →
  analysis_status (query_company cfg fd (Ok (year, company_code, auto_fetch)) w).2 !! other
    = analysis_status w !! other
  ∧ ACTIVE_PROCESSING (query_company cfg fd (Ok (year, company_code, auto_fetch)) w).2
      !! other
    = ACTIVE_PROCESSING w !! other.
Proof.
  intros Hother. unfold query_company.
  destruct (bool_decide (year = 0) || bool_decide (company_code = "")); [done|].
  destruct (lookup_company fd year company_code (analysis_status w)) as [found|e];
    [|done].
  specialize (Hother found eq_refl).
  cbv zeta. fold (job_id year company_code found). unfold after_validation.
  case_bool_decide; [by destruct (company_view _ _)|].
  case_bool_decide.
  - destruct (is_actively_processing _ _); [done|].
    destruct auto_fetch; cbn [negb]; [|done].
    destruct (validate_report_exists fd year company_code) as [[[] report_info]|e];
      cbn [negb]; try done.
    destruct (start_analysis_does cfg fd year company_code
                (job_id year company_code found)
                (q_status (lookup_record found)) report_info
                (logged w (Called QueryCompany))) as (_ & _ & Hsp & _).
    apply (Hsp other Hother).
  - destruct (validate_report_exists fd year company_code) as [[[] report_info]|e];
      cbn [negb]; try done.
    destruct auto_fetch; cbn [negb]; [|done].
    destruct (start_analysis_does cfg fd year company_code
                (job_id year company_code found)
                (q_status (lookup_record found)) report_info
                (logged w (Called QueryCompany))) as (_ & _ & Hsp & _).
    apply (Hsp other Hother).
Qed.

Lemma endpoint_spares_other_jobs_witness :
  analysis_status
    (query_company repo_config (desk_over all_up) (Ok (2024, "2330", true)) busy_world).2
    !! "20231101" = analysis_status busy_world !! "20231101"
  ∧ ACTIVE_PROCESSING
      (query_company repo_config (desk_over all_up) (Ok (2024, "2330", true)) busy_world).2
      !! "20231101" = ACTIVE_PROCESSING busy_world !! "20231101".
Proof.
  apply (endpoint_spares_other_jobs repo_config (desk_over all_up) 2024 "2330" true
           busy_world "20231101").
  intros found [= <-]. vm_compute. discriminate.
Defined.

(** X22. What the progress endpoint says after a run: it never answers
    [failed] as status. After a run that ended [failed] it reports stage
    [failed] with status [processing]; after any other ending it reports
    [completed] for both, also when the run itself answered [error]. *)
Theorem progress_after_run (cfg : config) (svc : services) (year : Z)
    (company_code esg_id : string) (report_info : gmap string string)
    (resume_from : string) (w : world) (fetched : result (option string)) :
  p_status (check_progress fetched) ∈ ["error"; "not_found"; "completed"; "processing"]
  ∧ ∃ r,
      (run_analysis cfg svc year company_code esg_id report_info resume_from w).1
        = Returned r
      ∧ check_progress
          (fetch_status
             (run_analysis cfg svc year company_code esg_id report_info resume_from w).2
             esg_id)
        = if bool_decide (r_status r = "failed")
          then {| p_stage := Some "failed"; p_status := "processing"; p_error := None;
                  p_code := 200 |}
          else {| p_stage := Some "completed"; p_status := "completed"; p_error := None;
                  p_code := 200 |}.
Proof.
  split.
  - destruct fetched as [[status|]|e]; cbn; repeat case_bool_decide; in_list.
  - destruct (run_analysis cfg svc year company_code esg_id report_info resume_from w)
      as [f w'] eqn:Hrun.
    destruct (run_ends _ _ _ _ _ _ _ _ _ _ Hrun) as (r & -> & _ & Hr).
    exists r. split; [done|]. unfold fetch_status. cbn [fst snd].
    destruct Hr as [(-> & _ & _ & -> & _)|[(-> & _ & _ & ->)|(-> & _ & _ & -> & _)]];
      reflexivity.
Qed.

(** ** The analyzer *)

Lemma topics_length (items : list json) (found : list hashable) :
  gemini_api.topics items = Ok found → length found = length items.
Proof.
  revert found. induction items as [|item rest IH]; intros found; cbn.
  - by intros [= <-].
  - unfold mbind, result_bind. destruct (gemini_api.sasb_topic item); [|done]. cbn.
    destruct (gemini_api.topics rest) as [others|]; [|done]. cbn.
    intros [= <-]. cbn. by rewrite (IH others).
Qed.

Lemma occurrences_cons (topic first : hashable) (found : list hashable) :
  occurrences topic (first :: found)
  = ((if decide (first = topic) then 1 else 0) + occurrences topic found)%nat.
Proof. unfold occurrences. rewrite filter_cons. by case_decide. Qed.

Lemma occurrences_split (first : hashable) (found among : list hashable) :
  sum_list_with (λ topic, occurrences topic (first :: found)) among
  = (sum_list_with (λ topic, if decide (first = topic) then 1 else 0) among
     + sum_list_with (λ topic, occurrences topic found) among)%nat.
Proof.
  induction among as [|a among IH]; [done|].
  cbn [sum_list_with]. rewrite IH, occurrences_cons. lia.
Qed.

Lemma counted_once (first : hashable) (among : list hashable) :
  first ∈ among →
  (1 ≤ sum_list_with (λ topic, if decide (first = topic) then 1 else 0) among)%nat.
Proof.
  induction among as [|a among IH]; intros Hin; [by apply elem_of_nil in Hin|].
  cbn [sum_list_with]. apply elem_of_cons in Hin as [->|Hin].
  - rewrite decide_True by done. lia.
  - specialize (IH Hin). lia.
Qed.

(** Each item is counted under its own topic. *)
Lemma length_le_occurrences (among found : list hashable) :
  (∀ topic, topic ∈ found → topic ∈ among) →
  (length found ≤ sum_list_with (λ topic, occurrences topic found) among)%nat.
Proof.
  induction found as [|first found IH]; intros Hin; [cbn; lia|].
  assert (length found ≤ sum_list_with (λ topic, occurrences topic found) among)%nat
    as Hrest by (apply IH; intros topic Ht; apply Hin; by right).
  assert (first ∈ among) as Hfirst by (apply Hin; by left).
  rewrite occurrences_split. pose proof (counted_once first among Hfirst). cbn [length]. lia.
Qed.

Lemma occurrences_bounded (n : nat) (among found : list hashable) :
  (∀ topic, topic ∈ among → occurrences topic found ≤ n)%nat →
  (sum_list_with (λ topic, occurrences topic found) among ≤ length among * n)%nat.
Proof.
  induction among as [|a among IH]; intros Hn; [cbn; lia|].
  cbn [sum_list_with length].
  assert (occurrences a found ≤ n)%nat by (apply Hn; by left).
  assert (sum_list_with (λ topic, occurrences topic found) among ≤ length among * n)%nat
    by (apply IH; intros topic Ht; apply Hn; by right).
  lia.
Qed.

Lemma remove_dups_shorter (found : list hashable) :
  (length (remove_dups found) ≤ length found)%nat.
Proof.
  induction found as [|first found IH]; [done|].
  cbn. case_decide; cbn; lia.
Qed.

Lemma remove_dups_keeps_distinct (found : list hashable) :
  NoDup found → remove_dups found = found.
Proof.
  induction 1 as [|first found Hnew Hrest IH]; [done|].
  cbn. destruct (decide_rel elem_of first found); [done|]. by rewrite IH.
Qed.

(** With more items than twice the topics, some topic comes three times. *)
Lemma some_topic_thrice (found : list hashable) :
  (length (remove_dups found) * 2 < length found)%nat →
  ∃ topic, topic ∈ found ∧ (3 ≤ occurrences topic found)%nat.
Proof.
  intros Hmany.
  destruct (decide (Exists (λ topic, 3 ≤ occurrences topic found)%nat found))
    as [Hsome|Hnone].
  { apply Exists_exists in Hsome as (topic & Hin & H3). by exists topic. }
  exfalso. apply not_Exists_Forall in Hnone; [|intros topic; apply _].
  rewrite Forall_forall in Hnone.
  pose proof (length_le_occurrences (remove_dups found) found) as Hle.
  pose proof (occurrences_bounded 2 (remove_dups found) found) as Hbound.
  assert (∀ topic, topic ∈ found → topic ∈ remove_dups found)
    by (intros topic; by rewrite elem_of_remove_dups).
  assert (∀ topic, topic ∈ remove_dups found → occurrences topic found ≤ 2)%nat.
  { intros topic Ht. rewrite elem_of_remove_dups in Ht.
    specialize (Hnone topic Ht). cbn in Hnone. lia. }
  specialize (Hle ltac:(done)). specialize (Hbound ltac:(done)). lia.
Qed.

(** X23. The detector flags an answer only when it is a list of objects
    in which some topic comes at least three times; it then reports the
    number of items and of distinct topics, at least one, and more items
    than twice the topics. An answer whose topics are all different is
    never flagged. *)
Theorem abnormal_output_repeats_a_topic (parsed_data : json) (flag : bool)
    (total_items unique_count : nat) :
  gemini_api._is_abnormal_output parsed_data = Ok (flag, total_items, unique_count) →
  (unique_count ≤ total_items)%nat
  ∧ (flag = true →
       ∃ items found topic,
         parsed_data = JList items
         ∧ gemini_api.topics items = Ok found
         ∧ total_items = length items
         ∧ unique_count = length (remove_dups found)
         ∧ (1 ≤ unique_count)%nat
         ∧ (unique_count * 2 < total_items)%nat
         ∧ topic ∈ found
         ∧ (3 ≤ occurrences topic found)%nat)
  ∧ (∀ items found, parsed_data = JList items → gemini_api.topics items = Ok found →
       NoDup found → flag = false).
Proof.
  unfold gemini_api._is_abnormal_output.
  destruct (py_truthy parsed_data) eqn:Htruthy; cbn [negb].
  2:{ intros [= <- <- <-]. split_and!; [lia|done|done]. }
  destruct parsed_data as [|b|n|s|items|fields]; try done.
  unfold mbind, result_bind.
  destruct (gemini_api.topics items) as [found|e] eqn:Hfound; [|done]. cbn [rbind].
  intros [= <- <- <-].
  pose proof (topics_length items found Hfound) as Hlen.
  unfold gemini_api.ABNORMAL_THRESHOLD.
  split_and!.
  - rewrite <- Hlen. apply remove_dups_shorter.
  - intros Hflag. apply bool_decide_eq_true in Hflag.
    destruct (some_topic_thrice found) as (topic & Hin & H3); [by rewrite Hlen|].
    exists items, found, topic. split_and!; try done.
    destruct (remove_dups found) eqn:Hnone; [|cbn; lia].
    apply elem_of_remove_dups in Hin. rewrite Hnone in Hin. by apply elem_of_nil in Hin.
  - intros items' found' [= <-] Hfound' Hnodup.
    rewrite Hfound in Hfound'. injection Hfound' as <-.
    apply bool_decide_eq_false. rewrite (remove_dups_keeps_distinct found) by done.
    rewrite Hlen. lia.
Qed.

Lemma abnormal_output_repeats_a_topic_witness :
  gemini_api._is_abnormal_output
    (JList [JDict {[ "sasb_topic" := JStr "水資源" ]};
            JDict {[ "sasb_topic" := JStr "水資源" ]};
            JDict {[ "sasb_topic" := JStr "水資源" ]}]) = Ok (true, 3, 1)%nat
  ∧ (1 ≤ 3)%nat.
Proof.
  assert (gemini_api._is_abnormal_output
            (JList [JDict {[ "sasb_topic" := JStr "水資源" ]};
                    JDict {[ "sasb_topic" := JStr "水資源" ]};
                    JDict {[ "sasb_topic" := JStr "水資源" ]}]) = Ok (true, 3, 1)%nat)
    as Hflagged by (vm_compute; reflexivity).
  split; [exact Hflagged|].
  exact (proj1 (abnormal_output_repeats_a_topic _ true 3 1 Hflagged)).
Defined.

(** *** The retry loop *)

Lemma abnormal_facts (v : json) :
  abnormal v = true →
  ∃ unique_count,
    gemini_api._is_abnormal_output v = Ok (true, items_of v, unique_count)
    ∧ py_len v = Ok (items_of v) ∧ usable v = false ∧ normal v = false.
Proof.
  unfold abnormal, usable, normal.
  unfold gemini_api._is_abnormal_output.
  destruct (py_truthy v); cbn [negb]; [|done].
  destruct v as [|b|n|s|items|fields]; try done.
  unfold mbind, result_bind.
  destruct (gemini_api.topics items) as [found|e]; [|done]. cbn [rbind].
  case_bool_decide; [|done]. intros _. by eexists.
Qed.

Lemma scratched_refl (fs : filesystem) (p : string) : scratched fs fs p.
Proof. split_and!; [by left|done|done]. Qed.

Lemma scratched_dump (writing : string → json → write_end) (fs : filesystem)
    (p : string) (v : json) :
  scratched (json_dump writing fs p v).2 fs p.
Proof.
  unfold json_dump. destruct (writing p v); cbn.
  - split_and!; [right; by eexists|done|done].
  - apply scratched_refl.
  - split_and!; [right; by eexists|done|done].
Qed.

Lemma scratched_trans (fs2 fs1 fs : filesystem) (p : string) :
  scratched fs1 fs p → scratched fs2 fs1 p → scratched fs2 fs p.
Proof.
  intros ([Hsame|[node1 Hover]] & Hg & Hr) ([Hsame'|[node2 Hover']] & Hg' & Hr');
    unfold scratched; rewrite Hg', Hr', Hg, Hr; (split_and!; [|done|done]).
  - left. by rewrite Hsame'.
  - right. exists node2. by rewrite Hover', Hsame.
  - right. exists node1. by rewrite Hsame'.
  - right. exists node2. by rewrite Hover', Hover, insert_insert_eq.
Qed.

Lemma holds_after_scratch (fs2 fs1 fs : filesystem) (p : string) (v : json) :
  scratched fs1 fs p → holds fs2 fs1 p v → holds fs2 fs p v.
Proof.
  intros ([Hsame|[node1 Hover]] & Hg & Hr) (Hf & Hg' & Hr'); unfold holds;
    rewrite Hf, Hg', Hr', Hg, Hr; (split_and!; [|done|done]).
  - by rewrite Hsame.
  - by rewrite Hover, insert_insert_eq.
Qed.

Lemma spoiled_after_scratch (fs2 fs1 fs : filesystem) (p left_behind : string) :
  scratched fs1 fs p → spoiled fs2 fs1 p left_behind → spoiled fs2 fs p left_behind.
Proof.
  intros ([Hsame|[node1 Hover]] & Hg & Hr) (Hf & Hg' & Hr'); unfold spoiled;
    rewrite Hf, Hg', Hr', Hg, Hr; (split_and!; [|done|done]).
  - by rewrite Hsame.
  - by rewrite Hover, insert_insert_eq.
Qed.

Lemma fallback_after_scratch (writing : string → json → write_end) (p : string)
    (kept : json) (outcome : result unit * filesystem) (fs1 fs : filesystem) :
  scratched fs1 fs p →
  fallback_outcome writing p kept outcome fs1 → fallback_outcome writing p kept outcome fs.
Proof.
  intros Hscratch. unfold fallback_outcome.
  destruct (writing p kept); intros [Hend Hdisk]; (split; [done|]).
  - by eapply holds_after_scratch.
  - by eapply scratched_trans.
  - by eapply spoiled_after_scratch.
Qed.

Section Loop.
Variable ask : nat → gemini_api.attempt_config → result json.
Variable writing : string → json → write_end.
Variable output_path : string.

Local Abbreviation one_attempt := (gemini_api.one_attempt ask writing output_path).
Local Abbreviation attempts := (gemini_api.attempts ask writing output_path).
Local Abbreviation last_attempt := (length gemini_api.retry_configs).

Lemma one_attempt_savable (attempt : nat) (config : gemini_api.attempt_config)
    (best : option json) (fs : filesystem) (v : json) :
  ask attempt config = Ok v → savable writing output_path v = true →
  one_attempt attempt config best fs
  = gemini_api.Saved (holding fs output_path (Json v)).
Proof.
  intros Hask [Huse Hwrite]%andb_true_iff.
  unfold usable in Huse.
  unfold gemini_api.one_attempt, gemini_api.save, json_dump. rewrite Hask.
  destruct (gemini_api._is_abnormal_output v) as [[[[] total] unique]|e]; [done| |done].
  destruct (writing output_path v); [|done..]. by destruct (py_len v).
Qed.

(** An attempt before the last whose answer cannot be saved is given up. *)
Lemma one_attempt_given_up (attempt : nat) (config : gemini_api.attempt_config)
    (best : option json) (fs : filesystem) :
  (attempt < last_attempt)%nat →
  (∀ v, ask attempt config = Ok v → savable writing output_path v = false) →
  (∀ b, best = Some b → abnormal b = true) →
  match one_attempt attempt config best fs with
  | gemini_api.Saved _ => False
  | gemini_api.Retry best' =>
      ∃ v, ask attempt config = Ok v ∧ abnormal v = true
           ∧ match best with
             | None => best' = Some v
             | Some b =>
                 best' = if bool_decide (items_of v < items_of b)%nat then Some v else Some b
             end
  | gemini_api.Crashed e fs' =>
      scratched fs' fs output_path
      ∧ (∀ v, ask attempt config = Ok v → abnormal v = false)
  end.
Proof.
  intros Hearly Hunsavable Hbest.
  unfold gemini_api.one_attempt.
  destruct (ask attempt config) as [v|e] eqn:Hask;
    [|split; [apply scratched_refl | done]].
  specialize (Hunsavable v eq_refl).
  destruct (abnormal v) eqn:Habn.
  - destruct (abnormal_facts v Habn) as (unique & -> & Hlen & _).
    rewrite (bool_decide_eq_true_2 _ Hearly).
    destruct best as [b|].
    + destruct (abnormal_facts b (Hbest b eq_refl)) as (_ & _ & -> & _).
      unfold mbind, result_bind. cbn [rbind]. exists v. by split_and!.
    + exists v. by split_and!.
  - unfold abnormal in Habn. unfold savable, usable in Hunsavable.
    destruct (gemini_api._is_abnormal_output v) as [[[[] total] unique]|e] eqn:Hv;
      [done| |].
    + pose proof (scratched_dump writing fs output_path v) as Hscratch.
      unfold gemini_api.save. unfold json_dump in Hscratch |- *.
      destruct (writing output_path v); cbn in Hscratch |- *.
      * destruct (py_len v); [done|].
        split; [done|]. intros v' [= <-]. unfold abnormal. by rewrite Hv.
      * split; [done|]. intros v' [= <-]. unfold abnormal. by rewrite Hv.
      * split; [done|]. intros v' [= <-]. unfold abnormal. by rewrite Hv.
    + split; [apply scratched_refl|]. intros v' [= <-]. unfold abnormal. by rewrite Hv.
Qed.

Lemma attempts_first_savable (k : nat) :
  ∀ (configs : list gemini_api.attempt_config) (attempt : nat) (best : option json)
    (fs : filesystem) (config : gemini_api.attempt_config) (v : json),
    configs !! k = Some config →
    ask (attempt + k) config = Ok v →
    savable writing output_path v = true →
    (attempt + k ≤ last_attempt)%nat →
    (∀ b, best = Some b → abnormal b = true) →
    (∀ j cj vj, (j < k)%nat → configs !! j = Some cj → ask (attempt + j) cj = Ok vj →
                savable writing output_path vj = false) →
    (attempts configs attempt best fs).1 = Ok ()
    ∧ holds (attempts configs attempt best fs).2 fs output_path v.
Proof.
  induction k as [|k IH]; intros configs attempt best fs config v Hat Hask Huse Hle Hbest
    Hbefore; destruct configs as [|first rest]; try done; cbn in Hat.
  - injection Hat as ->. rewrite Nat.add_0_r in Hask.
    cbn [gemini_api.attempts]. rewrite (one_attempt_savable _ _ _ _ v) by done.
    by split.
  - cbn [gemini_api.attempts].
    pose proof (one_attempt_given_up attempt first best fs) as Hgiven.
    assert (attempt < last_attempt)%nat as Hearly by lia.
    specialize (Hgiven Hearly).
    assert (∀ v0, ask attempt first = Ok v0 → savable writing output_path v0 = false)
      as Hfirst.
    { intros v0 Hv0. apply (Hbefore 0%nat first v0); [lia|done|by rewrite Nat.add_0_r]. }
    specialize (Hgiven Hfirst Hbest).
    assert (∀ j cj vj, (j < k)%nat → rest !! j = Some cj →
                       ask (S attempt + j) cj = Ok vj →
                       savable writing output_path vj = false) as Hrest.
    { intros j cj vj Hj Hcj Hvj. apply (Hbefore (S j) cj vj); [lia|done|].
      by rewrite <- Nat.add_succ_comm. }
    rewrite <- Nat.add_succ_comm in Hask, Hle.
    destruct (one_attempt attempt first best fs) as [fs'|best'|e fs']; [done| |].
    + destruct Hgiven as (v0 & Hv0 & Habn & Hkept).
      apply (IH rest (S attempt) best' fs config v); try done.
      intros b ->. destruct best as [b0|].
      * case_bool_decide; injection Hkept as <-; [done | by apply Hbest].
      * by injection Hkept as <-.
    + destruct Hgiven as [Hscratch _].
      rewrite bool_decide_eq_false_2 by lia.
      destruct (IH rest (S attempt) best fs' config v) as [Hok Hholds]; try done.
      split; [done|]. by eapply holds_after_scratch.
Qed.

End Loop.

(** X24. The analyzer saves the first answer it can save: when attempt
    [k] is the first to give an answer that the detector lets pass, that
    has a length and whose write succeeds, whatever the earlier attempts
    did (raised, gave flagged or unprintable answers, or answers whose
    write raised), [run] returns, the output file holds exactly that
    answer and nothing else on the disk changed. *)
Theorem run_saves_first_usable (prepare : result unit)
    (ask : nat → gemini_api.attempt_config → result json)
    (writing : string → json → write_end) (output_path : string)
    (fs : filesystem) (k : nat) (config : gemini_api.attempt_config) (v : json) :
  prepare = Ok () →
  gemini_api.retry_configs !! k = Some config →
  ask (S k) config = Ok v →
  usable v = true →
  writing output_path v = Written →
  (∀ j cj vj, (j < k)%nat → gemini_api.retry_configs !! j = Some cj →
              ask (S j) cj = Ok vj → savable writing output_path vj = false) →
  (gemini_api.run prepare ask writing output_path fs).1 = Ok ()
  ∧ holds (gemini_api.run prepare ask writing output_path fs).2 fs output_path v.
Proof.
  intros -> Hat Hask Huse Hwrite Hbefore. unfold gemini_api.run.
  apply (attempts_first_savable ask writing output_path k gemini_api.retry_configs 1 None
           fs config v); try done.
  - unfold savable. by rewrite Huse, Hwrite.
  - apply lookup_lt_Some in Hat. lia.
Qed.

Lemma run_saves_first_usable_witness :
  (gemini_api.run (Ok ()) second_try all_written
     "temp_data/prompt1_json/2024_2330_p1.json" empty_disk).1 = Ok ()
  ∧ holds
      (gemini_api.run (Ok ()) second_try all_written
         "temp_data/prompt1_json/2024_2330_p1.json" empty_disk).2
      empty_disk "temp_data/prompt1_json/2024_2330_p1.json" clean_answer.
Proof.
  apply (run_saves_first_usable (Ok ()) second_try all_written
           "temp_data/prompt1_json/2024_2330_p1.json" empty_disk 1
           {| gemini_api.model := gemini_api.DEFAULT_MODEL;
              gemini_api.temperature := "0.2";
              gemini_api.desc := "gemini-2.5-flash (temp=0.2)" |}
           clean_answer).
  - reflexivity.
  - reflexivity.
  - reflexivity.
  - vm_compute. reflexivity.
  - reflexivity.
  - intros j cj vj Hj _ Hvj. destruct j; [discriminate Hvj | lia].
Defined.

Section LoopEnds.
Variable ask : nat → gemini_api.attempt_config → result json.
Variable writing : string → json → write_end.
Variable output_path : string.

Local Abbreviation one_attempt := (gemini_api.one_attempt ask writing output_path).
Local Abbreviation attempts := (gemini_api.attempts ask writing output_path).
Local Abbreviation last_attempt := (length gemini_api.retry_configs).

(** The write of a flagged answer decides how [save] ends. *)
Lemma save_flagged (kept : json) (fs : filesystem) :
  abnormal kept = true →
  gemini_api.save writing output_path kept fs
  = match writing output_path kept with
    | Written => gemini_api.Saved (holding fs output_path (Json kept))
    | NotOpened e => gemini_api.Crashed e fs
    | Broken e left_behind =>
        gemini_api.Crashed e (holding fs output_path (Malformed left_behind))
    end.
Proof.
  intros Habn. destruct (abnormal_facts kept Habn) as (_ & _ & Hlen & _).
  unfold gemini_api.save, json_dump.
  destruct (writing output_path kept); [by rewrite Hlen|done|done].
Qed.

(** The last attempt with a flagged answer saves the best seen. *)
Lemma last_attempt_flagged (config : gemini_api.attempt_config) (best : option json)
    (fs : filesystem) (v : json) :
  ask last_attempt config = Ok v → abnormal v = true →
  (∀ b, best = Some b → abnormal b = true) →
  ∃ kept,
    one_attempt last_attempt config best fs
      = gemini_api.save writing output_path kept fs
    ∧ abnormal kept = true
    ∧ (kept = v ∨ best = Some kept)
    ∧ (items_of kept ≤ items_of v)%nat
    ∧ (∀ b, best = Some b → items_of kept ≤ items_of b)%nat.
Proof.
  intros Hask Habn Hbest. unfold gemini_api.one_attempt. rewrite Hask.
  destruct (abnormal_facts v Habn) as (unique & -> & Hlen & _).
  rewrite bool_decide_eq_false_2 by lia.
  destruct best as [b|].
  - destruct (abnormal_facts b (Hbest b eq_refl)) as (_ & _ & Hlenb & _).
    rewrite Hlenb. unfold mbind, result_bind. cbn [rbind].
    case_bool_decide.
    + exists v. split_and!; [done|done|by left|lia|].
      intros b' [= <-]. lia.
    + exists b. split_and!; [done|by apply Hbest|by right|lia|].
      by intros b' [= <-].
  - exists v. by split_and!; [done|done|left|lia|].
Qed.

Lemma attempts_fall_back (configs : list gemini_api.attempt_config) :
  ∀ (attempt : nat) (best : option json) (fs : filesystem),
    configs ≠ [] →
    (attempt + length configs = S last_attempt)%nat →
    (∀ j cj vj, configs !! j = Some cj → ask (attempt + j) cj = Ok vj →
                savable writing output_path vj = false) →
    (∀ config, last configs = Some config →
               ∃ v, ask last_attempt config = Ok v ∧ abnormal v = true) →
    (∀ b, best = Some b → abnormal b = true) →
    ∃ kept,
      fallback_outcome writing output_path kept (attempts configs attempt best fs) fs
      ∧ abnormal kept = true
      ∧ (best = Some kept
         ∨ ∃ j cj, configs !! j = Some cj ∧ ask (attempt + j) cj = Ok kept)
      ∧ (∀ b, best = Some b → items_of kept ≤ items_of b)%nat
      ∧ (∀ j cj vj, configs !! j = Some cj → ask (attempt + j) cj = Ok vj →
                    abnormal vj = true → items_of kept ≤ items_of vj)%nat.
Proof.
  induction configs as [|first rest IH]; intros attempt best fs Hsome Hcount Hunsavable
    Hlast Hbest; [done|].
  cbn [gemini_api.attempts].
  destruct rest as [|second rest].
  - (* the last attempt *)
    cbn [length] in Hcount. assert (attempt = last_attempt) as -> by lia.
    destruct (Hlast first eq_refl) as (v & Hask & Habn).
    destruct (last_attempt_flagged first best fs v Hask Habn Hbest)
      as (kept & -> & Hkept & Hfrom & Hv & Hb).
    exists kept. split_and!; [|done| |done|].
    + rewrite (save_flagged kept fs Hkept). unfold fallback_outcome.
      destruct (writing output_path kept) as [|e|e left_behind].
      * by split.
      * rewrite bool_decide_eq_true_2 by lia. split; [done | apply scratched_refl].
      * rewrite bool_decide_eq_true_2 by lia. by split.
    + destruct Hfrom as [->|Hfrom]; [right|by left].
      exists 0%nat, first. by rewrite Nat.add_0_r.
    + intros j cj vj Hcj Hvj _. destruct j; [|done].
      injection Hcj as <-. rewrite Nat.add_0_r, Hask in Hvj. by injection Hvj as <-.
  - (* an earlier attempt *)
    cbn [length] in Hcount.
    assert (attempt < last_attempt)%nat as Hearly by lia.
    pose proof (one_attempt_given_up ask writing output_path attempt first best fs Hearly)
      as Hgiven.
    assert (∀ v0, ask attempt first = Ok v0 → savable writing output_path v0 = false)
      as Hfirst.
    { intros v0 Hv0. apply (Hunsavable 0%nat first v0); [done|by rewrite Nat.add_0_r]. }
    specialize (Hgiven Hfirst Hbest).
    assert (∀ j cj vj, (second :: rest) !! j = Some cj →
                       ask (S attempt + j) cj = Ok vj →
                       savable writing output_path vj = false) as Hrest.
    { intros j cj vj Hcj Hvj. apply (Hunsavable (S j) cj vj); [done|].
      by rewrite <- Nat.add_succ_comm. }
    assert (∀ config, last (second :: rest) = Some config →
                      ∃ v, ask last_attempt config = Ok v ∧ abnormal v = true) as Hlast'
      by (intros config Hc; apply Hlast; by rewrite last_cons_cons).
    assert (S attempt + length (second :: rest) = S last_attempt)%nat as Hcount'
      by (cbn [length]; lia).
    destruct (one_attempt attempt first best fs) as [fs'|best'|e fs']; [done| |].
    + destruct Hgiven as (v0 & Hv0 & Habn0 & Hkept0).
      assert (∀ b, best' = Some b → abnormal b = true) as Hbest'.
      { intros b ->. destruct best as [b0|].
        - case_bool_decide; injection Hkept0 as <-; [done | by apply Hbest].
        - by injection Hkept0 as <-. }
      destruct (IH (S attempt) best' fs ltac:(done) Hcount' Hrest Hlast' Hbest')
        as (kept & Hend & Hkept & Hfrom & Hb & Hall).
      exists kept. split_and!; [done|done| | |].
      * destruct Hfrom as [->|(j & cj & Hcj & Hj)].
        -- destruct best as [b0|].
           ++ case_bool_decide; injection Hkept0 as <-; [right|by left].
              exists 0%nat, first. by rewrite Nat.add_0_r.
           ++ injection Hkept0 as <-. right.
              exists 0%nat, first. by rewrite Nat.add_0_r.
        -- right. exists (S j), cj. by rewrite <- Nat.add_succ_comm.
      * intros b ->. case_bool_decide; specialize (Hb _ Hkept0); lia.
      * intros j cj vj Hcj Hvj Habn. destruct j as [|j].
        -- injection Hcj as <-. rewrite Nat.add_0_r, Hv0 in Hvj. injection Hvj as <-.
           destruct best as [b0|].
           ++ case_bool_decide; specialize (Hb _ Hkept0); lia.
           ++ by specialize (Hb _ Hkept0).
        -- apply (Hall j cj vj); [done| by rewrite Nat.add_succ_comm | done].
    + destruct Hgiven as [Hscratch Hnot].
      rewrite bool_decide_eq_false_2 by lia.
      destruct (IH (S attempt) best fs' ltac:(done) Hcount' Hrest Hlast' Hbest)
        as (kept & Hend & Hkept & Hfrom & Hb & Hall).
      exists kept. split_and!; [by eapply fallback_after_scratch|done| |done|].
      * destruct Hfrom as [->|(j & cj & Hcj & Hj)]; [by left|right].
        exists (S j), cj. by rewrite <- Nat.add_succ_comm.
      * intros j cj vj Hcj Hvj Habn. destruct j as [|j].
        -- injection Hcj as <-. rewrite Nat.add_0_r in Hvj.
           by rewrite (Hnot vj Hvj) in Habn.
        -- apply (Hall j cj vj); [done| by rewrite Nat.add_succ_comm | done].
Qed.

End LoopEnds.

(** X25. When no attempt gives an answer that can be saved and the last
    one gives a flagged answer, the analyzer falls back to one of the
    flagged answers, with no more items than any other flagged answer
    received, and the write of that answer decides the end: when it
    succeeds [run] returns and the output file holds that answer; when
    the file cannot be opened [run] raises [RuntimeError] with the text
    of that exception and the disk is as the earlier attempts left it;
    when the dump raises [run] raises [RuntimeError] likewise and the
    output file is left broken. Nothing else on the disk changes. *)
Theorem run_falls_back_to_fewest_items (prepare : result unit)
    (ask : nat → gemini_api.attempt_config → result json)
    (writing : string → json → write_end) (output_path : string)
    (fs : filesystem) (config : gemini_api.attempt_config) (flagged : json) :
  prepare = Ok () →
  (∀ j cj vj, gemini_api.retry_configs !! j = Some cj → ask (S j) cj = Ok vj →
              savable writing output_path vj = false) →
  last gemini_api.retry_configs = Some config →
  ask 3%nat config = Ok flagged →
  abnormal flagged = true →
  ∃ k ck kept,
    gemini_api.retry_configs !! k = Some ck
    ∧ ask (S k) ck = Ok kept
    ∧ abnormal kept = true
    ∧ (∀ j cj vj, gemini_api.retry_configs !! j = Some cj → ask (S j) cj = Ok vj →
                  abnormal vj = true → items_of kept ≤ items_of vj)%nat
    ∧ match writing output_path kept with
      | Written =>
          (gemini_api.run prepare ask writing output_path fs).1 = Ok ()
          ∧ holds (gemini_api.run prepare ask writing output_path fs).2 fs output_path kept
      | NotOpened e =>
          (gemini_api.run prepare ask writing output_path fs).1
          = Raise (Exn "RuntimeError" ("所有重試配置都失敗: " +:+ exn_text e))
          ∧ scratched (gemini_api.run prepare ask writing output_path fs).2 fs output_path
      | Broken e left_behind =>
          (gemini_api.run prepare ask writing output_path fs).1
          = Raise (Exn "RuntimeError" ("所有重試配置都失敗: " +:+ exn_text e))
          ∧ spoiled (gemini_api.run prepare ask writing output_path fs).2 fs output_path
              left_behind
      end.
Proof.
  intros -> Hunsavable Hlast Hask Habn. unfold gemini_api.run.
  destruct (attempts_fall_back ask writing output_path gemini_api.retry_configs 1 None fs)
    as (kept & Hend & Hkept & Hfrom & _ & Hall); try done.
  { intros config' Hconfig'. rewrite Hlast in Hconfig'. injection Hconfig' as <-.
    by exists flagged. }
  destruct Hfrom as [?|(k & ck & Hck & Hk)]; [done|].
  exists k, ck, kept. split_and!; [done|done|done|done|exact Hend].
Qed.

Lemma run_falls_back_to_fewest_items_witness :
  ∃ k ck kept,
    gemini_api.retry_configs !! k = Some ck
    ∧ always_repeating (S k) ck = Ok kept
    ∧ abnormal kept = true
    ∧ (∀ j cj vj, gemini_api.retry_configs !! j = Some cj →
                  always_repeating (S j) cj = Ok vj →
                  abnormal vj = true → items_of kept ≤ items_of vj)%nat
    ∧ match refusing_four "temp_data/prompt1_json/2024_2330_p1.json" kept with
      | Written =>
          (gemini_api.run (Ok ()) always_repeating refusing_four
             "temp_data/prompt1_json/2024_2330_p1.json" empty_disk).1 = Ok ()
          ∧ holds
              (gemini_api.run (Ok ()) always_repeating refusing_four
                 "temp_data/prompt1_json/2024_2330_p1.json" empty_disk).2
              empty_disk "temp_data/prompt1_json/2024_2330_p1.json" kept
      | NotOpened e =>
          (gemini_api.run (Ok ()) always_repeating refusing_four
             "temp_data/prompt1_json/2024_2330_p1.json" empty_disk).1
          = Raise (Exn "RuntimeError" ("所有重試配置都失敗: " +:+ exn_text e))
          ∧ scratched
              (gemini_api.run (Ok ()) always_repeating refusing_four
                 "temp_data/prompt1_json/2024_2330_p1.json" empty_disk).2
              empty_disk "temp_data/prompt1_json/2024_2330_p1.json"
      | Broken e left_behind =>
          (gemini_api.run (Ok ()) always_repeating refusing_four
             "temp_data/prompt1_json/2024_2330_p1.json" empty_disk).1
          = Raise (Exn "RuntimeError" ("所有重試配置都失敗: " +:+ exn_text e))
          ∧ spoiled
              (gemini_api.run (Ok ()) always_repeating refusing_four
                 "temp_data/prompt1_json/2024_2330_p1.json" empty_disk).2
              empty_disk "temp_data/prompt1_json/2024_2330_p1.json" left_behind
      end.
Proof.
  apply (run_falls_back_to_fewest_items (Ok ()) always_repeating refusing_four
           "temp_data/prompt1_json/2024_2330_p1.json" empty_disk
           {| gemini_api.model := gemini_api.FALLBACK_MODEL;
              gemini_api.temperature := "0.1";
              gemini_api.desc := "gemini-3-flash-preview (temp=0.1)" |}
           (repeated_answer 6)).
  - reflexivity.
  - intros j cj vj _ Hvj.
    destruct j as [|[|j]]; injection Hvj as <-; vm_compute; reflexivity.
  - reflexivity.
  - reflexivity.
  - vm_compute. reflexivity.
Defined.

Section LoopLoses.
Variable ask : nat → gemini_api.attempt_config → result json.
Variable writing : string → json → write_end.
Variable output_path : string.

Local Abbreviation one_attempt := (gemini_api.one_attempt ask writing output_path).
Local Abbreviation attempts := (gemini_api.attempts ask writing output_path).
Local Abbreviation last_attempt := (length gemini_api.retry_configs).

(** An attempt before the last whose answer the detector does not let
    pass leaves the disk alone. *)
Lemma one_attempt_not_normal (attempt : nat) (config : gemini_api.attempt_config)
    (best : option json) (fs : filesystem) :
  (attempt < last_attempt)%nat →
  (∀ v, ask attempt config = Ok v → normal v = false) →
  (∀ b, best = Some b → abnormal b = true) →
  match one_attempt attempt config best fs with
  | gemini_api.Saved _ => False
  | gemini_api.Retry best' => ∀ b, best' = Some b → abnormal b = true
  | gemini_api.Crashed e fs' => fs' = fs
  end.
Proof.
  intros Hearly Hnot Hbest. unfold gemini_api.one_attempt.
  destruct (ask attempt config) as [v|e] eqn:Hask; [|done].
  specialize (Hnot v eq_refl). unfold normal in Hnot.
  destruct (gemini_api._is_abnormal_output v) as [[[[] total] unique]|e] eqn:Hv;
    [|done|done].
  assert (abnormal v = true) as Habn by (unfold abnormal; by rewrite Hv).
  rewrite (bool_decide_eq_true_2 _ Hearly).
  destruct best as [b|].
  - destruct (abnormal_facts b (Hbest b eq_refl)) as (_ & _ & -> & _).
    unfold mbind, result_bind. cbn [rbind].
    intros b'. case_bool_decide; intros [= <-]; [done | by apply Hbest].
  - by intros b' [= <-].
Qed.

Lemma last_attempt_broken (config : gemini_api.attempt_config) (best : option json)
    (fs : filesystem) (e : exn) :
  broken (ask last_attempt config) = Some e →
  one_attempt last_attempt config best fs = gemini_api.Crashed e fs.
Proof.
  unfold broken, gemini_api.one_attempt.
  destruct (ask last_attempt config) as [v|e']; [|by intros [= ->]].
  destruct (gemini_api._is_abnormal_output v); [done | by intros [= ->]].
Qed.

Lemma attempts_lose (configs : list gemini_api.attempt_config) :
  ∀ (attempt : nat) (best : option json) (fs : filesystem) (e : exn),
    configs ≠ [] →
    (attempt + length configs = S last_attempt)%nat →
    (∀ j cj vj, configs !! j = Some cj → ask (attempt + j) cj = Ok vj →
                normal vj = false) →
    (∀ config, last configs = Some config →
               broken (ask last_attempt config) = Some e) →
    (∀ b, best = Some b → abnormal b = true) →
    attempts configs attempt best fs
    = (Raise (Exn "RuntimeError" ("所有重試配置都失敗: " +:+ exn_text e)), fs).
Proof.
  induction configs as [|first rest IH]; intros attempt best fs e Hsome Hcount Hnot
    Hlast Hbest; [done|].
  cbn [gemini_api.attempts].
  destruct rest as [|second rest].
  - cbn [length] in Hcount. assert (attempt = last_attempt) as -> by lia.
    rewrite (last_attempt_broken first best fs e) by (by apply Hlast).
    by rewrite bool_decide_eq_true_2 by lia.
  - cbn [length] in Hcount.
    assert (attempt < last_attempt)%nat as Hearly by lia.
    pose proof (one_attempt_not_normal attempt first best fs Hearly) as Hgiven.
    assert (∀ v0, ask attempt first = Ok v0 → normal v0 = false) as Hfirst.
    { intros v0 Hv0. apply (Hnot 0%nat first v0); [done|by rewrite Nat.add_0_r]. }
    specialize (Hgiven Hfirst Hbest).
    assert (∀ j cj vj, (second :: rest) !! j = Some cj →
                       ask (S attempt + j) cj = Ok vj → normal vj = false) as Hrest.
    { intros j cj vj Hcj Hvj. apply (Hnot (S j) cj vj); [done|].
      by rewrite <- Nat.add_succ_comm. }
    assert (∀ config, last (second :: rest) = Some config →
                      broken (ask last_attempt config) = Some e) as Hlast'
      by (intros config Hc; apply Hlast; by rewrite last_cons_cons).
    assert (S attempt + length (second :: rest) = S last_attempt)%nat as Hcount'
      by (cbn [length]; lia).
    destruct (one_attempt attempt first best fs) as [fs'|best'|e' fs']; [done| |].
    + by apply IH.
    + subst fs'. rewrite bool_decide_eq_false_2 by lia. by apply IH.
Qed.

(** When the loop returns, it has written the output file. *)
Lemma attempts_return_saved (configs : list gemini_api.attempt_config) :
  ∀ (attempt : nat) (best : option json) (fs fs' : filesystem),
    configs ≠ [] →
    (attempt + length configs = S last_attempt)%nat →
    attempts configs attempt best fs = (Ok (), fs') →
    ∃ v n, files fs' !! output_path = Some (Json v) ∧ py_len v = Ok n.
Proof.
  induction configs as [|first rest IH]; intros attempt best fs fs' Hsome Hcount;
    [done|].
  cbn [gemini_api.attempts].
  assert (∀ w fs1, gemini_api.save writing output_path w fs = gemini_api.Saved fs1 →
                   ∃ v n, files fs1 !! output_path = Some (Json v) ∧ py_len v = Ok n)
    as Hsave.
  { intros w fs1. unfold gemini_api.save, json_dump.
    destruct (writing output_path w); [|done..].
    destruct (py_len w) as [n|] eqn:Hn; [|done]. intros [= <-].
    exists w, n. cbn. by rewrite lookup_insert_eq. }
  assert (∀ w, match gemini_api.save writing output_path w fs with
               | gemini_api.Retry _ => False
               | _ => True
               end) as Hno_retry.
  { intros w. unfold gemini_api.save, json_dump.
    destruct (writing output_path w); [|done..]. by destruct (py_len w). }
  destruct (one_attempt attempt first best fs) as [fs1|best'|e fs1] eqn:Hone.
  - intros [= <-]. revert Hone. unfold gemini_api.one_attempt.
    destruct (ask attempt first) as [w|]; [|done].
    destruct (gemini_api._is_abnormal_output w) as [[[[] total] unique]|]; [| |done].
    + destruct (match best with
                | Some b =>
                    best_len ← py_len b;
                    Ok (if bool_decide (total < best_len)%nat then Some w else Some b)
                | None => Ok (Some w)
                end) as [[kept|]|]; [| |done]; case_bool_decide; try done; apply Hsave.
    + apply Hsave.
  - destruct rest as [|second rest].
    + exfalso. cbn [length] in Hcount. revert Hone. unfold gemini_api.one_attempt.
      destruct (ask attempt first) as [w|]; [|done].
      destruct (gemini_api._is_abnormal_output w) as [[[[] total] unique]|]; [| |done].
      * destruct (match best with
                  | Some b =>
                      best_len ← py_len b;
                      Ok (if bool_decide (total < best_len)%nat then Some w else Some b)
                  | None => Ok (Some w)
                  end) as [[kept|]|]; [| |done];
          (rewrite bool_decide_eq_false_2 by lia);
          match goal with
          | |- gemini_api.save _ _ ?w _ = _ → _ =>
              intros Hretry; pose proof (Hno_retry w) as Hw; by rewrite Hretry in Hw
          end.
      * intros Hretry. pose proof (Hno_retry w) as Hw. by rewrite Hretry in Hw.
    + apply IH; [done | cbn [length] in *; lia].
  - case_bool_decide; [done|].
    destruct rest as [|second rest]; [cbn [length] in Hcount; lia|].
    apply IH; [done | cbn [length] in *; lia].
Qed.

End LoopLoses.

(** X26. Flagged answers are lost when the last attempt breaks: if no
    attempt gives an answer the detector lets pass and the last attempt
    raises (in the call, the parser or the detector), [run] raises
    [RuntimeError] with the text of that last exception and leaves the
    disk as it was, also when earlier attempts gave flagged answers that
    could have been saved. *)
Theorem run_loses_flagged_answers (prepare : result unit)
    (ask : nat → gemini_api.attempt_config → result json)
    (writing : string → json → write_end) (output_path : string)
    (fs : filesystem) (config : gemini_api.attempt_config) (e : exn) :
  prepare = Ok () →
  (∀ j cj vj, gemini_api.retry_configs !! j = Some cj → ask (S j) cj = Ok vj →
              normal vj = false) →
  last gemini_api.retry_configs = Some config →
  broken (ask 3%nat config) = Some e →
  gemini_api.run prepare ask writing output_path fs
  = (Raise (Exn "RuntimeError" ("所有重試配置都失敗: " +:+ exn_text e)), fs).
Proof.
  intros -> Hnot Hlast Hbroken. unfold gemini_api.run.
  apply attempts_lose; try done.
  intros config' Hconfig'. rewrite Hlast in Hconfig'. by injection Hconfig' as <-.
Qed.

Lemma run_loses_flagged_answers_witness :
  gemini_api.run (Ok ()) down_at_last all_written
    "temp_data/prompt1_json/2024_2330_p1.json" empty_disk
  = (Raise (Exn "RuntimeError" ("所有重試配置都失敗: " +:+ exn_text unavailable)),
     empty_disk).
Proof.
  apply (run_loses_flagged_answers (Ok ()) down_at_last all_written
           "temp_data/prompt1_json/2024_2330_p1.json" empty_disk
           {| gemini_api.model := gemini_api.FALLBACK_MODEL;
              gemini_api.temperature := "0.1";
              gemini_api.desc := "gemini-3-flash-preview (temp=0.1)" |}
           unavailable).
  - reflexivity.
  - intros j cj vj _ Hvj.
    destruct j as [|[|j]]; [injection Hvj as <-; vm_compute; reflexivity..
                           | discriminate Hvj].
  - reflexivity.
  - reflexivity.
Defined.

(** *** analyze_esg_report *)

(** X27. [analyze_esg_report] returns exactly when the analyzer can be
    built and [run] returns: the output file is then there and readable,
    so the missing-file error cannot occur. What it returns names the
    output file under [PATHS['P1_JSON']], a company name and an industry
    that are not empty, and as URL the address of the year; what it
    raises is a [FileNotFoundError] or a [RuntimeError], never another
    class. *)
Theorem analyze_esg_report_outcome (cfg : config) (strip : string → string)
    (construct : Z → string → string → string → filesystem → result unit)
    (prepare : Z → string → result unit)
    (ask : Z → string → nat → gemini_api.attempt_config → result json)
    (writing : string → json → write_end)
    (pdf_path : string) (year : Z) (company_code company_name industry : string)
    (fs : filesystem) :
  ((∃ analysis,
      (gemini_api.analyze_esg_report cfg strip construct prepare ask writing pdf_path year
         company_code company_name industry fs).1 = Ok analysis)
   ↔ construct year company_code company_name industry fs = Ok ()
     ∧ (gemini_api.run (prepare year company_code) (ask year company_code) writing
          (os_path_join (PATHS cfg "P1_JSON")
             (gemini_api.output_json_name strip year company_code)) fs).1 = Ok ())
  ∧ match (gemini_api.analyze_esg_report cfg strip construct prepare ask writing pdf_path
             year company_code company_name industry fs).1 with
    | Ok analysis =>
        analysis !! "url" = Some (gemini_api.mops_url year)
        ∧ analysis !! "output_path"
          = Some (os_path_join (PATHS cfg "P1_JSON")
                    (gemini_api.output_json_name strip year company_code))
        ∧ (∃ name, analysis !! "company_name" = Some name ∧ name ≠ "")
        ∧ (∃ sector, analysis !! "industry" = Some sector ∧ sector ≠ "")
        ∧ ∃ v n,
            files (gemini_api.analyze_esg_report cfg strip construct prepare ask writing
                     pdf_path year company_code company_name industry fs).2
              !! os_path_join (PATHS cfg "P1_JSON")
                   (gemini_api.output_json_name strip year company_code)
            = Some (Json v)
            ∧ py_len v = Ok n
    | Raise e => exn_class e = "FileNotFoundError" ∨ exn_class e = "RuntimeError"
    end.
Proof.
  unfold gemini_api.analyze_esg_report, gemini_api.analyze_body.
  destruct (construct year company_code company_name industry fs) as [[]|e0].
  2:{ case_bool_decide; cbn;
        (split; [split; [by intros [? ?] | by intros [? _]] | first [by left | by right]]). }
  cbv zeta.
  set (output_path := os_path_join _ _).
  unfold gemini_api.run.
  destruct (prepare year company_code) as [[]|e1].
  2:{ case_bool_decide; cbn;
        (split; [split; [by intros [? ?] | by intros [_ ?]] | first [by left | by right]]). }
  destruct (gemini_api.attempts (ask year company_code) writing output_path
              gemini_api.retry_configs 1 None fs) as [[[]|e2] fs'] eqn:Hrun.
  2:{ case_bool_decide; cbn;
        (split; [split; [by intros [? ?] | by intros [_ ?]] | first [by left | by right]]). }
  destruct (attempts_return_saved (ask year company_code) writing output_path
              gemini_api.retry_configs 1 None fs fs') as (v & n & Hv & Hn);
    [done|done|done|].
  unfold os_path_exists, json_load. rewrite Hv.
  rewrite bool_decide_eq_true_2 by eauto. cbn [negb].
  unfold mbind, result_bind. cbn [rbind]. rewrite Hn. cbn [rbind fst snd].
  split; [split; [done | intros _; by eexists]|].
  split_and!.
  - rewrite lookup_insert_ne, lookup_insert_ne, lookup_insert_eq; done.
  - rewrite !lookup_insert_ne, lookup_singleton_eq; done.
  - eexists. rewrite lookup_insert_eq. split; [done|].
    case_bool_decide; [done|done].
  - eexists. rewrite lookup_insert_ne, lookup_insert_eq by done. split; [done|].
    by case_bool_decide.
  - by exists v, n.
Qed.

(** *** The URL stored by a run that analyses *)

Lemma bind_same_on {A B} (P : A → Prop) (m1 m2 : M A) (k1 k2 : A → M B) (w : world) :
  m1 w = m2 w →
  (∀ a w', m2 w = (Next a, w') → P a) →
  (∀ a w', P a → k1 a w' = k2 a w') →
  bind m1 k1 w = bind m2 k2 w.
Proof.
  intros Hm HP Hk. unfold bind. rewrite Hm.
  destruct (m2 w) as [[a|r|e] w'] eqn:Hw; [|done..].
  apply Hk. by eapply HP.
Qed.

Lemma analyze_esg_report_url (cfg : config) (strip : string → string)
    (construct : Z → string → string → string → filesystem → result unit)
    (prepare : Z → string → result unit)
    (ask : Z → string → nat → gemini_api.attempt_config → result json)
    (writing : string → json → write_end)
    (pdf_path : string) (year : Z) (company_code company_name industry : string)
    (fs fs' : filesystem) (analysis : gmap string string) :
  gemini_api.analyze_esg_report cfg strip construct prepare ask writing pdf_path year
    company_code company_name industry fs = (Ok analysis, fs') →
  analysis !! "url" = Some (gemini_api.mops_url year).
Proof.
  unfold gemini_api.analyze_esg_report, gemini_api.analyze_body.
  destruct (construct year company_code company_name industry fs) as [[]|e0];
    [|by case_bool_decide].
  cbv zeta.
  destruct (gemini_api.run _ _ _ _ fs) as [[[]|e1] fs1]; [|by case_bool_decide].
  destruct (os_path_exists fs1 _); cbn [negb]; [|by case_bool_decide].
  unfold mbind, result_bind.
  destruct (json_load fs1 _) as [v|e2]; cbn [rbind]; [|by case_bool_decide].
  destruct (py_len v) as [n|e3]; cbn [rbind]; [|by case_bool_decide].
  intros [= <- <-]. by rewrite lookup_insert_ne, lookup_insert_ne, lookup_insert_eq.
Qed.

Section UrlOfAnalysis.
Variable cfg : config.
Variable svc : services.
Variable year : Z.
Variable company_code esg_id : string.
Variable report_info : gmap string string.
Hypothesis analysis_has_url :
  ∀ pdf_path company_name industry fs fs' analysis,
    analyze_esg_report svc pdf_path year company_code company_name industry fs
      = (Ok analysis, fs') →
    analysis !! "url" = Some (gemini_api.mops_url year).

Lemma stage2_hands_on_url (resume_from pdf_path : string) (w w' : world)
    (analysis_result : option (gmap string string)) :
  resume_from ∈ ["stage1"; "stage2"] →
  stage2_analysis svc year company_code esg_id report_info resume_from pdf_path w
    = (Next analysis_result, w') →
  analysed_url year analysis_result.
Proof.
  intros Hin. unfold stage2_analysis. rewrite (bool_decide_eq_true_2 _ Hin).
  unfold run_threads, run_wordcloud, run_ai_analysis. step.
  cbn [disk logged with_status with_active].
  destruct (analyze_esg_report svc pdf_path year company_code _ _ _)
    as [[analysis|e'] fs'] eqn:Han;
    destruct (generate_wordcloud svc year company_code pdf_path false) as [[report|e]|];
    cbn;
    repeat match goal with
           | |- context [if ?b then _ else _] => destruct b; cbn
           end;
    intros [= <- _]; cbn; first [done | by eapply analysis_has_url].
Qed.

Lemma stage6_with_year_address (analysis_result : option (gmap string string))
    (w : world) :
  analysed_url year analysis_result →
  stage6_persist cfg svc year company_code esg_id report_info analysis_result w
  = stage6_persist cfg (with_url svc (gemini_api.mops_url year)) year company_code esg_id
      report_info analysis_result w.
Proof.
  intros Hurl. unfold stage6_persist. destruct analysis_result as [analysis|].
  - cbn in Hurl. cbv beta iota.
    assert (∀ fallback, dict_get analysis "url" fallback = gemini_api.mops_url year) as ->
      by (intros; unfold dict_get; by rewrite Hurl).
    reflexivity.
  - reflexivity.
Qed.

Lemma run_with_year_address (resume_from : string) (w : world) :
  resume_from ∈ ["stage1"; "stage2"] →
  run_analysis cfg svc year company_code esg_id report_info resume_from w
  = run_analysis cfg (with_url svc (gemini_api.mops_url year)) year company_code esg_id
      report_info resume_from w.
Proof.
  intros Hin. unfold run_analysis, stages_1_to_6, mbind, M_bind.
  apply bind_same; [reflexivity|]. intros _ w1.
  apply try_catch_same; [|reflexivity].
  apply bind_same; [|reflexivity].
  apply bind_same; [reflexivity|]. intros pdf_path w2.
  apply (bind_same_on (analysed_url year)); [reflexivity| |].
  { intros a w3 Hstage. by eapply (stage2_hands_on_url resume_from pdf_path w2 w3). }
  intros analysis_result w3 Hurl.
  apply bind_same; [reflexivity|]. intros _ w4.
  apply bind_same; [reflexivity|]. intros _ w5.
  apply bind_same; [reflexivity|]. intros _ w6.
  by apply stage6_with_year_address.
Qed.

End UrlOfAnalysis.

(** X28. A run that enters stage 2 with the analyzer of [gemini_api]
    stores the address of the year as report URL, whatever the report:
    it is the run over collaborators whose insertion is always handed
    that address. Together with the empty URL of a resumed run, the URL
    stored says when stage 2 last ran, never where the report is. *)
Theorem analysed_run_stores_year_address (cfg cfg' : config) (svc : services)
    (strip : string → string)
    (construct : Z → string → string → string → filesystem → result unit)
    (prepare : Z → string → result unit)
    (ask : Z → string → nat → gemini_api.attempt_config → result json)
    (writing : string → json → write_end)
    (year : Z) (company_code esg_id : string) (report_info : gmap string string)
    (resume_from : string) (w : world) :
  resume_from ∈ ["stage1"; "stage2"] →
  run_analysis cfg (with_gemini svc cfg' strip construct prepare ask writing) year
    company_code esg_id report_info resume_from w
  = run_analysis cfg
      (with_url (with_gemini svc cfg' strip construct prepare ask writing)
         (gemini_api.mops_url year))
      year company_code esg_id report_info resume_from w.
Proof.
  intros Hin. apply run_with_year_address; [|done].
  intros pdf_path company_name industry fs fs' analysis Han.
  exact (analyze_esg_report_url cfg' strip construct prepare ask writing pdf_path year
           company_code company_name industry fs fs' analysis Han).
Qed.

Lemma analysed_run_stores_year_address_witness :
  run_analysis repo_config
    (with_gemini all_up repo_config (λ code, code) (λ _ _ _ _ _, Ok ()) (λ _ _, Ok ())
       (λ _ _, second_try) all_written)
    2024 "2330" "20242330" report_info_2330 "stage1" fresh_world
  = run_analysis repo_config
      (with_url
         (with_gemini all_up repo_config (λ code, code) (λ _ _ _ _ _, Ok ())
            (λ _ _, Ok ()) (λ _ _, second_try) all_written)
         (gemini_api.mops_url 2024))
      2024 "2330" "20242330" report_info_2330 "stage1" fresh_world.
Proof.
  apply (analysed_run_stores_year_address repo_config repo_config all_up (λ code, code)
           (λ _ _ _ _ _, Ok ()) (λ _ _, Ok ()) (λ _ _, second_try) all_written
           2024 "2330" "20242330" report_info_2330 "stage1" fresh_world).
  apply list_elem_of_here.
Defined.

(** ** The source check *)

Section SourceCheck.
Variable cfg : config.
Variable strip : string → string.
Variable verify_single_url : string → bool.
Variable find_alternative_url : json → json → json → string → result (option string).
Variable elapsed : Z.

Local Abbreviation check_items :=
  (pplx_api.check_items strip verify_single_url find_alternative_url).
Local Abbreviation kept := (kept_item strip verify_single_url find_alternative_url).

Lemma kept_item_further (item : json) (rest : list json) (written : json) :
  kept rest written → kept (item :: rest) written.
Proof.
  intros (fields & text & Hin & Hrest). exists fields, text.
  split; [by apply list_elem_of_further | done].
Qed.

(** The loop appends kept items only, and counts each item once at most. *)
Lemma check_items_kept (items : list json) :
  ∀ (processed_data : list json) (counts : pplx_api.tally) (processed : list json)
    (counts' : pplx_api.tally),
    check_items items processed_data counts = Ok (processed, counts') →
    ∃ added,
      processed = (processed_data ++ added)%list
      ∧ Forall (kept items) added
      ∧ (pplx_api.verified_count counts' + pplx_api.updated_count counts'
         = pplx_api.verified_count counts + pplx_api.updated_count counts
           + length added)%nat
      ∧ (pplx_api.failed_count counts' + length added
         ≤ pplx_api.failed_count counts + length items)%nat
      ∧ (pplx_api.failed_count counts ≤ pplx_api.failed_count counts')%nat.
Proof.
  induction items as [|item rest IH]; intros processed_data counts processed counts'.
  { intros [= <- <-]. exists []. rewrite app_nil_r. by split_and!; [|constructor|cbn; lia..]. }
  cbn [pplx_api.check_items].
  destruct item as [| | | |more|fields]; try done.
  destruct (pplx_api.get_or_empty fields "external_evidence_url") as [| | |text| |]
    eqn:Hurl; try done.
  case_bool_decide as Hblank.
  { intros Hrest. destruct (IH _ _ _ _ Hrest) as (added & -> & Hkept & Hsum & Hfail & Hmono).
    exists added. split_and!; [done| |done|cbn [length]; lia|done].
    eapply Forall_impl; [exact Hkept|]. intros written. apply kept_item_further. }
  destruct (verify_single_url (strip text)) eqn:Hvalid.
  { intros Hrest. destruct (IH _ _ _ _ Hrest) as (added & -> & Hkept & Hsum & Hfail & Hmono).
    cbn in Hsum, Hfail, Hmono.
    eexists (_ :: added). rewrite <- app_assoc. split_and!; [done| |cbn; lia..].
    constructor.
    - exists fields, text. split_and!; [apply list_elem_of_here|done|done|by left].
    - eapply Forall_impl; [exact Hkept|]. intros written. apply kept_item_further. }
  unfold mbind, result_bind.
  destruct (find_alternative_url _ _ _ _) as [new_url|e] eqn:Hfound; [|done]. cbn [rbind].
  case_bool_decide as Hnone.
  { intros Hrest. destruct (IH _ _ _ _ Hrest) as (added & -> & Hkept & Hsum & Hfail & Hmono).
    cbn in Hsum, Hfail, Hmono.
    exists added. split_and!; [done| |done|cbn [length]; lia|lia].
    eapply Forall_impl; [exact Hkept|]. intros written. apply kept_item_further. }
  intros Hrest. destruct (IH _ _ _ _ Hrest) as (added & -> & Hkept & Hsum & Hfail & Hmono).
  cbn in Hsum, Hfail, Hmono.
  eexists (_ :: added). rewrite <- app_assoc. split_and!; [done| |cbn; lia..].
  constructor.
  - destruct new_url as [found|]; [|done]. cbn [default] in Hnone |- *.
    exists fields, text. split_and!; [apply list_elem_of_here|done|done|right].
    split; [done|]. by exists found.
  - eapply Forall_impl; [exact Hkept|]. intros written. apply kept_item_further.
Qed.

End SourceCheck.

Section SourceCheckAnswers.
Variable cfg : config.
Variable strip : string → string.
Variable verify_single_url : string → bool.
Variable find_alternative_url : json → json → json → string → result (option string).
Variable writing : string → json → write_end.
Variable elapsed : Z.
Variable year : Z.
Variable company_code : string.

Local Abbreviation verify force fs :=
  (pplx_api.verify_evidence_sources cfg strip verify_single_url find_alternative_url
     writing elapsed year company_code force fs).
Local Abbreviation input_file := (pplx_api.input_file cfg year company_code).
Local Abbreviation output_file := (pplx_api.output_file cfg year company_code).


Variable str_of : json → string.
Variable format_2f : json → result string.

(** X30. As app.py calls it, with [force_regenerate] true, the source
    check never answers that it skipped; and when it succeeds, stage 5
    prints the success line and the output path and then fails on the
    key [total_input], which the statistics do not have: the report of
    every successful source check ends in the exception handler of the
    stage. A failure is reported with its error text. *)
Theorem source_report_ends_in_handler (fs : filesystem) :
  (verify true fs).1 !! "skipped" = None
  ∧ (((verify true fs).1 !! "success" = Some (JBool true)
      ∧ source_check_lines str_of format_2f (verify true fs).1
        = ["✅ 來源驗證完成";
           "   輸出檔案: " +:+ str_of (JStr output_file);
           "⚠️ 來源驗證發生錯誤: 'total_input'（不影響主流程）"])
     ∨ ((verify true fs).1 !! "success" = Some (JBool false)
        ∧ ∃ error,
            (verify true fs).1 !! "error" = Some (JStr error)
            ∧ source_check_lines str_of format_2f (verify true fs).1
              = ["⚠️ 來源驗證失敗：" +:+ str_of (JStr error) +:+ "（不影響主流程）"])).
Proof.
  unfold pplx_api.verify_evidence_sources.
  destruct (os_path_exists fs input_file); cbn [negb].
  2:{ cbn [fst snd]. split; [by simplify_map_eq|]. right.
      split; [by simplify_map_eq|]. eexists. split; [by simplify_map_eq|].
      unfold source_check_lines, report_source_check, py_getitem.
      by simplify_map_eq. }
  rewrite andb_false_r.
  unfold mbind, result_bind.
  assert (∀ e : exn,
            let answer : gmap string json :=
              <["success" := JBool false]>
              (<["message" := JStr ("驗證失敗: " +:+ exn_text e)]>
              {[ "error" := JStr (exn_text e) ]}) in
            answer !! "skipped" = None
            ∧ ((answer !! "success" = Some (JBool true)
                ∧ source_check_lines str_of format_2f answer
                  = ["✅ 來源驗證完成";
                     "   輸出檔案: " +:+ str_of (JStr output_file);
                     "⚠️ 來源驗證發生錯誤: 'total_input'（不影響主流程）"])
               ∨ (answer !! "success" = Some (JBool false)
                  ∧ ∃ error,
                      answer !! "error" = Some (JStr error)
                      ∧ source_check_lines str_of format_2f answer
                        = ["⚠️ 來源驗證失敗：" +:+ str_of (JStr error)
                           +:+ "（不影響主流程）"]))) as Hfailed.
  { intros e answer. unfold answer. split; [by simplify_map_eq|]. right.
    split; [by simplify_map_eq|]. eexists. split; [by simplify_map_eq|].
    unfold source_check_lines, report_source_check, py_getitem.
    by simplify_map_eq. }
  destruct (json_load fs input_file) as [data|e]; cbn [rbind]; [|apply Hfailed].
  destruct (pplx_api.iterate data) as [items|e]; cbn [rbind]; [|apply Hfailed].
  destruct (pplx_api.check_items _ _ _ items [] _) as [[processed counts]|e];
    [|apply Hfailed].
  unfold json_dump.
  destruct (writing output_file (JList processed)) as [|e|e left_behind];
    [|apply Hfailed..].
  cbn [fst snd]. split; [by simplify_map_eq|]. left. split; [by simplify_map_eq|].
  unfold source_check_lines, report_source_check, py_getitem.
  simplify_map_eq. cbn [py_truthy].
  unfold stat_line, subscript, py_getitem, mbind, result_bind.
  simplify_map_eq. reflexivity.
Qed.

End SourceCheckAnswers.
